(** * Offline-First: the task store, the change queue and the sync engine

    A shallow embedding of the synchronisation core of the application
    (src/database/taskAdapter.ts with the SQLite wrapper it calls,
    src/services/syncManager.ts, src/services/mockApi.ts and the edit and
    delete handlers of src/app/task-detail.tsx), followed by the properties
    the specification states about it.  A last part covers more of the
    code: the reads of the mock server, the background task, the task
    list, the images of the edit screen and the text of the identifiers,
    with properties read off the code itself.

    Conventions of the embedding:
    - a JavaScript string is its sequence of UTF-16 code units;
    - an optional field holds [undefined], [null] or a value, because the
      store distinguishes the first two when it writes a row;
    - [async] code is sequential code: a computation is a function from a
      state to a result (a value or a thrown error) and the next state, and
      the state reached when an error is thrown is the one the handler sees;
    - the SQLite table, AsyncStorage, the mock server, the network and the
      console are fields of one [World]; local storage never fails. *)

From Stdlib Require Import List Bool Arith ZArith NArith QArith String Ascii
  Sorted Permutation DecimalN Lia.
Import ListNotations.

Set Implicit Arguments.
Set Warnings "-register-all".
Unset Strict Implicit.

Local Open Scope N_scope.

(* ================================================================== *)
(** ** JavaScript values                                               *)
(* ================================================================== *)

Module Js.

Definition codeunit := N.
Definition jsstring := list codeunit.

(** A string literal of the source, as code units. *)
Definition js (s : string) : jsstring :=
  map N_of_ascii (list_ascii_of_string s).

Fixpoint str_eqb (a b : jsstring) : bool :=
  match a, b with
  | [], [] => true
  | x :: a', y :: b' => (x =? y) && str_eqb a' b'
  | _, _ => false
  end.

Fixpoint starts_with (needle hay : jsstring) : bool :=
  match needle, hay with
  | [], _ => true
  | x :: n', y :: h' => (x =? y) && starts_with n' h'
  | _ :: _, [] => false
  end.

(** [String.prototype.includes]. *)
Fixpoint includes (needle hay : jsstring) : bool :=
  starts_with needle hay ||
  match hay with
  | [] => false
  | _ :: h' => includes needle h'
  end.

(** White space and line terminators removed by [String.prototype.trim]. *)
Definition is_trim_space (c : codeunit) : bool :=
  (c =? 9) || (c =? 10) || (c =? 11) || (c =? 12) || (c =? 13) ||
  (c =? 32) || (c =? 160) || (c =? 5760) ||
  ((8192 <=? c) && (c <=? 8202)) ||
  (c =? 8232) || (c =? 8233) || (c =? 8239) || (c =? 8287) ||
  (c =? 12288) || (c =? 65279).

Fixpoint trim_start (s : jsstring) : jsstring :=
  match s with
  | c :: r => if is_trim_space c then trim_start r else s
  | [] => []
  end.

Definition trim (s : jsstring) : jsstring :=
  rev (trim_start (rev (trim_start s))).

(** Optional values: absent, SQL NULL / JS null, or present. *)
Inductive maybe (A : Type) : Type :=
| undefined
| null
| val (a : A).
Arguments undefined {A}.
Arguments null {A}.

(** Truthiness of the primitive types the code tests. *)
Definition truthy_str (s : jsstring) : bool :=
  match s with [] => false | _ :: _ => true end.

Definition truthy_int (z : Z) : bool := negb (Z.eqb z 0).

Definition truthy_num (q : Q) : bool := negb (Qeq_bool q 0).

Definition truthy {A} (t : A -> bool) (m : maybe A) : bool :=
  match m with
  | val a => t a
  | _ => false
  end.

(** [x || null]. *)
Definition or_null {A} (t : A -> bool) (m : maybe A) : maybe A :=
  match m with
  | val a => if t a then val a else null
  | _ => null
  end.

(** [x || undefined]. *)
Definition or_undefined {A} (t : A -> bool) (m : maybe A) : maybe A :=
  match m with
  | val a => if t a then val a else undefined
  | _ => undefined
  end.

Definition always_truthy {A} (_ : A) : bool := true.

(** A thrown [Error]: only its [name] and [message] are inspected. *)
Record JsError := mkError { err_name : jsstring; err_message : jsstring }.

Definition new_Error (msg : jsstring) : JsError :=
  {| err_name := js "Error"; err_message := msg |}.

(** [Array.prototype.sort(compare)].  The sort is stable: an element goes
    before the first element of the sorted rest that it does not come
    after. *)
Fixpoint insert_by {A} (compare : A -> A -> Z) (x : A) (sorted : list A)
  : list A :=
  match sorted with
  | [] => [x]
  | y :: rest =>
      if (compare x y <=? 0)%Z then x :: sorted
      else y :: insert_by compare x rest
  end.

Definition sort_by {A} (compare : A -> A -> Z) (l : list A) : list A :=
  fold_right (insert_by compare) [] l.

(** The order of [sort()] without a comparator on strings: by code units,
    a proper prefix first. *)
Fixpoint str_compare (a b : jsstring) : Z :=
  match a, b with
  | [], [] => 0%Z
  | [], _ :: _ => (-1)%Z
  | _ :: _, [] => 1%Z
  | x :: a', y :: b' =>
      if x <? y then (-1)%Z
      else if y <? x then 1%Z
      else str_compare a' b'
  end.

Definition default_sort (l : list jsstring) : list jsstring :=
  sort_by str_compare l.

(** [arr.filter((_, i) => i !== index)]. *)
Definition without_index {A} (index : nat) (arr : list A) : list A :=
  map snd (filter (fun it => negb (Nat.eqb (fst it) index))
                  (combine (seq 0 (List.length arr)) arr)).

End Js.
Export Js.

(* ================================================================== *)
(** ** JSON.stringify and JSON.parse                                   *)
(* ================================================================== *)

(** The image list of a task is kept as JSON text in one TEXT column.
    [stringify] follows SerializeJSONProperty / QuoteJSONString of
    ECMA-262 (no indentation), [parse] the JSON grammar.  A number keeps
    its literal text: no code of the application computes with a parsed
    number. *)

Module Json.

Inductive JValue : Type :=
| JNull
| JBool (b : bool)
| JNumber (literal : jsstring)
| JString (s : jsstring)
| JArray (items : list JValue)
| JObject (members : list (jsstring * JValue)).

(** *** Serialisation *)

Definition hex_digit (d : N) : codeunit :=
  if d <? 10 then 48 + d else 87 + d.

(** [\uXXXX], four lower-case hexadecimal digits. *)
Definition unicode_escape (c : codeunit) : jsstring :=
  [92; 117; hex_digit (c / 4096 mod 16); hex_digit (c / 256 mod 16);
   hex_digit (c / 16 mod 16); hex_digit (c mod 16)].

Definition is_lead_surrogate (c : codeunit) : bool :=
  (55296 <=? c) && (c <=? 56319).

Definition is_trail_surrogate (c : codeunit) : bool :=
  (56320 <=? c) && (c <=? 57343).

(** One code point that is not a surrogate pair. *)
Definition quote_unit (c : codeunit) : jsstring :=
  if c =? 8 then [92; 98]
  else if c =? 9 then [92; 116]
  else if c =? 10 then [92; 110]
  else if c =? 12 then [92; 102]
  else if c =? 13 then [92; 114]
  else if c =? 34 then [92; 34]
  else if c =? 92 then [92; 92]
  else if (c <? 32) || is_lead_surrogate c || is_trail_surrogate c
       then unicode_escape c
  else [c].

(** The characters between the quotes: a lead surrogate followed by a
    trail surrogate is one code point and is copied, a lone surrogate is
    escaped. *)
Fixpoint quote_chars (s : jsstring) : jsstring :=
  match s with
  | [] => []
  | c :: r =>
      if is_lead_surrogate c then
        match r with
        | d :: r' =>
            if is_trail_surrogate d then c :: d :: quote_chars r'
            else unicode_escape c ++ quote_chars r
        | [] => unicode_escape c
        end
      else quote_unit c ++ quote_chars r
  end.

Definition quote (s : jsstring) : jsstring :=
  34 :: quote_chars s ++ [34].

Fixpoint join_comma (parts : list jsstring) : jsstring :=
  match parts with
  | [] => []
  | [p] => p
  | p :: rest => p ++ 44 :: join_comma rest
  end.

Fixpoint stringify (v : JValue) : jsstring :=
  match v with
  | JNull => js "null"
  | JBool true => js "true"
  | JBool false => js "false"
  | JNumber literal => literal
  | JString s => quote s
  | JArray items => 91 :: join_comma (map stringify items) ++ [93]
  | JObject members =>
      123 :: join_comma
               (map (fun kv => quote (fst kv) ++ 58 :: stringify (snd kv))
                    members) ++ [125]
  end.

(** *** Parsing *)

Definition is_ws (c : codeunit) : bool :=
  (c =? 9) || (c =? 10) || (c =? 13) || (c =? 32).

Fixpoint skip_ws (s : jsstring) : jsstring :=
  match s with
  | c :: r => if is_ws c then skip_ws r else s
  | [] => []
  end.

Definition hex_value (c : codeunit) : option N :=
  if (48 <=? c) && (c <=? 57) then Some (c - 48)
  else if (97 <=? c) && (c <=? 102) then Some (c - 87)
  else if (65 <=? c) && (c <=? 70) then Some (c - 55)
  else None.

Definition hex4 (a b c d : codeunit) : option codeunit :=
  match hex_value a, hex_value b, hex_value c, hex_value d with
  | Some x, Some y, Some z, Some w => Some (4096 * x + 256 * y + 16 * z + w)
  | _, _, _, _ => None
  end.

(** The character a one-letter escape stands for. *)
Definition unescape (c : codeunit) : option codeunit :=
  if c =? 34 then Some 34
  else if c =? 92 then Some 92
  else if c =? 47 then Some 47
  else if c =? 98 then Some 8
  else if c =? 102 then Some 12
  else if c =? 110 then Some 10
  else if c =? 114 then Some 13
  else if c =? 116 then Some 9
  else None.

Definition consed (c : codeunit) (r : option (jsstring * jsstring))
  : option (jsstring * jsstring) :=
  match r with
  | Some (s, rest) => Some (c :: s, rest)
  | None => None
  end.

(** The characters of a string after its opening quote, up to and
    including the closing quote. *)
Fixpoint parse_chars (s : jsstring) : option (jsstring * jsstring) :=
  match s with
  | [] => None
  | c :: r =>
      if c =? 34 then Some ([], r)
      else if c =? 92 then
        match r with
        | [] => None
        | e :: r1 =>
            if e =? 117 then
              match r1 with
              | h1 :: h2 :: h3 :: h4 :: r2 =>
                  match hex4 h1 h2 h3 h4 with
                  | Some u => consed u (parse_chars r2)
                  | None => None
                  end
              | _ => None
              end
            else
              match unescape e with
              | Some u => consed u (parse_chars r1)
              | None => None
              end
        end
      else if c <? 32 then None
      else consed c (parse_chars r)
  end.

Definition is_digit (c : codeunit) : bool := (48 <=? c) && (c <=? 57).

Fixpoint take_digits (s : jsstring) : jsstring * jsstring :=
  match s with
  | c :: r =>
      if is_digit c then let (d, rest) := take_digits r in (c :: d, rest)
      else ([], s)
  | [] => ([], [])
  end.

(** [int]: a single [0], or a non-zero digit followed by digits. *)
Definition parse_int (s : jsstring) : option (jsstring * jsstring) :=
  match s with
  | c :: r =>
      if c =? 48 then Some ([48], r)
      else if is_digit c then let (d, rest) := take_digits r in Some (c :: d, rest)
      else None
  | [] => None
  end.

Definition parse_frac (s : jsstring) : option (jsstring * jsstring) :=
  match s with
  | 46 :: r =>
      match take_digits r with
      | ([], _) => None
      | (d, rest) => Some (46 :: d, rest)
      end
  | _ => Some ([], s)
  end.

Definition parse_exp (s : jsstring) : option (jsstring * jsstring) :=
  match s with
  | c :: r =>
      if (c =? 101) || (c =? 69) then
        let (sign, r1) :=
          match r with
          | x :: r' => if (x =? 43) || (x =? 45) then ([x], r') else ([], r)
          | [] => ([], r)
          end in
        match take_digits r1 with
        | ([], _) => None
        | (d, rest) => Some (c :: sign ++ d, rest)
        end
      else Some ([], s)
  | [] => Some ([], s)
  end.

Definition parse_number (s : jsstring) : option (jsstring * jsstring) :=
  let (minus, r0) :=
    match s with
    | 45 :: r => ([45], r)
    | _ => ([], s)
    end in
  match parse_int r0 with
  | None => None
  | Some (i, r1) =>
      match parse_frac r1 with
      | None => None
      | Some (f, r2) =>
          match parse_exp r2 with
          | None => None
          | Some (e, r3) => Some (minus ++ i ++ f ++ e, r3)
          end
      end
  end.

Definition parse_literal (word : string) (v : JValue) (s : jsstring)
  : option (JValue * jsstring) :=
  if starts_with (js word) s
  then Some (v, skipn (List.length (js word)) s)
  else None.

Section Compound.

(** The parser of one value, at the nesting depth below. *)
Variable parse_inner : jsstring -> option (JValue * jsstring).

(** The elements of a non-empty array, up to and including [']']. *)
Fixpoint parse_elements (n : nat) (s : jsstring)
  : option (list JValue * jsstring) :=
  match n with
  | O => None
  | S n' =>
      match parse_inner s with
      | None => None
      | Some (v, r) =>
          match skip_ws r with
          | c :: r1 =>
              if c =? 44 then
                match parse_elements n' r1 with
                | Some (vs, r2) => Some (v :: vs, r2)
                | None => None
                end
              else if c =? 93 then Some ([v], r1)
              else None
          | [] => None
          end
      end
  end.

(** The members of a non-empty object, up to and including ['}']. *)
Fixpoint parse_members (n : nat) (s : jsstring)
  : option (list (jsstring * JValue) * jsstring) :=
  match n with
  | O => None
  | S n' =>
      match skip_ws s with
      | 34 :: r =>
          match parse_chars r with
          | None => None
          | Some (k, r1) =>
              match skip_ws r1 with
              | 58 :: r2 =>
                  match parse_inner r2 with
                  | None => None
                  | Some (v, r3) =>
                      match skip_ws r3 with
                      | c :: r4 =>
                          if c =? 44 then
                            match parse_members n' r4 with
                            | Some (ms, r5) => Some ((k, v) :: ms, r5)
                            | None => None
                            end
                          else if c =? 125 then Some ([(k, v)], r4)
                          else None
                      | [] => None
                      end
                  end
              | _ => None
              end
          end
      | _ => None
      end
  end.

End Compound.

(** One value with the white space before it; [depth] bounds the nesting. *)
Fixpoint parse_value (depth : nat) (s : jsstring) : option (JValue * jsstring) :=
  match depth with
  | O => None
  | S d =>
      match skip_ws s with
      | [] => None
      | c :: r =>
          if c =? 34 then
            match parse_chars r with
            | Some (str, rest) => Some (JString str, rest)
            | None => None
            end
          else if c =? 91 then
            match skip_ws r with
            | 93 :: rest => Some (JArray [], rest)
            | _ =>
                match parse_elements (parse_value d) (S (List.length r)) r with
                | Some (vs, rest) => Some (JArray vs, rest)
                | None => None
                end
            end
          else if c =? 123 then
            match skip_ws r with
            | 125 :: rest => Some (JObject [], rest)
            | _ =>
                match parse_members (parse_value d) (S (List.length r)) r with
                | Some (ms, rest) => Some (JObject ms, rest)
                | None => None
                end
            end
          else if c =? 116 then parse_literal "true" (JBool true) (c :: r)
          else if c =? 102 then parse_literal "false" (JBool false) (c :: r)
          else if c =? 110 then parse_literal "null" JNull (c :: r)
          else
            match parse_number (c :: r) with
            | Some (lit, rest) => Some (JNumber lit, rest)
            | None => None
            end
      end
  end.

(** [JSON.parse]: [None] stands for the SyntaxError it throws.  A text of
    [n] code units nests less than [n] deep. *)
Definition parse (text : jsstring) : option JValue :=
  match parse_value (S (List.length text)) text with
  | Some (v, rest) =>
      match skip_ws rest with
      | [] => Some v
      | _ :: _ => None
      end
  | None => None
  end.

End Json.
Export Json.

(* ================================================================== *)
(** ** The data model (models/Task.ts, sqlite-db.ts)                   *)
(* ================================================================== *)

Inductive TaskStatus := pending | in_progress | done | cancelled.
Inductive SyncStatus := pending_sync | syncing | synced.
Inductive ConflictResolution := client_wins | server_wins | manual.

Definition TaskStatus_eqb (a b : TaskStatus) : bool :=
  match a, b with
  | pending, pending | in_progress, in_progress
  | done, done | cancelled, cancelled => true
  | _, _ => false
  end.

Definition SyncStatus_eqb (a b : SyncStatus) : bool :=
  match a, b with
  | pending_sync, pending_sync | syncing, syncing | synced, synced => true
  | _, _ => false
  end.

Definition ConflictResolution_eqb (a b : ConflictResolution) : bool :=
  match a, b with
  | client_wins, client_wins | server_wins, server_wins
  | manual, manual => true
  | _, _ => false
  end.

(** [interface TaskLocation]. *)
Record TaskLocation := mkLocation {
  lat : Q;
  lng : Q;
  address : jsstring
}.

(** [interface TaskData]: one row of the table [tasks], and the private
    [data] of a [TaskAdapter].  Time stamps are epoch milliseconds. *)
Record TaskData := mkTaskData {
  id : jsstring;
  title : jsstring;
  description : maybe jsstring;
  status : TaskStatus;
  sync_status : SyncStatus;
  server_id : maybe jsstring;
  server_status : maybe TaskStatus;
  conflict_resolution : maybe ConflictResolution;
  created_at : Z;
  updated_at : Z;
  synced_at : maybe Z;
  price : maybe Q;
  location_lat : maybe Q;
  location_lng : maybe Q;
  location_address : maybe jsstring;
  image_url : maybe jsstring;
  expires_at : maybe Z
}.

(** Assignments to one field of [this.data]. *)
Definition set_title (v : jsstring) (t : TaskData) : TaskData :=
  mkTaskData (id t) v (description t) (status t) (sync_status t) (server_id t)
    (server_status t) (conflict_resolution t) (created_at t) (updated_at t)
    (synced_at t) (price t) (location_lat t) (location_lng t)
    (location_address t) (image_url t) (expires_at t).

Definition set_description (v : maybe jsstring) (t : TaskData) : TaskData :=
  mkTaskData (id t) (title t) v (status t) (sync_status t) (server_id t)
    (server_status t) (conflict_resolution t) (created_at t) (updated_at t)
    (synced_at t) (price t) (location_lat t) (location_lng t)
    (location_address t) (image_url t) (expires_at t).

Definition set_status (v : TaskStatus) (t : TaskData) : TaskData :=
  mkTaskData (id t) (title t) (description t) v (sync_status t) (server_id t)
    (server_status t) (conflict_resolution t) (created_at t) (updated_at t)
    (synced_at t) (price t) (location_lat t) (location_lng t)
    (location_address t) (image_url t) (expires_at t).

Definition set_sync_status (v : SyncStatus) (t : TaskData) : TaskData :=
  mkTaskData (id t) (title t) (description t) (status t) v (server_id t)
    (server_status t) (conflict_resolution t) (created_at t) (updated_at t)
    (synced_at t) (price t) (location_lat t) (location_lng t)
    (location_address t) (image_url t) (expires_at t).

Definition set_server_id (v : maybe jsstring) (t : TaskData) : TaskData :=
  mkTaskData (id t) (title t) (description t) (status t) (sync_status t) v
    (server_status t) (conflict_resolution t) (created_at t) (updated_at t)
    (synced_at t) (price t) (location_lat t) (location_lng t)
    (location_address t) (image_url t) (expires_at t).

Definition set_server_status (v : maybe TaskStatus) (t : TaskData) : TaskData :=
  mkTaskData (id t) (title t) (description t) (status t) (sync_status t)
    (server_id t) v (conflict_resolution t) (created_at t) (updated_at t)
    (synced_at t) (price t) (location_lat t) (location_lng t)
    (location_address t) (image_url t) (expires_at t).

Definition set_conflict_resolution (v : maybe ConflictResolution)
  (t : TaskData) : TaskData :=
  mkTaskData (id t) (title t) (description t) (status t) (sync_status t)
    (server_id t) (server_status t) v (created_at t) (updated_at t)
    (synced_at t) (price t) (location_lat t) (location_lng t)
    (location_address t) (image_url t) (expires_at t).

Definition set_updated_at (v : Z) (t : TaskData) : TaskData :=
  mkTaskData (id t) (title t) (description t) (status t) (sync_status t)
    (server_id t) (server_status t) (conflict_resolution t) (created_at t) v
    (synced_at t) (price t) (location_lat t) (location_lng t)
    (location_address t) (image_url t) (expires_at t).

Definition set_synced_at (v : maybe Z) (t : TaskData) : TaskData :=
  mkTaskData (id t) (title t) (description t) (status t) (sync_status t)
    (server_id t) (server_status t) (conflict_resolution t) (created_at t)
    (updated_at t) v (price t) (location_lat t) (location_lng t)
    (location_address t) (image_url t) (expires_at t).

Definition set_price (v : maybe Q) (t : TaskData) : TaskData :=
  mkTaskData (id t) (title t) (description t) (status t) (sync_status t)
    (server_id t) (server_status t) (conflict_resolution t) (created_at t)
    (updated_at t) (synced_at t) v (location_lat t) (location_lng t)
    (location_address t) (image_url t) (expires_at t).

Definition set_location_fields (la lo : maybe Q) (ad : maybe jsstring)
  (t : TaskData) : TaskData :=
  mkTaskData (id t) (title t) (description t) (status t) (sync_status t)
    (server_id t) (server_status t) (conflict_resolution t) (created_at t)
    (updated_at t) (synced_at t) (price t) la lo ad (image_url t)
    (expires_at t).

Definition set_image_url (v : maybe jsstring) (t : TaskData) : TaskData :=
  mkTaskData (id t) (title t) (description t) (status t) (sync_status t)
    (server_id t) (server_status t) (conflict_resolution t) (created_at t)
    (updated_at t) (synced_at t) (price t) (location_lat t) (location_lng t)
    (location_address t) v (expires_at t).

Definition set_expires_at (v : maybe Z) (t : TaskData) : TaskData :=
  mkTaskData (id t) (title t) (description t) (status t) (sync_status t)
    (server_id t) (server_status t) (conflict_resolution t) (created_at t)
    (updated_at t) (synced_at t) (price t) (location_lat t) (location_lng t)
    (location_address t) (image_url t) v.

(** [Partial<TaskData>], the argument of [sqliteDb.updateTask]: a field
    that is [undefined] is not written.  The columns declared NOT NULL are
    absent ([None]) or hold a value; the others may also hold [null]. *)
Record TaskUpdates := mkUpdates {
  u_title : option jsstring;
  u_description : maybe jsstring;
  u_status : option TaskStatus;
  u_sync_status : option SyncStatus;
  u_server_id : maybe jsstring;
  u_server_status : maybe TaskStatus;
  u_conflict_resolution : maybe ConflictResolution;
  u_updated_at : option Z;
  u_synced_at : maybe Z;
  u_price : maybe Q;
  u_location_lat : maybe Q;
  u_location_lng : maybe Q;
  u_location_address : maybe jsstring;
  u_image_url : maybe jsstring;
  u_expires_at : maybe Z
}.

Definition no_updates : TaskUpdates :=
  mkUpdates None undefined None None undefined undefined
    undefined None undefined undefined undefined undefined undefined
    undefined undefined.

(** [interface SyncQueueItem]. *)
Inductive QueueAction := act_create | act_update | act_delete.

Record SyncQueueItem := mkQueueItem {
  taskId : jsstring;
  action : QueueAction;
  data : maybe JValue;
  timestamp : Z
}.

(* ================================================================== *)
(** ** Computations: state, thrown errors, try / catch / finally       *)
(* ================================================================== *)

Inductive Result (A : Type) : Type :=
| Ok (a : A)
| Throw (e : JsError).
Arguments Throw {A} e.

(** A computation over a state [S].  A thrown error leaves the state as it
    was when the [throw] ran, which is what a [catch] block observes. *)
Definition M (S A : Type) : Type := S -> Result A * S.

Definition ret {S A} (a : A) : M S A := fun s => (Ok a, s).

Definition bind {S A B} (m : M S A) (k : A -> M S B) : M S B :=
  fun s =>
    match m s with
    | (Ok a, s') => k a s'
    | (Throw e, s') => (Throw e, s')
    end.

Definition throw {S A} (e : JsError) : M S A := fun s => (Throw e, s).

Definition try_catch {S A} (m : M S A) (handler : JsError -> M S A) : M S A :=
  fun s =>
    match m s with
    | (Ok a, s') => (Ok a, s')
    | (Throw e, s') => handler e s'
    end.

Definition try_finally {S A} (m : M S A) (final : M S unit) : M S A :=
  fun s =>
    let (r, s1) := m s in
    match final s1 with
    | (Ok _, s2) => (r, s2)
    | (Throw e, s2) => (Throw e, s2)
    end.

Definition gets {S A} (f : S -> A) : M S A := fun s => (Ok (f s), s).

Definition modify {S} (f : S -> S) : M S unit := fun s => (Ok tt, f s).

Declare Scope js_scope.
Delimit Scope js_scope with js_m.
Notation "x <- m ;; k" := (bind m (fun x => k))
  (at level 61, m at next level, right associativity) : js_scope.
Notation "m ;; k" := (bind m (fun _ => k))
  (at level 61, right associativity) : js_scope.
Local Open Scope js_scope.

(** [for (const x of xs) body]: a throw in [body] leaves the loop. *)
Fixpoint for_each {S A} (xs : list A) (body : A -> M S unit) : M S unit :=
  match xs with
  | [] => ret tt
  | x :: rest => body x ;; for_each rest body
  end.

Definition final_state {S A} (r : Result A * S) : S := snd r.

(* ================================================================== *)
(** ** The world the code runs in                                      *)
(* ================================================================== *)

(** [class SQLiteDatabase]: the rows of [tasks] in insertion order, the
    number of times the listeners were called, and the random source of
    [generateUUID] with the number of identifiers drawn from it. *)
Record Sqlite := mkSqlite {
  rows : list TaskData;
  change_rounds : nat;
  uuid_source : nat -> jsstring;
  uuids_drawn : nat
}.

(** mockApi.ts: [TaskResponse] and the in-memory store.  An ISO-8601 time
    stamp is represented by the instant it denotes. *)
Record TaskResponse := mkResponse {
  r_id : jsstring;
  r_title : jsstring;
  r_description : maybe jsstring;
  r_status : TaskStatus;
  r_price : maybe Q;
  r_location : maybe TaskLocation;
  r_image_url : maybe JValue;
  r_expires_at : maybe Z;
  r_created_at : Z;
  r_updated_at : Z
}.

(** The argument [data] of [mockApi.createTask] and [mockApi.updateTask]. *)
Record Payload := mkPayload {
  p_title : jsstring;
  p_description : maybe jsstring;
  p_status : TaskStatus;
  p_price : maybe Q;
  p_location : maybe TaskLocation;
  p_image_url : maybe JValue;
  p_expires_at : maybe Z
}.

Inductive MockCall :=
| mock_createTask (p : Payload)
| mock_updateTask (sid : jsstring) (p : Payload)
| mock_deleteTask (sid : jsstring).

(** [mockTasks] (a Map, in insertion order), [nextId], and the calls the
    mock server has received, oldest first. *)
Record Mock := mkMock {
  mockTasks : list (jsstring * TaskResponse);
  nextId : N;
  mock_calls : list MockCall
}.

(** The network reached through [fetch]. *)
Inductive HttpMethod := POST | PUT | DELETE.

Record HttpBody := mkBody {
  b_title : jsstring;
  b_description : maybe jsstring;
  b_status : TaskStatus
}.

Record HttpRequest := mkRequest {
  method : HttpMethod;
  url : jsstring;
  body : option HttpBody
}.

(** What [response.json()] yields for the two typed uses the code makes
    of it, [{ id, status }] and [{ status }]. *)
Record ServerReply := mkReply {
  reply_id : jsstring;
  reply_status : TaskStatus
}.

Record HttpResponse := mkHttpResponse {
  ok : bool;
  statusText : jsstring;
  json : Result ServerReply
}.

Inductive FetchOutcome :=
| Rejected (e : JsError)
| Resolved (r : HttpResponse).

(** The server and the connection are arbitrary: the outcome of a request
    is a function of the requests sent before it and of the request. *)
Record Network := mkNetwork {
  respond : list HttpRequest -> HttpRequest -> FetchOutcome;
  sent : list HttpRequest
}.

(** The fields of [class SyncManager]; [listener_rounds] counts the calls
    of [notifyListeners]. *)
Record Manager := mkManager {
  isOnline : bool;
  isSyncing : bool;
  listener_rounds : nat
}.

(** [async_storage] is the value under SYNC_QUEUE_KEY: the queue that its
    JSON text denotes, or nothing when the key is absent. *)
Record World := mkWorld {
  sqlite : Sqlite;
  async_storage : option (list SyncQueueItem);
  manager : Manager;
  mock : Mock;
  network : Network;
  clock : Z;
  console : list (jsstring * JsError)
}.

Definition set_sqlite (v : Sqlite) (w : World) : World :=
  mkWorld v (async_storage w) (manager w) (mock w) (network w) (clock w)
    (console w).

Definition set_async_storage (v : option (list SyncQueueItem)) (w : World)
  : World :=
  mkWorld (sqlite w) v (manager w) (mock w) (network w) (clock w) (console w).

Definition set_manager (v : Manager) (w : World) : World :=
  mkWorld (sqlite w) (async_storage w) v (mock w) (network w) (clock w)
    (console w).

Definition set_mock (v : Mock) (w : World) : World :=
  mkWorld (sqlite w) (async_storage w) (manager w) v (network w) (clock w)
    (console w).

Definition set_network (v : Network) (w : World) : World :=
  mkWorld (sqlite w) (async_storage w) (manager w) (mock w) v (clock w)
    (console w).

Definition set_console (v : list (jsstring * JsError)) (w : World) : World :=
  mkWorld (sqlite w) (async_storage w) (manager w) (mock w) (network w)
    (clock w) v.

(** [Date.now()]. *)
Definition Date_now : M World Z := gets clock.

(** [console.error(label, error)]. *)
Definition console_error (label : jsstring) (e : JsError) : M World unit :=
  modify (fun w => set_console (console w ++ [(label, e)]) w).

(** A [TaskAdapter] in use and the world around it. *)
Record Ctx := mkCtx {
  this : TaskData;
  world : World
}.

Definition lift {A} (m : M World A) : M Ctx A :=
  fun c => let (r, w) := m (world c) in (r, mkCtx (this c) w).

(** Run the code of one adapter object, then drop the object. *)
Definition with_task {A} (task : TaskData) (m : M Ctx A) : M World A :=
  fun w => let (r, c) := m (mkCtx task w) in (r, world c).

Definition get_this : M Ctx TaskData := gets this.

Definition assign (f : TaskData -> TaskData) : M Ctx unit :=
  modify (fun c => mkCtx (f (this c)) (world c)).

(** Code with a state [L] of its own beside the world: the state of a
    React component, or the lines written by [console.log]. *)
Definition in_world {L A} (m : M World A) : M (World * L) A :=
  fun s => let (r, w) := m (fst s) in (r, (w, snd s)).

Definition set_local {L} (v : L) : M (World * L) unit :=
  modify (fun s => (fst s, v)).

(* ================================================================== *)
(** ** sqlite-db.ts                                                    *)
(* ================================================================== *)

Module SqliteDb.

Definition written {A} (u : option A) (old : A) : A :=
  match u with
  | Some v => v
  | None => old
  end.

(** [if (updates.f !== undefined) values.push(updates.f || null)]. *)
Definition written_or_null {A} (t : A -> bool) (u : maybe A) (old : maybe A)
  : maybe A :=
  match u with
  | undefined => old
  | _ => or_null t u
  end.

(** The effect of the UPDATE statement on one row. *)
Definition apply_updates (u : TaskUpdates) (row : TaskData) : TaskData :=
  mkTaskData (id row)
    (written (u_title u) (title row))
    (written_or_null truthy_str (u_description u) (description row))
    (written (u_status u) (status row))
    (written (u_sync_status u) (sync_status row))
    (written_or_null truthy_str (u_server_id u) (server_id row))
    (written_or_null always_truthy (u_server_status u) (server_status row))
    (written_or_null always_truthy (u_conflict_resolution u)
       (conflict_resolution row))
    (created_at row)
    (written (u_updated_at u) (updated_at row))
    (written_or_null truthy_int (u_synced_at u) (synced_at row))
    (written_or_null truthy_num (u_price u) (price row))
    (written_or_null truthy_num (u_location_lat u) (location_lat row))
    (written_or_null truthy_num (u_location_lng u) (location_lng row))
    (written_or_null truthy_str (u_location_address u) (location_address row))
    (written_or_null truthy_str (u_image_url u) (image_url row))
    (written_or_null truthy_int (u_expires_at u) (expires_at row)).

Definition set_rows (v : list TaskData) (w : World) : World :=
  set_sqlite (mkSqlite v (change_rounds (sqlite w)) (uuid_source (sqlite w))
                (uuids_drawn (sqlite w))) w.

(** [UPDATE tasks SET ... WHERE id = ?].  With every field [undefined] the
    statement would only differ by not being run. *)
Definition updateTask (task_id : jsstring) (u : TaskUpdates) : M World unit :=
  modify (fun w =>
    set_rows (map (fun row => if str_eqb (id row) task_id
                              then apply_updates u row else row)
                  (rows (sqlite w))) w).

(** [DELETE FROM tasks WHERE id = ?]. *)
Definition deleteTask (task_id : jsstring) : M World unit :=
  modify (fun w =>
    set_rows (filter (fun row => negb (str_eqb (id row) task_id))
                     (rows (sqlite w))) w).

(** [SELECT * FROM tasks WHERE id = ?], first row. *)
Definition getTask (task_id : jsstring) : M World (option TaskData) :=
  gets (fun w => find (fun row => str_eqb (id row) task_id) (rows (sqlite w))).

(** [ORDER BY updated_at DESC]; rows with equal time stamps stay in
    insertion order.  [row] was inserted before the rows of [sorted]: it
    goes before the first of them that is not more recent than itself. *)
Fixpoint insert_desc (row : TaskData) (sorted : list TaskData) : list TaskData :=
  match sorted with
  | [] => [row]
  | r :: rest =>
      if (updated_at r <=? updated_at row)%Z then row :: sorted
      else r :: insert_desc row rest
  end.

Definition order_by_updated_at_desc (l : list TaskData) : list TaskData :=
  fold_right insert_desc [] l.

Definition getAllTasks : M World (list TaskData) :=
  gets (fun w => order_by_updated_at_desc (rows (sqlite w))).

(** [notifyChange]: every listener is called once with the task list. *)
Definition notifyChange : M World unit :=
  modify (fun w =>
    set_sqlite (mkSqlite (rows (sqlite w)) (S (change_rounds (sqlite w)))
                  (uuid_source (sqlite w)) (uuids_drawn (sqlite w))) w).

(** [generateUUID]: the next identifier of the random source. *)
Definition generateUUID : M World jsstring :=
  fun w =>
    (Ok (uuid_source (sqlite w) (uuids_drawn (sqlite w))),
     set_sqlite (mkSqlite (rows (sqlite w)) (change_rounds (sqlite w))
                   (uuid_source (sqlite w)) (S (uuids_drawn (sqlite w)))) w).

(** The row that INSERT stores for [task] under [new_id]. *)
Definition inserted_row (new_id : jsstring) (task : TaskData) : TaskData :=
  mkTaskData new_id (title task)
    (or_null truthy_str (description task))
    (status task) (sync_status task)
    (or_null truthy_str (server_id task))
    (or_null always_truthy (server_status task))
    (or_null always_truthy (conflict_resolution task))
    (created_at task) (updated_at task)
    (or_null truthy_int (synced_at task))
    (or_null truthy_num (price task))
    (or_null truthy_num (location_lat task))
    (or_null truthy_num (location_lng task))
    (or_null truthy_str (location_address task))
    (or_null truthy_str (image_url task))
    (or_null truthy_int (expires_at task)).

(** [createTask]: the primary key rejects an identifier already in use. *)
Definition createTask (task : TaskData) : M World jsstring :=
  uuid <- generateUUID ;;
  let new_id := js "task_" ++ uuid in
  existing <- getTask new_id ;;
  match existing with
  | Some _ => throw (new_Error (js "UNIQUE constraint failed: tasks.id"))
  | None =>
      modify (fun w => set_rows (rows (sqlite w) ++ [inserted_row new_id task]) w) ;;
      ret new_id
  end.

(** *** The text of an identifier

    The arrow function [generateUUID] replaces every [x] and [y] of its
    template by the hexadecimal text of a number made from one value of
    [Math.random]. *)

Definition uuid_template : jsstring :=
  js "xxxxxxxx-xxxx-4xxx-yxxx-xxxxxxxxxxxx".

(** ToInt32 of a finite number, the conversion made by [| 0]: the
    fraction is dropped and the integer wraps to 32 bits. *)
Definition ToInt32 (x : Q) : Z :=
  ((Z.quot (Qnum x) (Zpos (Qden x)) + 2 ^ 31) mod 2 ^ 32 - 2 ^ 31)%Z.

Fixpoint hex_uint_digits (d : Hexadecimal.uint) : jsstring :=
  match d with
  | Hexadecimal.Nil => []
  | Hexadecimal.D0 r => 48 :: hex_uint_digits r
  | Hexadecimal.D1 r => 49 :: hex_uint_digits r
  | Hexadecimal.D2 r => 50 :: hex_uint_digits r
  | Hexadecimal.D3 r => 51 :: hex_uint_digits r
  | Hexadecimal.D4 r => 52 :: hex_uint_digits r
  | Hexadecimal.D5 r => 53 :: hex_uint_digits r
  | Hexadecimal.D6 r => 54 :: hex_uint_digits r
  | Hexadecimal.D7 r => 55 :: hex_uint_digits r
  | Hexadecimal.D8 r => 56 :: hex_uint_digits r
  | Hexadecimal.D9 r => 57 :: hex_uint_digits r
  | Hexadecimal.Da r => 97 :: hex_uint_digits r
  | Hexadecimal.Db r => 98 :: hex_uint_digits r
  | Hexadecimal.Dc r => 99 :: hex_uint_digits r
  | Hexadecimal.Dd r => 100 :: hex_uint_digits r
  | Hexadecimal.De r => 101 :: hex_uint_digits r
  | Hexadecimal.Df r => 102 :: hex_uint_digits r
  end.

(** [v.toString(16)] for an integer [v]. *)
Definition toString16 (v : Z) : jsstring :=
  match v with
  | Z0 => [48]
  | Zpos p => hex_uint_digits (Pos.to_hex_uint p)
  | Zneg p => 45 :: hex_uint_digits (Pos.to_hex_uint p)
  end.

(** The replacement of one [x] or [y], for the value [x0] of
    [Math.random()]. *)
Definition uuid_digits (c : codeunit) (x0 : Q) : jsstring :=
  let r := ToInt32 (x0 * 16) in
  let v := if c =? 120 then r else Z.lor (Z.land r 3) 8 in
  toString16 v.

(** [template.replace(/[xy]/g, ...)], left to right; [random k] is the
    value of the [k]-th call of [Math.random]. *)
Fixpoint replace_xy (template : jsstring) (random : nat -> Q) (k : nat)
  : jsstring :=
  match template with
  | [] => []
  | c :: rest =>
      if (c =? 120) || (c =? 121)
      then uuid_digits c (random k) ++ replace_xy rest random (S k)
      else c :: replace_xy rest random k
  end.

(** The identifiers [generateUUID] returns when it is the only caller of
    [Math.random], as it is in the application: the template has
    thirty-one places, so the [n]-th identifier uses the values from
    [31 * n] on. *)
Definition uuids_of (random : nat -> Q) (n : nat) : jsstring :=
  replace_xy uuid_template random (31 * n).

End SqliteDb.

(* ================================================================== *)
(** ** taskAdapter.ts: class TaskAdapter                               *)
(* ================================================================== *)

(** The type [string | string[] | undefined] of the property [imageUrl],
    with the [null] the edit screen assigns to it. *)
Inductive ImageUrl :=
| img_undefined
| img_null
| img_string (s : jsstring)
| img_array (items : list JValue).

Module TaskAdapter.

(** [get location()]. *)
Definition location (d : TaskData) : maybe TaskLocation :=
  match location_lat d, location_lng d with
  | val la, val lo =>
      if truthy_num la && truthy_num lo then
        val (mkLocation la lo
               (match location_address d with
                | val a => a
                | _ => []
                end))
      else undefined
  | _, _ => undefined
  end.

(** [set location(value)]. *)
Definition set_location (value : maybe TaskLocation) (d : TaskData) : TaskData :=
  match value with
  | val l => set_location_fields (val (lat l)) (val (lng l)) (val (address l)) d
  | _ => set_location_fields undefined undefined undefined d
  end.

(** [get imageUrl()]: the column parsed as JSON when that yields an array,
    the raw text otherwise. *)
Definition imageUrl (d : TaskData) : ImageUrl :=
  match image_url d with
  | val text =>
      if truthy_str text then
        match parse text with
        | Some (JArray items) => img_array items
        | _ => img_string text
        end
      else img_undefined
  | _ => img_undefined
  end.

(** [set imageUrl(value)]. *)
Definition set_imageUrl (value : ImageUrl) (d : TaskData) : TaskData :=
  match value with
  | img_array items => set_image_url (val (stringify (JArray items))) d
  | img_string s => set_image_url (val s) d
  | img_null => set_image_url null d
  | img_undefined => set_image_url undefined d
  end.

(** [get syncedAt()] and [get expiresAt()]: a Date, or undefined. *)
Definition syncedAt (d : TaskData) : maybe Z :=
  or_undefined truthy_int (synced_at d).

Definition expiresAt (d : TaskData) : maybe Z :=
  or_undefined truthy_int (expires_at d).

(** The object literal passed to [updateTask] by [update]. *)
Definition all_fields (d : TaskData) : TaskUpdates :=
  mkUpdates (Some (title d)) (description d) (Some (status d))
    (Some (sync_status d)) (server_id d) (server_status d)
    (conflict_resolution d) (Some (updated_at d)) (synced_at d) (price d)
    (location_lat d) (location_lng d) (location_address d) (image_url d)
    (expires_at d).

Definition update (updater : M Ctx unit) : M Ctx unit :=
  updater ;;
  d <- get_this ;;
  lift (SqliteDb.updateTask (id d) (all_fields d)) ;;
  lift SqliteDb.notifyChange.

(** The object literals passed to [updateTask] by the other methods. *)
Definition fields_updateStatus (newStatus : TaskStatus) (d : TaskData)
  : TaskUpdates :=
  mkUpdates None undefined (Some newStatus) (Some (sync_status d))
    undefined undefined undefined (Some (updated_at d)) undefined
    undefined undefined undefined undefined undefined undefined.

Definition fields_markAsSyncing : TaskUpdates :=
  mkUpdates None undefined None (Some syncing)
    undefined undefined undefined None undefined
    undefined undefined undefined undefined undefined undefined.

Definition fields_markAsSynced (d : TaskData) : TaskUpdates :=
  mkUpdates None undefined None (Some synced)
    (server_id d) (server_status d) undefined None (synced_at d)
    undefined undefined undefined undefined undefined undefined.

Definition fields_resolveConflict (resolution : ConflictResolution)
  (d : TaskData) : TaskUpdates :=
  mkUpdates None undefined (Some (status d)) (Some pending_sync)
    undefined undefined (val resolution) (Some (updated_at d))
    undefined undefined undefined undefined undefined undefined
    undefined.

Definition updateStatus (newStatus : TaskStatus) : M Ctx unit :=
  assign (set_status newStatus) ;;
  now <- lift Date_now ;;
  assign (set_updated_at now) ;;
  d <- get_this ;;
  (if SyncStatus_eqb (sync_status d) synced
   then assign (set_sync_status pending_sync)
   else ret tt) ;;
  d <- get_this ;;
  lift (SqliteDb.updateTask (id d) (fields_updateStatus newStatus d)) ;;
  lift SqliteDb.notifyChange.

Definition markAsSyncing : M Ctx unit :=
  assign (set_sync_status syncing) ;;
  d <- get_this ;;
  lift (SqliteDb.updateTask (id d) fields_markAsSyncing) ;;
  lift SqliteDb.notifyChange.

Definition markAsSynced (serverId : maybe jsstring)
  (serverStatus : maybe TaskStatus) : M Ctx unit :=
  assign (set_sync_status synced) ;;
  now <- lift Date_now ;;
  assign (set_synced_at (val now)) ;;
  (if truthy truthy_str serverId then assign (set_server_id serverId)
   else ret tt) ;;
  (if truthy always_truthy serverStatus
   then assign (set_server_status serverStatus)
   else ret tt) ;;
  d <- get_this ;;
  lift (SqliteDb.updateTask (id d) (fields_markAsSynced d)) ;;
  lift SqliteDb.notifyChange.

Definition resolveConflict (resolution : ConflictResolution)
  (finalStatus : maybe TaskStatus) : M Ctx unit :=
  assign (set_conflict_resolution (val resolution)) ;;
  match finalStatus with
  | val s => assign (set_status s)
  | _ => ret tt
  end ;;
  assign (set_sync_status pending_sync) ;;
  now <- lift Date_now ;;
  assign (set_updated_at now) ;;
  d <- get_this ;;
  lift (SqliteDb.updateTask (id d) (fields_resolveConflict resolution d)) ;;
  lift SqliteDb.notifyChange.

Definition destroyPermanently : M Ctx unit :=
  d <- get_this ;;
  lift (SqliteDb.deleteTask (id d)) ;;
  lift SqliteDb.notifyChange.

End TaskAdapter.

(** *** The object [database] *)

Module Database.

(** The record [taskData] that [create] starts from, with the id 'temp'. *)
Definition blank_task (now : Z) : TaskData :=
  mkTaskData (js "temp") [] undefined pending pending_sync undefined
    undefined undefined now now undefined undefined undefined undefined
    undefined undefined undefined.

(** The argument of [sqliteDb.createTask]: the fields copied from the
    temporary task, with the time stamps of the call. *)
Definition to_insert (now : Z) (t : TaskData) : TaskData :=
  mkTaskData (id t) (title t) (description t) (status t) (sync_status t)
    undefined undefined undefined now now undefined (price t)
    (location_lat t) (location_lng t) (location_address t) (image_url t)
    (expires_at t).

Definition create (initializer : M Ctx unit) : M World TaskData :=
  now <- Date_now ;;
  tempTask <- with_task (blank_task now) (initializer ;; get_this) ;;
  new_id <- SqliteDb.createTask (to_insert now tempTask) ;;
  SqliteDb.notifyChange ;;
  created <- SqliteDb.getTask new_id ;;
  match created with
  | None => throw (new_Error (js "Failed to create task"))
  | Some row => ret row
  end.

Definition find (task_id : jsstring) : M World TaskData :=
  found <- SqliteDb.getTask task_id ;;
  match found with
  | None => throw (new_Error (js "Task not found"))
  | Some row => ret row
  end.

(** [query().fetch()]: one adapter per row. *)
Definition fetch_all : M World (list TaskData) := SqliteDb.getAllTasks.

End Database.

(* ================================================================== *)
(** ** mockApi.ts                                                      *)
(* ================================================================== *)

Module MockApi.

Fixpoint uint_digits (d : Decimal.uint) : jsstring :=
  match d with
  | Decimal.Nil => []
  | Decimal.D0 r => 48 :: uint_digits r
  | Decimal.D1 r => 49 :: uint_digits r
  | Decimal.D2 r => 50 :: uint_digits r
  | Decimal.D3 r => 51 :: uint_digits r
  | Decimal.D4 r => 52 :: uint_digits r
  | Decimal.D5 r => 53 :: uint_digits r
  | Decimal.D6 r => 54 :: uint_digits r
  | Decimal.D7 r => 55 :: uint_digits r
  | Decimal.D8 r => 56 :: uint_digits r
  | Decimal.D9 r => 57 :: uint_digits r
  end.

(** The decimal text of a counter inside a template string. *)
Definition decimal (n : N) : jsstring := uint_digits (N.to_uint n).

(** [Map.prototype.get] and [Map.prototype.set]. *)
Definition map_get (k : jsstring) (m : list (jsstring * TaskResponse))
  : option TaskResponse :=
  match find (fun kv => str_eqb (fst kv) k) m with
  | Some kv => Some (snd kv)
  | None => None
  end.

Fixpoint map_set (k : jsstring) (v : TaskResponse)
  (m : list (jsstring * TaskResponse)) : list (jsstring * TaskResponse) :=
  match m with
  | [] => [(k, v)]
  | kv :: rest =>
      if str_eqb (fst kv) k then (k, v) :: rest
      else kv :: map_set k v rest
  end.

Definition map_delete (k : jsstring) (m : list (jsstring * TaskResponse))
  : list (jsstring * TaskResponse) :=
  filter (fun kv => negb (str_eqb (fst kv) k)) m.

Definition called (c : MockCall) : M World unit :=
  modify (fun w =>
    set_mock (mkMock (mockTasks (mock w)) (nextId (mock w))
                (mock_calls (mock w) ++ [c])) w).

Definition store (k : jsstring) (v : TaskResponse) : M World unit :=
  modify (fun w =>
    set_mock (mkMock (map_set k v (mockTasks (mock w))) (nextId (mock w))
                (mock_calls (mock w))) w).

(** [nextId++]. *)
Definition take_nextId : M World N :=
  fun w =>
    (Ok (nextId (mock w)),
     set_mock (mkMock (mockTasks (mock w)) (nextId (mock w) + 1)
                 (mock_calls (mock w))) w).

(** [x !== undefined ? x : old]. *)
Definition defined_or {A} (x old : maybe A) : maybe A :=
  match x with
  | undefined => old
  | _ => x
  end.

Definition createTask (p : Payload) : M World TaskResponse :=
  called (mock_createTask p) ;;
  n <- take_nextId ;;
  now <- Date_now ;;
  let task :=
    mkResponse (js "task_" ++ decimal n) (p_title p) (p_description p)
      (p_status p) (p_price p) (p_location p) (p_image_url p)
      (p_expires_at p) now now in
  store (r_id task) task ;;
  ret task.

Definition updateTask (sid : jsstring) (p : Payload) : M World TaskResponse :=
  called (mock_updateTask sid p) ;;
  existing <- gets (fun w => map_get sid (mockTasks (mock w))) ;;
  now <- Date_now ;;
  match existing with
  | None =>
      let newTask :=
        mkResponse sid (p_title p) (p_description p) (p_status p)
          undefined undefined undefined undefined now now in
      store sid newTask ;;
      ret newTask
  | Some old =>
      let updatedTask :=
        mkResponse (r_id old) (p_title p) (p_description p) (p_status p)
          (defined_or (p_price p) (r_price old))
          (defined_or (p_location p) (r_location old))
          (defined_or (p_image_url p) (r_image_url old))
          (defined_or (p_expires_at p) (r_expires_at old))
          (r_created_at old) now in
      store sid updatedTask ;;
      ret updatedTask
  end.

Definition deleteTask (sid : jsstring) : M World unit :=
  called (mock_deleteTask sid) ;;
  existing <- gets (fun w => map_get sid (mockTasks (mock w))) ;;
  match existing with
  | None => throw (new_Error (js "Task not found"))
  | Some _ =>
      modify (fun w =>
        set_mock (mkMock (map_delete sid (mockTasks (mock w)))
                    (nextId (mock w)) (mock_calls (mock w))) w)
  end.

(** [getTask]: [mockTasks.get(id) || null].  The reads are not entered in
    [mock_calls], which records the calls that write. *)
Definition getTask (sid : jsstring) : M World (option TaskResponse) :=
  gets (fun w => map_get sid (mockTasks (mock w))).

(** [getAllTasks]: [Array.from(mockTasks.values())]. *)
Definition getAllTasks : M World (list TaskResponse) :=
  gets (fun w => map snd (mockTasks (mock w))).


End MockApi.

(* ================================================================== *)
(** ** syncManager.ts: class SyncManager                               *)
(* ================================================================== *)

(** The source fixes [USE_MOCK_API] to [true].  The functions below take
    the flag as a parameter, so that the branch of the real server is
    covered too; [shipped] is the configuration of the source. *)
Record Config := mkConfig { USE_MOCK_API : bool }.

Definition shipped : Config := {| USE_MOCK_API := true |}.

Definition API_BASE_URL : jsstring := js "https://api.example.com".

Module SyncManager.

Definition set_flags (online syncing_now : bool) (w : World) : World :=
  set_manager (mkManager online syncing_now (listener_rounds (manager w))) w.

(** [notifyListeners]: every sync listener is called once. *)
Definition notifyListeners : M World unit :=
  modify (fun w =>
    set_manager (mkManager (isOnline (manager w)) (isSyncing (manager w))
                   (S (listener_rounds (manager w)))) w).

(** [fetch]: the request is sent, and the promise is rejected or resolved. *)
Definition fetch (req : HttpRequest) : M World HttpResponse :=
  fun w =>
    let outcome := respond (network w) (sent (network w)) req in
    let w' := set_network (mkNetwork (respond (network w))
                             (sent (network w) ++ [req])) w in
    match outcome with
    | Rejected e => (Throw e, w')
    | Resolved r => (Ok r, w')
    end.

(** [await response.json()]. *)
Definition response_json (r : HttpResponse) : M World ServerReply :=
  match json r with
  | Ok reply => ret reply
  | Throw e => throw e
  end.

(** A value inside a template string. *)
Definition in_template (m : maybe jsstring) : jsstring :=
  match m with
  | val s => s
  | null => js "null"
  | undefined => js "undefined"
  end.

(** [Array.isArray(task.imageUrl) ? task.imageUrl[0] : task.imageUrl]. *)
Definition first_image (d : TaskData) : maybe JValue :=
  match TaskAdapter.imageUrl d with
  | img_array (x :: _) => val x
  | img_array [] => undefined
  | img_string s => val (JString s)
  | img_null => null
  | img_undefined => undefined
  end.

Definition payload_of (d : TaskData) : Payload :=
  mkPayload (title d) (description d) (status d) (price d)
    (TaskAdapter.location d) (first_image d) (TaskAdapter.expiresAt d).

Definition body_of (d : TaskData) : HttpBody :=
  mkBody (title d) (description d) (status d).

(** The test of the [catch] blocks for an expected loss of connectivity. *)
Definition network_failure (e : JsError) : bool :=
  includes (js "Network request failed") (err_message e) ||
  includes (js "Failed to fetch") (err_message e).

Section Configured.

Variable cfg : Config.

Definition createTaskOnServer : M Ctx (option ServerReply) :=
  try_catch
    (task <- get_this ;;
     if USE_MOCK_API cfg then
       response <- lift (MockApi.createTask (payload_of task)) ;;
       ret (Some (mkReply (r_id response) (r_status response)))
     else
       response <- lift (fetch (mkRequest POST (API_BASE_URL ++ js "/tasks")
                                  (Some (body_of task)))) ;;
       if negb (ok response) then
         throw (new_Error (js "Failed to create task: " ++ statusText response))
       else
         reply <- lift (response_json response) ;;
         ret (Some reply))
    (fun error =>
       if network_failure error then ret None
       else
         lift (console_error (js "Error creating task on server:") error) ;;
         throw error).

(** The request of [updateTaskOnServer] to the real server. *)
Definition put_task (task : TaskData) : M Ctx (option TaskStatus) :=
  response <- lift (fetch (mkRequest PUT
                             (API_BASE_URL ++ js "/tasks/" ++
                              in_template (server_id task))
                             (Some (body_of task)))) ;;
  if negb (ok response) then
    throw (new_Error (js "Failed to update task: " ++ statusText response))
  else
    reply <- lift (response_json response) ;;
    ret (Some (reply_status reply)).

Definition updateTaskOnServer : M Ctx (option TaskStatus) :=
  try_catch
    (task <- get_this ;;
     match server_id task with
     | val sid =>
         if USE_MOCK_API cfg && truthy_str sid then
           try_catch
             (response <- lift (MockApi.updateTask sid (payload_of task)) ;;
              ret (Some (r_status response)))
             (fun error =>
                if includes (js "Task not found") (err_message error)
                then ret None
                else throw error)
         else put_task task
     | _ => put_task task
     end)
    (fun error =>
       if network_failure error then ret None
       else
         lift (console_error (js "Error updating task on server:") error) ;;
         throw error).

(** The decision at the head of [handleConflict]: the resolution and the
    final status for a local and a server status. *)
Definition decide (local server : TaskStatus) : ConflictResolution * TaskStatus :=
  if TaskStatus_eqb server cancelled && TaskStatus_eqb local done then
    (client_wins, local)
  else if TaskStatus_eqb local cancelled && TaskStatus_eqb server done then
    (server_wins, server)
  else
    (manual, local).

Definition handleConflict (serverStatus : TaskStatus) : M Ctx unit :=
  task <- get_this ;;
  let (resolution, finalStatus) := decide (status task) serverStatus in
  TaskAdapter.resolveConflict resolution (val finalStatus) ;;
  if ConflictResolution_eqb resolution client_wins then
    updateTaskOnServer ;;
    task <- get_this ;;
    TaskAdapter.markAsSynced (server_id task) (val finalStatus)
  else if ConflictResolution_eqb resolution server_wins then
    task <- get_this ;;
    TaskAdapter.markAsSynced (server_id task) (val serverStatus)
  else ret tt.

(** [response.status !== task.status && task.serverStatus &&
    task.serverStatus !== task.status]. *)
Definition conflict_detected (response_status : TaskStatus) (task : TaskData)
  : bool :=
  negb (TaskStatus_eqb response_status (status task)) &&
  match server_status task with
  | val known => negb (TaskStatus_eqb known (status task))
  | _ => false
  end.

(** The [try] block of [syncTask]. *)
Definition syncTask_try : M Ctx unit :=
  TaskAdapter.markAsSyncing ;;
  task <- get_this ;;
  if negb (truthy truthy_str (server_id task)) then
    response <- createTaskOnServer ;;
    match response with
    | Some r => TaskAdapter.markAsSynced (val (reply_id r)) (val (reply_status r))
    | None => ret tt
    end
  else
    response <- updateTaskOnServer ;;
    match response with
    | Some response_status =>
        task <- get_this ;;
        if conflict_detected response_status task
        then handleConflict response_status
        else TaskAdapter.markAsSynced (server_id task) (val response_status)
    | None =>
        createResponse <- createTaskOnServer ;;
        match createResponse with
        | Some r =>
            TaskAdapter.markAsSynced (val (reply_id r)) (val (reply_status r))
        | None => ret tt
        end
    end.

(** Its [catch] block. *)
Definition syncTask_catch (error : JsError) : M Ctx unit :=
  task <- get_this ;;
  lift (console_error (js "Error syncing task " ++ id task ++ js ":") error) ;;
  TaskAdapter.update (assign (set_sync_status pending_sync)).

Definition syncTask : M Ctx unit := try_catch syncTask_try syncTask_catch.

(** The body of the [try] block around one queue item.  [continue] ends
    it normally. *)
Definition process_item (item : SyncQueueItem) : M World unit :=
  match action item with
  | act_delete =>
      if truthy_str (taskId item) then
        if USE_MOCK_API cfg then ret tt
        else
          response <- fetch (mkRequest DELETE
                               (API_BASE_URL ++ js "/tasks/" ++ taskId item)
                               None) ;;
          if negb (ok response) then
            throw (new_Error (js "Failed to delete task: " ++ statusText response))
          else ret tt
      else ret tt
  | _ => ret tt
  end.

(** The test of the inner [catch] block of [processSyncQueue]. *)
Definition connectivity_error (e : JsError) : bool :=
  network_failure e || str_eqb (err_name e) (js "TypeError").

(** One turn of the loop: [remaining] is [remainingQueue]. *)
Definition drain_step (item : SyncQueueItem) (remaining : list SyncQueueItem)
  : M World (list SyncQueueItem) :=
  try_catch
    (process_item item ;; ret remaining)
    (fun error =>
       if connectivity_error error then ret (remaining ++ [item])
       else
         console_error (js "Error processing queue item:") error ;;
         ret (remaining ++ [item])).

Fixpoint drain_loop (queue remaining : list SyncQueueItem)
  : M World (list SyncQueueItem) :=
  match queue with
  | [] => ret remaining
  | item :: rest =>
      remaining' <- drain_step item remaining ;;
      drain_loop rest remaining'
  end.

Definition processSyncQueue : M World unit :=
  online <- gets (fun w => isOnline (manager w)) ;;
  if negb online then ret tt
  else
    try_catch
      (stored <- gets async_storage ;;
       match stored with
       | None => ret tt
       | Some queue =>
           remainingQueue <- drain_loop queue [] ;;
           match remainingQueue with
           | _ :: _ => modify (set_async_storage (Some remainingQueue))
           | [] => modify (set_async_storage None)
           end
       end)
      (fun error => console_error (js "Error processing sync queue:") error).

Definition addToQueue (item : SyncQueueItem) : M World unit :=
  try_catch
    (stored <- gets async_storage ;;
     let queue := match stored with Some q => q | None => [] end in
     modify (set_async_storage (Some (queue ++ [item]))))
    (fun error => console_error (js "Error adding to sync queue:") error).

(** [task.syncStatus === 'pending_sync' || task.syncStatus === 'syncing']. *)
Definition needs_sync (task : TaskData) : bool :=
  SyncStatus_eqb (sync_status task) pending_sync ||
  SyncStatus_eqb (sync_status task) syncing.

(** The [try] block and the [finally] block of [syncAll]. *)
Definition syncAll_try : M World unit :=
  tasks <- Database.fetch_all ;;
  for_each tasks (fun task =>
    if needs_sync task then with_task task syncTask else ret tt) ;;
  processSyncQueue.

Definition syncAll_finally : M World unit :=
  modify (fun w => set_flags (isOnline (manager w)) false w) ;;
  notifyListeners.

Definition syncAll : M World unit :=
  m <- gets manager ;;
  if isSyncing m || negb (isOnline m) then ret tt
  else
    modify (fun w => set_flags (isOnline (manager w)) true w) ;;
    notifyListeners ;;
    try_finally
      (try_catch syncAll_try
         (fun error => console_error (js "Sync error:") error))
      syncAll_finally.

(** The listener registered with NetInfo; [connected] is
    [state.isConnected ?? false]. *)
Definition on_network_event (connected : bool) : M World unit :=
  wasOnline <- gets (fun w => isOnline (manager w)) ;;
  modify (fun w => set_flags connected (isSyncing (manager w)) w) ;;
  notifyListeners ;;
  if negb wasOnline && connected then syncAll else ret tt.

End Configured.

Definition getIsOnline (w : World) : bool := isOnline (manager w).
Definition getIsSyncing (w : World) : bool := isSyncing (manager w).

End SyncManager.

(* ================================================================== *)
(** ** backgroundSync.ts                                               *)
(* ================================================================== *)

(** The task defined under the name 'background-sync'.  Its state is the
    world and the lines written by [console.log]. *)
Module BackgroundSync.

Inductive BackgroundFetchResult := NoData | NewData | Failed.

Definition console_log (line : jsstring) : M (World * list jsstring) unit :=
  modify (fun s => (fst s, snd s ++ [line])).

Definition task (cfg : Config) : M (World * list jsstring) BackgroundFetchResult :=
  try_catch
    (console_log (js "Background sync started") ;;
     in_world (SyncManager.syncAll cfg) ;;
     console_log (js "Background sync completed") ;;
     ret NewData)
    (fun error =>
       in_world (console_error (js "Background sync error:") error) ;;
       ret Failed).

End BackgroundSync.

(* ================================================================== *)
(** ** The screens that write tasks                                    *)
(* ================================================================== *)

(** task-detail.tsx.  The state of the edit screen is the form below and
    the adapter [task] it loaded. *)
Module TaskDetail.

Record EditForm := mkEditForm {
  f_title : jsstring;
  f_description : jsstring;
  f_currentStatus : TaskStatus;
  f_imageUris : list jsstring;
  f_location : maybe TaskLocation
}.

(** The branches that choose the location written by the updater. *)
Definition chosen_location (l : maybe TaskLocation) : maybe TaskLocation :=
  match l with
  | val loc =>
      if truthy_str (address loc) && truthy_str (trim (address loc)) then val loc
      else if negb (Qeq_bool (lat loc) 0) || negb (Qeq_bool (lng loc) 0)
      then val loc
      else undefined
  | _ => undefined
  end.

(** The arrow function that [handleUpdate] passes to [task.update]. *)
Definition edit_updater (form : EditForm) : M Ctx unit :=
  assign (set_title (trim (f_title form))) ;;
  assign (set_description
            (or_undefined truthy_str (val (trim (f_description form))))) ;;
  assign (set_status (f_currentStatus form)) ;;
  assign (TaskAdapter.set_imageUrl
            (match f_imageUris form with
             | _ :: _ => img_array (map JString (f_imageUris form))
             | [] => img_null
             end)) ;;
  assign (TaskAdapter.set_location (chosen_location (f_location form))) ;;
  now <- lift Date_now ;;
  assign (set_updated_at now) ;;
  t <- get_this ;;
  if SyncStatus_eqb (sync_status t) synced
  then assign (set_sync_status pending_sync)
  else ret tt.

(** [loadTask]: the screen finds the task again under the identifier it
    was opened with, the one of the adapter it holds, and holds the
    adapter found. *)
Definition loadTask : M Ctx unit :=
  try_catch
    (t <- get_this ;;
     foundTask <- lift (Database.find (id t)) ;;
     assign (fun _ => foundTask))
    (fun error => lift (console_error (js "Error loading task:") error)).

(** [handleUpdate], up to the reload of the task.  A blank title is
    refused with an alert; the value tells whether the success alert is
    shown.  The handler then starts [syncAll] without awaiting it when the
    manager is online: that pass is a computation of its own. *)
Definition handleUpdate (form : EditForm) : M Ctx bool :=
  if negb (truthy_str (trim (f_title form))) then ret false
  else
    try_catch
      (TaskAdapter.update (edit_updater form) ;;
       loadTask ;;
       ret true)
      (fun error =>
         lift (console_error (js "Error updating task:") error) ;;
         ret false).

(** The handler of the button Save of the dialog shown when the screen is
    left with unsaved changes: the same write, without the reload. *)
Definition saveBeforeLeaving (form : EditForm) : M Ctx unit :=
  if truthy_str (trim (f_title form)) then
    try_catch
      (TaskAdapter.update (edit_updater form))
      (fun error =>
         lift (console_error (js "Error saving before navigation:") error))
  else ret tt.

(** The handler of the button Delete of the confirmation dialog. *)
Definition handleDelete : M Ctx unit :=
  try_catch
    (TaskAdapter.destroyPermanently ;;
     task <- get_this ;;
     match server_id task with
     | val sid =>
         if truthy_str sid then
           now <- lift Date_now ;;
           lift (SyncManager.addToQueue (mkQueueItem sid act_delete undefined now))
         else ret tt
     | _ => ret tt
     end)
    (fun error => lift (console_error (js "Error deleting task:") error)).

(** [removeImage]: the updater passed to [setImageUris]. *)
Definition removeImage (index : nat) (prev : list jsstring) : list jsstring :=
  without_index index prev.

(** The constant [imagesChanged] of [hasUnsavedChanges], on the state
    [(imageUris, originalImageUris)]: [sort()] sorts each array in place
    and the two JSON texts are compared. *)
Definition imagesChanged : M (list jsstring * list jsstring) bool :=
  modify (fun s => (default_sort (fst s), snd s)) ;;
  imageUris <- gets fst ;;
  modify (fun s => (fst s, default_sort (snd s))) ;;
  originalImageUris <- gets snd ;;
  ret (negb (str_eqb (stringify (JArray (map JString imageUris)))
                     (stringify (JArray (map JString originalImageUris))))).

(** The array that [loadTask] passes to [setImageUris] for the task it
    found. *)
Definition loaded_imageUris (foundTask : TaskData) : list JValue :=
  match TaskAdapter.imageUrl foundTask with
  | img_array uris => uris
  | img_string s => if truthy_str s then [JString s] else []
  | _ => []
  end.

End TaskDetail.

(** TaskList.tsx: [handleStatusChange] awaits [task.updateStatus]; the
    sync pass it then starts is a computation of its own. *)
Module TaskList.

Definition handleStatusChange (newStatus : TaskStatus) : M Ctx unit :=
  TaskAdapter.updateStatus newStatus.

(** The type [TaskStatus | 'all'] of [selectedStatus], and the sort
    orders. *)
Inductive StatusFilter := all_statuses | only (s : TaskStatus).
Inductive SortOrder := desc | asc.

(** The comparator of [filteredTasks]. *)
Definition by_time (sortOrder : SortOrder) (a b : TaskData) : Z :=
  let aTime := updated_at a in
  let bTime := updated_at b in
  match sortOrder with
  | desc => (bTime - aTime)%Z
  | asc => (aTime - bTime)%Z
  end.

Definition filteredTasks (tasks : list TaskData) (selectedStatus : StatusFilter)
  (sortOrder : SortOrder) : list TaskData :=
  let result :=
    match selectedStatus with
    | all_statuses => tasks
    | only s => filter (fun task => TaskStatus_eqb (status task) s) tasks
    end in
  sort_by (by_time sortOrder) result.

(** [leftColumn] and [rightColumn]: the tasks at the even and at the odd
    indexes. *)
Definition columns (filtered : list TaskData) : list TaskData * list TaskData :=
  fold_left
    (fun cols it =>
       if Nat.eqb (fst it mod 2) 0
       then (fst cols ++ [snd it], snd cols)
       else (fst cols, snd cols ++ [snd it]))
    (combine (seq 0 (List.length filtered)) filtered)
    ([], []).

(** [handleRefresh]; the state beside the world is [isRefreshing]. *)
Definition handleRefresh (cfg : Config) : M (World * bool) unit :=
  set_local true ;;
  in_world (SyncManager.syncAll cfg) ;;
  set_local false.

End TaskList.

(** TaskForm.tsx: [handleCreateTask] and the initializer it passes to
    [database.get('tasks').create].  The form holds the price and the
    expiry date as already parsed from their text fields. *)
Module TaskForm.

Record CreateForm := mkCreateForm {
  c_title : jsstring;
  c_description : jsstring;
  c_price : maybe Q;
  c_address : jsstring;
  c_imageUris : list jsstring;
  c_expiresAt : maybe Z
}.

(** A typed address gets the default coordinates of the source. *)
Definition form_location (form : CreateForm) : maybe TaskLocation :=
  if truthy_str (trim (c_address form))
  then val (mkLocation (194326 # 10000) (- 991332 # 10000) (trim (c_address form)))
  else undefined.

Definition initializer (form : CreateForm) : M Ctx unit :=
  assign (set_title (trim (c_title form))) ;;
  assign (set_description
            (or_undefined truthy_str (val (trim (c_description form))))) ;;
  assign (set_status pending) ;;
  assign (set_sync_status pending_sync) ;;
  now <- lift Date_now ;;
  assign (set_updated_at now) ;;
  match c_price form with
  | val p => assign (set_price (val p))
  | _ => ret tt
  end ;;
  match form_location form with
  | val l => assign (TaskAdapter.set_location (val l))
  | _ => ret tt
  end ;;
  match c_imageUris form with
  | _ :: _ => assign (TaskAdapter.set_imageUrl
                        (img_array (map JString (c_imageUris form))))
  | [] => ret tt
  end ;;
  match c_expiresAt form with
  | val e => assign (set_expires_at (val e))
  | _ => ret tt
  end.

(** A blank title is refused; the sync pass started afterwards is a
    computation of its own. *)
Definition handleCreateTask (form : CreateForm) : M World (option TaskData) :=
  if negb (truthy_str (trim (c_title form))) then ret None
  else
    try_catch
      (created <- Database.create (initializer form) ;; ret (Some created))
      (fun error => console_error (js "Error creating task:") error ;; ret None).

End TaskForm.

(* ================================================================== *)
(** ** Vocabulary of the properties                                    *)
(* ================================================================== *)

(** The world after [sqliteDb.updateTask(id, u)] and [notifyChange()],
    the two calls that end every writing method of the adapter. *)
Definition stored (task_id : jsstring) (u : TaskUpdates) (w : World) : World :=
  final_state ((SqliteDb.updateTask task_id u ;; SqliteDb.notifyChange) w).

Definition updated_rows (task_id : jsstring) (u : TaskUpdates)
  (l : list TaskData) : list TaskData :=
  map (fun row => if str_eqb (id row) task_id
                  then SqliteDb.apply_updates u row else row) l.

(** The rows of the table stored under an identifier. *)
Definition rows_of (task_id : jsstring) (w : World) : list TaskData :=
  filter (fun row => str_eqb (id row) task_id) (rows (sqlite w)).

(** The persisted queue, as [addToQueue] reads it. *)
Definition queue_of (w : World) : list SyncQueueItem :=
  match async_storage w with
  | Some q => q
  | None => []
  end.

(** [serverId] and [syncedAt] are set: the values are truthy. *)
Definition serverId_set (t : TaskData) : bool := truthy truthy_str (server_id t).
Definition syncedAt_set (t : TaskData) : bool := truthy truthy_int (synced_at t).

(** A task marked synced has a server identifier and a sync time. *)
Definition synced_ok (t : TaskData) : Prop :=
  sync_status t = synced -> serverId_set t = true /\ syncedAt_set t = true.

Definition table_ok (w : World) : Prop := Forall synced_ok (rows (sqlite w)).

(** The real server answers a creation with a non-empty identifier. *)
Definition replies_have_id
  (server : list HttpRequest -> HttpRequest -> FetchOutcome) : Prop :=
  forall history req r reply,
    method req = POST ->
    server history req = Resolved r ->
    json r = Ok reply ->
    reply_id reply <> [].

(** The table of section 4.5 of the specification, in its words: local
    status, server status, resolution and final status. *)
Definition spec_conflict_table (local server : TaskStatus)
  : ConflictResolution * TaskStatus :=
  match local, server with
  | done, cancelled => (client_wins, done)
  | cancelled, done => (server_wins, done)
  | _, _ => (manual, local)
  end.

Definition wp {S A} (m : M S A) (Q : A -> S -> Prop) (E : JsError -> S -> Prop)
  (s : S) : Prop :=
  match m s with
  | (Ok a, s') => Q a s'
  | (Throw e, s') => E e s'
  end.

Definition kept_by_remote (w : World) :=
  (sqlite w, async_storage w, manager w, clock w, respond (network w)).

(** The object after [markAsSynced]. *)
Definition marked_synced (sid : maybe jsstring) (st : maybe TaskStatus)
  (now : Z) (t : TaskData) : TaskData :=
  let t1 := set_synced_at (val now) (set_sync_status synced t) in
  let t2 := if truthy truthy_str sid then set_server_id sid t1 else t1 in
  if truthy always_truthy st then set_server_status st t2 else t2.

(** The object after [resolveConflict]. *)
Definition conflict_resolved (resolution : ConflictResolution)
  (finalStatus : TaskStatus) (now : Z) (t : TaskData) : TaskData :=
  set_updated_at now
    (set_sync_status pending_sync
       (set_status finalStatus (set_conflict_resolution (val resolution) t))).

(** The object after [updateStatus]. *)
Definition status_updated (newStatus : TaskStatus) (now : Z) (t : TaskData)
  : TaskData :=
  let t1 := set_updated_at now (set_status newStatus t) in
  if SyncStatus_eqb (sync_status t1) synced then set_sync_status pending_sync t1
  else t1.

(** A creation that succeeds returns a non-empty identifier: the mock
    server always does, the real one is assumed to. *)
Definition ids_assured (cfg : Config) (w : World) : Prop :=
  USE_MOCK_API cfg = true \/ replies_have_id (respond (network w)).

Definition preserves {S A} (P : S -> Prop) (m : M S A) : Prop :=
  forall s, P s -> wp m (fun _ => P) (fun _ => P) s.

(** What one sync attempt leaves alone, relative to a state [c0]. *)
Definition framed (c0 c : Ctx) : Prop :=
  id (this c) = id (this c0) /\
  manager (world c) = manager (world c0) /\
  async_storage (world c) = async_storage (world c0) /\
  clock (world c) = clock (world c0) /\
  respond (network (world c)) = respond (network (world c0)).

(** The invariant of the store and of an adapter in use: the clock is
    past the epoch, creations return identifiers, and whatever is marked
    synced has its identifier and its time.  With [with_id] the adapter
    also has a server identifier. *)
Definition Good (cfg : Config) (with_id : bool) (c : Ctx) : Prop :=
  clock (world c) <> 0%Z /\
  (USE_MOCK_API cfg = true \/ replies_have_id (respond (network (world c)))) /\
  synced_ok (this c) /\
  table_ok (world c) /\
  (with_id = true -> serverId_set (this c) = true).

(** Whether a computation ended by a throw. *)
Definition thrown {A} (r : Result A) : bool :=
  match r with
  | Throw _ => true
  | Ok _ => false
  end.

(** The outcome of processing each item of a queue, in the world in which
    the drain reaches it. *)
Fixpoint item_outcomes (cfg : Config) (queue : list SyncQueueItem) (w : World)
  : list (Result unit) :=
  match queue with
  | [] => []
  | item :: rest =>
      fst (SyncManager.process_item cfg item w)
        :: item_outcomes cfg rest (final_state (SyncManager.drain_step cfg item [] w))
  end.

(** The items whose outcome is a throw, in the order of the queue. *)
Definition retained (queue : list SyncQueueItem) (outcomes : list (Result unit))
  : list SyncQueueItem :=
  map fst (filter (fun p => thrown (snd p)) (combine queue outcomes)).

(** What a drain leaves alone. *)
Definition drain_framed (w0 w : World) : Prop :=
  sqlite w = sqlite w0 /\ manager w = manager w0 /\ clock w = clock w0 /\
  mock w = mock w0 /\ respond (network w) = respond (network w0).

(** The stored value after a drain of the queue [q]. *)
Definition stored_queue (q : list SyncQueueItem) : option (list SyncQueueItem) :=
  match q with
  | [] => None
  | _ :: _ => Some q
  end.

(** The fields that record the resolution, in the adapter and in its rows. *)
Definition records (resolution : ConflictResolution) (final : TaskStatus)
  (task_id : jsstring) (c : Ctx) : Prop :=
  conflict_resolution (this c) = val resolution /\
  status (this c) = final /\
  Forall (fun row => conflict_resolution row = val resolution /\ status row = final)
         (rows_of task_id (world c)).

(** The state of the adapter and of its stored rows after an edit at the
    time [now]: pending, and last updated at [now]. *)
Definition edited_at (now : Z) (task_id : jsstring) (c : Ctx) : Prop :=
  sync_status (this c) = pending_sync /\
  updated_at (this c) = now /\
  Forall (fun row => sync_status row = pending_sync /\ updated_at row = now)
         (rows_of task_id (world c)).

(** The invariant of the world alone. *)
Definition GoodW (cfg : Config) (w : World) : Prop :=
  clock w <> 0%Z /\ ids_assured cfg w /\ table_ok w.

(** One turn of the loop of [syncAll], as a function on worlds. *)
Definition sync_step (cfg : Config) (w : World) (task : TaskData) : World :=
  if SyncManager.needs_sync task
  then final_state (with_task task (SyncManager.syncTask cfg) w)
  else w.

(** The world when the [try] block of [syncAll] is entered, and the effect
    of its [finally] block. *)
Definition sync_started (w : World) : World :=
  final_state ((modify (fun w => SyncManager.set_flags (isOnline (manager w)) true w) ;;
                SyncManager.notifyListeners) w).

Definition sync_finished (w : World) : World :=
  final_state (SyncManager.syncAll_finally w).

(** The positions, counted from [from], of the outcomes that are throws. *)
Fixpoint thrown_positions (from : nat) (outcomes : list (Result unit)) : list nat :=
  match outcomes with
  | [] => []
  | r :: rest =>
      (if thrown r then [from] else []) ++ thrown_positions (S from) rest
  end.

(** An operation on an adapter keeps the invariant of the adapter and of
    the table. *)
Definition keeps_synced_ok {A} (m : M Ctx A) (c : Ctx) : Prop :=
  synced_ok (this (final_state (m c))) /\ table_ok (world (final_state (m c))).

(** The world after [generateUUID]. *)
Definition uuid_drawn (w : World) : World :=
  final_state (SqliteDb.generateUUID w).

(** *** Sample data *)

(** The configuration that talks to the real server. *)
Definition real_server : Config := {| USE_MOCK_API := false |}.

(** No connection: every request is rejected as React Native rejects it. *)
Definition offline_network : Network :=
  mkNetwork (fun _ _ => Rejected (mkError (js "TypeError")
                                    (js "Network request failed"))) [].

(** A server that answers every request with status [done]. *)
Definition done_server : Network :=
  mkNetwork (fun _ _ => Resolved (mkHttpResponse true (js "OK")
                                    (Ok (mkReply (js "srv_9") done)))) [].

(** A server that fails every request with status 500. *)
Definition broken_server : Network :=
  mkNetwork (fun _ _ => Resolved (mkHttpResponse false (js "Internal Server Error")
                                    (Throw (mkError (js "SyntaxError")
                                              (js "JSON Parse error"))))) [].

(** A connection that drops the first request, serves the second and
    answers 500 from the third on. *)
Definition flaky_server : Network :=
  mkNetwork
    (fun history _ =>
       match List.length history with
       | O => Rejected (mkError (js "TypeError") (js "Network request failed"))
       | S O => Resolved (mkHttpResponse true (js "OK")
                            (Ok (mkReply (js "srv_9") done)))
       | _ => Resolved (mkHttpResponse false (js "Internal Server Error")
                          (Throw (mkError (js "SyntaxError")
                                    (js "JSON Parse error"))))
       end) [].

(** A task known to the server as in progress, set back to pending. *)
Definition sample_task : TaskData :=
  mkTaskData (js "task_a") (js "Audit 1") null pending pending_sync
    (val (js "srv_1")) (val in_progress) null 1000 2000 (val 1500%Z)
    null null null null null null.

(** A task that was never sent. *)
Definition fresh_task : TaskData :=
  mkTaskData (js "task_b") (js "Audit 2") null pending pending_sync
    null null null 1000 1000 null null null null null null null.

(** A task in sync with the server. *)
Definition synced_task : TaskData :=
  mkTaskData (js "task_c") (js "Audit 3") null in_progress synced
    (val (js "srv_3")) (val in_progress) null 1000 3000 (val 3000%Z)
    null null null null null null.

Definition sample_queue : list SyncQueueItem :=
  [mkQueueItem (js "srv_5") act_delete undefined 4000;
   mkQueueItem (js "srv_6") act_delete undefined 4100;
   mkQueueItem (js "srv_7") act_delete undefined 4200].

(** An online, idle world at time 5000 with the given table, queue and
    network. *)
Definition world_with (tasks : list TaskData)
  (queue : option (list SyncQueueItem)) (n : Network) : World :=
  mkWorld (mkSqlite tasks 0 (fun k => MockApi.decimal (N.of_nat k)) 0)
    queue (mkManager true false 0) (mkMock [] 1 []) n 5000 [].

Definition sample_ctx (n : Network) : Ctx :=
  mkCtx sample_task (world_with [sample_task] None n).

(** A world in which a sync pass is already running. *)
Definition busy_world : World :=
  mkWorld (mkSqlite [sample_task] 0 (fun k => MockApi.decimal (N.of_nat k)) 0)
    (Some sample_queue) (mkManager true true 1) (mkMock [] 1 []) done_server
    5000 [].

Definition edit_form : TaskDetail.EditForm :=
  TaskDetail.mkEditForm (js " Audit 3, checked ") (js "") done
    [js "file:///a.jpg"] null.

Definition create_form : TaskForm.CreateForm :=
  TaskForm.mkCreateForm (js "Audit 4") (js "") undefined (js "")
    [js "file:///a.jpg"; js "file:///b.jpg"] undefined.

(** *** Further sample data *)

(** A server that reports the first task it is asked about as cancelled
    and is unreachable from the second request on. *)
Definition cancelling_then_down : Network :=
  mkNetwork
    (fun history _ =>
       match history with
       | [] => Resolved (mkHttpResponse true (js "OK")
                           (Ok (mkReply (js "srv_1") cancelled)))
       | _ :: _ => Rejected (mkError (js "TypeError")
                               (js "Network request failed"))
       end) [].

(** A task done locally that the server knows as in progress. *)
Definition done_task : TaskData := set_status done sample_task.

(** An offline, idle world with a task never sent and a task in sync. *)
Definition offline_world : World :=
  mkWorld (mkSqlite [fresh_task; synced_task] 0
             (fun k => MockApi.decimal (N.of_nat k)) 0)
    None (mkManager false false 0) (mkMock [] 1 []) offline_network 5000 [].

(** An edit that places the task on the equator. *)
Definition equator_form : TaskDetail.EditForm :=
  TaskDetail.mkEditForm (js "Audit 3") (js "") done []
    (val (mkLocation 0 (5 # 1) (js "Quito"))).

Definition sample_payload : Payload :=
  mkPayload (js "Audit 5") undefined pending (val (12 # 1)) undefined
    undefined undefined.

(** *** Vocabulary of the further properties *)

(** The order of the list of all tasks: the more recently updated first. *)
Definition newer_first (a b : TaskData) : Prop := (updated_at b <= updated_at a)%Z.

(** The identifier the next call of [sqliteDb.createTask] gives. *)
Definition next_task_id (w : World) : jsstring :=
  js "task_" ++ uuid_source (sqlite w) (uuids_drawn (sqlite w)).

Definition stored_ids (w : World) : list jsstring := map id (rows (sqlite w)).

(** The identifier under which the mock server knows a task after a sync
    attempt: the one the task had, or the one of the creation. *)
Definition shipped_server_id (c : Ctx) : maybe jsstring :=
  if serverId_set (this c) then server_id (this c)
  else val (js "task_" ++ MockApi.decimal (nextId (mock (world c)))).

(** The call a sync attempt makes to the mock server. *)
Definition shipped_call (c : Ctx) : MockCall :=
  match server_id (this c) with
  | val sid =>
      if truthy_str sid then mock_updateTask sid (SyncManager.payload_of (this c))
      else mock_createTask (SyncManager.payload_of (this c))
  | _ => mock_createTask (SyncManager.payload_of (this c))
  end.

(** A row after a sync pass against the mock server: the same task, now
    synced. *)
Definition same_task_synced (r r' : TaskData) : Prop :=
  id r' = id r /\ title r' = title r /\ status r' = status r /\
  sync_status r' = synced.

(** A row while the pass is under way: synced once a task with its
    identifier has been taken up, or if it was synced before. *)
Definition synced_so_far (done : list TaskData) (r r' : TaskData) : Prop :=
  id r' = id r /\ title r' = title r /\ status r' = status r /\
  (sync_status r = synced \/
   In (id r) (map id (filter SyncManager.needs_sync done)) ->
   sync_status r' = synced).

(** The requests [createTaskOnServer] and [updateTaskOnServer] send to the
    real server for a task. *)
Definition post_request (t : TaskData) : HttpRequest :=
  mkRequest POST (API_BASE_URL ++ js "/tasks") (Some (SyncManager.body_of t)).

Definition put_request (t : TaskData) : HttpRequest :=
  mkRequest PUT
    (API_BASE_URL ++ js "/tasks/" ++ SyncManager.in_template (server_id t))
    (Some (SyncManager.body_of t)).

(** The answer of the network to a request sent after [earlier], the
    requests sent since the world [w]. *)
Definition answer (w : World) (earlier : list HttpRequest) (req : HttpRequest)
  : FetchOutcome :=
  respond (network w) (sent (network w) ++ earlier) req.

(** The request the drain sends to the real server for a queued deletion. *)
Definition delete_request (sid : jsstring) : HttpRequest :=
  mkRequest DELETE (API_BASE_URL ++ js "/tasks/" ++ sid) None.

(** The order in which the task list shows its tasks. *)
Definition in_order (sortOrder : TaskList.SortOrder) (a b : TaskData) : Prop :=
  match sortOrder with
  | TaskList.desc => (updated_at b <= updated_at a)%Z
  | TaskList.asc => (updated_at a <= updated_at b)%Z
  end.

(** With respect to a comparator, [x] may stand before [y]. *)
Definition not_after {A} (compare : A -> A -> Z) (x y : A) : Prop :=
  (compare x y <= 0)%Z.

(** The elements of a list at the even and at the odd positions. *)
Fixpoint alternate {A} (l : list A) : list A * list A :=
  match l with
  | [] => ([], [])
  | x :: rest => let (evens, odds) := alternate rest in (x :: odds, evens)
  end.

(** The shape of a version-4 UUID: in a shape, [h] stands for a
    hexadecimal digit in lower case, [v] for one of 8, 9, a and b, and any
    other character for itself. *)
Definition is_hex_digit (c : codeunit) : bool :=
  ((48 <=? c) && (c <=? 57)) || ((97 <=? c) && (c <=? 102)).

Definition is_variant_digit (c : codeunit) : bool :=
  (c =? 56) || (c =? 57) || (c =? 97) || (c =? 98).

Fixpoint has_shape (shape s : jsstring) : bool :=
  match shape, s with
  | [], [] => true
  | p :: shape', c :: s' =>
      (if p =? 104 then is_hex_digit c
       else if p =? 118 then is_variant_digit c
       else c =? p) && has_shape shape' s'
  | _, _ => false
  end.

Definition is_uuid_v4 (s : jsstring) : bool :=
  has_shape (js "hhhhhhhh-hhhh-4hhh-vhhh-hhhhhhhhhhhh") s.

(** The values [Math.random] may return. *)
Definition unit_interval (x : Q) : Prop := (0 <= x)%Q /\ (x < 1)%Q.

(* =================== properties =================== *)

Local Open Scope js_scope.

Section JsonRoundTrip.

Lemma hex_value_hex_digit d : d < 16 -> hex_value (hex_digit d) = Some d.
Proof.
  intros H.
  assert (E : d = 0 \/ d = 1 \/ d = 2 \/ d = 3 \/ d = 4 \/ d = 5 \/ d = 6 \/
              d = 7 \/ d = 8 \/ d = 9 \/ d = 10 \/ d = 11 \/ d = 12 \/
              d = 13 \/ d = 14 \/ d = 15) by lia.
  repeat (destruct E as [E | E]; [subst d; reflexivity |]).
  subst d; reflexivity.
Qed.

Lemma hex4_unicode_escape c :
  c < 65536 ->
  hex4 (hex_digit (c / 4096 mod 16)) (hex_digit (c / 256 mod 16))
       (hex_digit (c / 16 mod 16)) (hex_digit (c mod 16)) = Some c.
Proof.
  intros H. unfold hex4.
  rewrite !hex_value_hex_digit by (apply N.mod_lt; discriminate).
  f_equal.
  zify; Z.to_euclidean_division_equations; lia.
Qed.

Lemma parse_unicode_escape c tail :
  c < 65536 ->
  parse_chars (unicode_escape c ++ tail) = consed c (parse_chars tail).
Proof.
  intros H. unfold unicode_escape. cbn [app parse_chars].
  change (92 =? 34) with false. change (92 =? 92) with true.
  change (117 =? 117) with true. cbv iota.
  now rewrite hex4_unicode_escape.
Qed.

Lemma parse_quote_unit c tail :
  is_lead_surrogate c = false ->
  parse_chars (quote_unit c ++ tail) = consed c (parse_chars tail).
Proof.
  intros Hlead. unfold quote_unit.
  destruct (c =? 8) eqn:E8; [apply N.eqb_eq in E8; subst; reflexivity|].
  destruct (c =? 9) eqn:E9; [apply N.eqb_eq in E9; subst; reflexivity|].
  destruct (c =? 10) eqn:E10; [apply N.eqb_eq in E10; subst; reflexivity|].
  destruct (c =? 12) eqn:E12; [apply N.eqb_eq in E12; subst; reflexivity|].
  destruct (c =? 13) eqn:E13; [apply N.eqb_eq in E13; subst; reflexivity|].
  destruct (c =? 34) eqn:E34; [apply N.eqb_eq in E34; subst; reflexivity|].
  destruct (c =? 92) eqn:E92; [apply N.eqb_eq in E92; subst; reflexivity|].
  destruct ((c <? 32) || is_lead_surrogate c || is_trail_surrogate c) eqn:Esc.
  - apply parse_unicode_escape.
    rewrite Hlead, orb_false_r in Esc. apply orb_true_iff in Esc.
    destruct Esc as [Esc | Esc].
    + apply N.ltb_lt in Esc. lia.
    + unfold is_trail_surrogate in Esc. apply andb_true_iff in Esc.
      destruct Esc as [_ Esc]. apply N.leb_le in Esc. lia.
  - apply orb_false_iff in Esc. destruct Esc as [Esc _].
    apply orb_false_iff in Esc. destruct Esc as [Esc _].
    cbn [app parse_chars]. now rewrite E34, E92, Esc.
Qed.

Lemma parse_raw_surrogate c tail :
  55296 <= c ->
  parse_chars (c :: tail) = consed c (parse_chars tail).
Proof.
  intros H. cbn [parse_chars].
  replace (c =? 34) with false by (symmetry; apply N.eqb_neq; lia).
  replace (c =? 92) with false by (symmetry; apply N.eqb_neq; lia).
  replace (c <? 32) with false by (symmetry; apply N.ltb_ge; lia).
  reflexivity.
Qed.

Lemma lead_surrogate_bounds c :
  is_lead_surrogate c = true -> 55296 <= c /\ c < 65536.
Proof.
  unfold is_lead_surrogate. intros H. apply andb_true_iff in H.
  destruct H as [H1 H2]. apply N.leb_le in H1. apply N.leb_le in H2. lia.
Qed.

Lemma trail_surrogate_bounds c :
  is_trail_surrogate c = true -> 55296 <= c.
Proof.
  unfold is_trail_surrogate. intros H. apply andb_true_iff in H.
  destruct H as [H1 _]. apply N.leb_le in H1. lia.
Qed.

(** Reading back the characters of a quoted string. *)
Lemma parse_quote_chars_bounded n :
  forall s tail, (List.length s <= n)%nat ->
    parse_chars (quote_chars s ++ 34 :: tail) = Some (s, tail).
Proof.
  induction n as [| n IH]; intros s tail Hlen.
  - destruct s; [reflexivity | cbn in Hlen; lia].
  - destruct s as [| c r]; [reflexivity |].
    cbn [List.length] in Hlen. cbn [quote_chars].
    destruct (is_lead_surrogate c) eqn:Hlead.
    + destruct (lead_surrogate_bounds Hlead) as [Hlo Hhi].
      destruct r as [| d r'].
      * rewrite parse_unicode_escape by assumption.
        reflexivity.
      * destruct (is_trail_surrogate d) eqn:Htrail.
        -- cbn [app]. rewrite parse_raw_surrogate by assumption.
           rewrite parse_raw_surrogate by (now apply trail_surrogate_bounds).
           rewrite IH by (cbn [List.length] in Hlen; lia). reflexivity.
        -- rewrite <- app_assoc, parse_unicode_escape by assumption.
           rewrite IH by lia. reflexivity.
    + rewrite <- app_assoc, parse_quote_unit by assumption.
      rewrite IH by lia. reflexivity.
Qed.

Lemma parse_quote_chars s tail :
  parse_chars (quote_chars s ++ 34 :: tail) = Some (s, tail).
Proof. apply (@parse_quote_chars_bounded (List.length s)). lia. Qed.

Lemma quote_app s tail : quote s ++ tail = 34 :: quote_chars s ++ 34 :: tail.
Proof. unfold quote. cbn [app]. now rewrite <- app_assoc. Qed.

Lemma parse_value_quote d s tail :
  parse_value (S d) (quote s ++ tail) = Some (JString s, tail).
Proof.
  rewrite quote_app. cbn [parse_value skip_ws].
  change (is_ws 34) with false. cbv iota.
  change (34 =? 34) with true. cbv iota.
  now rewrite parse_quote_chars.
Qed.

Lemma parse_elements_strings d :
  forall (l : list jsstring) (n : nat) tail,
    l <> [] -> (List.length l <= n)%nat ->
    parse_elements (parse_value (S d)) n (join_comma (map quote l) ++ 93 :: tail)
    = Some (map JString l, tail).
Proof.
  induction l as [| s l IH]; intros n tail Hne Hlen; [congruence |].
  destruct n as [| n]; [cbn in Hlen; lia |].
  cbn [List.length] in Hlen.
  destruct l as [| s' l'].
  - cbn [map join_comma parse_elements].
    rewrite parse_value_quote. cbn [skip_ws].
    change (is_ws 93) with false. cbv iota.
    reflexivity.
  - change (join_comma (map quote (s :: s' :: l')))
      with (quote s ++ 44 :: join_comma (map quote (s' :: l'))).
    rewrite <- app_assoc. cbn [parse_elements].
    rewrite parse_value_quote. cbn [app skip_ws].
    change (is_ws 44) with false. cbv iota.
    change (44 =? 44) with true. cbv iota.
    rewrite IH by (try discriminate; lia). reflexivity.
Qed.

Lemma length_join_quote (l : list jsstring) :
  (List.length l <= List.length (join_comma (map quote l)))%nat.
Proof.
  induction l as [| s l IH]; [cbn; lia |].
  destruct l as [| s' l'].
  - cbn. lia.
  - change (join_comma (map quote (s :: s' :: l')))
      with (quote s ++ 44 :: join_comma (map quote (s' :: l'))).
    rewrite length_app. cbn [List.length] in *. lia.
Qed.

Lemma stringify_strings (l : list jsstring) :
  stringify (JArray (map JString l)) = 91 :: join_comma (map quote l) ++ [93].
Proof.
  cbn [stringify]. rewrite map_map. reflexivity.
Qed.

Lemma parse_value_bracket d r :
  parse_value (S d) (91 :: r) =
  match skip_ws r with
  | 93 :: rest => Some (JArray [], rest)
  | _ =>
      match parse_elements (parse_value d) (S (List.length r)) r with
      | Some (vs, rest) => Some (JArray vs, rest)
      | None => None
      end
  end.
Proof. reflexivity. Qed.

Lemma join_quote_head s l tail :
  exists tl, join_comma (map quote (s :: l)) ++ tail = 34 :: tl.
Proof. destruct l; eexists; reflexivity. Qed.

Lemma parse_value_strings d (l : list jsstring) tail :
  parse_value (S (S d)) (91 :: join_comma (map quote l) ++ 93 :: tail)
  = Some (JArray (map JString l), tail).
Proof.
  rewrite parse_value_bracket.
  destruct l as [| s l]; [reflexivity |].
  destruct (join_quote_head s l (93 :: tail)) as [tl Htl].
  rewrite Htl at 1. cbn [skip_ws]. change (is_ws 34) with false. cbv iota.
  rewrite parse_elements_strings.
  - reflexivity.
  - discriminate.
  - rewrite length_app. pose proof (length_join_quote (s :: l)). lia.
Qed.

(** [JSON.parse(JSON.stringify(strings))] is the array of the strings. *)
Lemma parse_stringify_strings (l : list jsstring) :
  parse (stringify (JArray (map JString l))) = Some (JArray (map JString l)).
Proof.
  rewrite stringify_strings. unfold parse.
  cbn [List.length]. rewrite length_app. cbn [List.length].
  rewrite Nat.add_1_r.
  change (91 :: join_comma (map quote l) ++ [93])
    with (91 :: join_comma (map quote l) ++ 93 :: []).
  rewrite parse_value_strings. reflexivity.
Qed.

End JsonRoundTrip.

Section WeakestPreconditions.

Context {S : Type}.

Lemma wp_ret A (a : A) Q E (s : S) : wp (ret a) Q E s = Q a s.
Proof. reflexivity. Qed.

Lemma wp_throw A e (Q : A -> S -> Prop) E (s : S) : wp (throw e) Q E s = E e s.
Proof. reflexivity. Qed.

Lemma wp_gets A (f : S -> A) Q E s : wp (gets f) Q E s = Q (f s) s.
Proof. reflexivity. Qed.

Lemma wp_modify (f : S -> S) Q E s : wp (modify f) Q E s = Q tt (f s).
Proof. reflexivity. Qed.

Lemma wp_bind A B (m : M S A) (k : A -> M S B) Q E s :
  wp (bind m k) Q E s = wp m (fun a s' => wp (k a) Q E s') E s.
Proof. unfold wp, bind. destruct (m s) as [[a | e] s']; reflexivity. Qed.

Lemma wp_try_catch A (m : M S A) h Q E s :
  wp (try_catch m h) Q E s = wp m Q (fun e s' => wp (h e) Q E s') s.
Proof. unfold wp, try_catch. destruct (m s) as [[a | e] s']; reflexivity. Qed.

Lemma wp_try_finally A (m : M S A) final Q E s :
  wp (try_finally m final) Q E s =
  wp m (fun a s1 => wp final (fun _ s2 => Q a s2) E s1)
       (fun e s1 => wp final (fun _ s2 => E e s2) E s1) s.
Proof.
  unfold wp, try_finally.
  destruct (m s) as [[a | e] s1]; destruct (final s1) as [[[] | e'] s2]; reflexivity.
Qed.

Lemma wp_mono A (m : M S A) (Q Q' : A -> S -> Prop) (E E' : JsError -> S -> Prop) s :
  (forall a s', Q a s' -> Q' a s') ->
  (forall e s', E e s' -> E' e s') ->
  wp m Q E s -> wp m Q' E' s.
Proof. unfold wp. destruct (m s) as [[a | e] s']; auto. Qed.

Lemma wp_run A (m : M S A) Q E s :
  wp m Q E s ->
  (forall a s', m s = (Ok a, s') -> Q a s') /\
  (forall e s', m s = (Throw e, s') -> E e s').
Proof.
  unfold wp. destruct (m s) as [[a | e] s']; intros H; split; intros ? ? Heq;
    inversion Heq; subst; assumption.
Qed.

Lemma wp_of_run A (m : M S A) a s s' Q E :
  m s = (Ok a, s') -> wp m Q E s = Q a s'.
Proof. unfold wp. now intros ->. Qed.

Lemma wp_for_each A (body : A -> M S unit) (I : S -> Prop) E :
  forall xs s,
    I s ->
    (forall x s', In x xs -> I s' -> wp (body x) (fun _ => I) E s') ->
    wp (for_each xs body) (fun _ => I) E s.
Proof.
  induction xs as [| x xs IH]; intros s Hs Hbody.
  - exact Hs.
  - cbn [for_each]. rewrite wp_bind.
    eapply wp_mono; [| | apply Hbody; [now left | exact Hs]].
    + intros [] s' Hs'. apply IH; [exact Hs' |].
      intros y s'' Hy. apply Hbody. now right.
    + auto.
Qed.

End WeakestPreconditions.

Lemma wp_lift A (m : M World A) Q E c :
  wp (lift m) Q E c =
  wp m (fun a w => Q a (mkCtx (this c) w)) (fun e w => E e (mkCtx (this c) w))
     (world c).
Proof. unfold wp, lift. destruct (m (world c)) as [[a | e] w]; reflexivity. Qed.

Lemma wp_with_task A task (m : M Ctx A) Q E w :
  wp (with_task task m) Q E w =
  wp m (fun a c => Q a (world c)) (fun e c => E e (world c)) (mkCtx task w).
Proof. unfold wp, with_task. destruct (m (mkCtx task w)) as [[a | e] c]; reflexivity. Qed.

Lemma wp_assign f Q E c :
  wp (assign f) Q E c = Q tt (mkCtx (f (this c)) (world c)).
Proof. reflexivity. Qed.

Lemma wp_get_this Q E c : wp get_this Q E c = Q (this c) c.
Proof. reflexivity. Qed.

Section StoreLemmas.

Lemma str_eqb_refl a : str_eqb a a = true.
Proof. induction a as [| x a IH]; [reflexivity |]. cbn. now rewrite N.eqb_refl. Qed.

Lemma str_eqb_eq a b : str_eqb a b = true <-> a = b.
Proof.
  split; [| intros ->; apply str_eqb_refl].
  revert b. induction a as [| x a IH]; intros [| y b] H; try discriminate.
  - reflexivity.
  - cbn in H. apply andb_true_iff in H. destruct H as [Hx Hab].
    apply N.eqb_eq in Hx. f_equal; auto.
Qed.

Lemma stored_sqlite i u w :
  sqlite (stored i u w) =
  mkSqlite (updated_rows i u (rows (sqlite w))) (Datatypes.S (change_rounds (sqlite w)))
    (uuid_source (sqlite w)) (uuids_drawn (sqlite w)).
Proof. reflexivity. Qed.

Lemma stored_rows i u w :
  rows (sqlite (stored i u w)) = updated_rows i u (rows (sqlite w)).
Proof. reflexivity. Qed.

Lemma stored_frame i u w :
  async_storage (stored i u w) = async_storage w /\
  manager (stored i u w) = manager w /\
  mock (stored i u w) = mock w /\
  network (stored i u w) = network w /\
  clock (stored i u w) = clock w /\
  console (stored i u w) = console w.
Proof. repeat split. Qed.

Lemma stored_clock i u w : clock (stored i u w) = clock w.
Proof. reflexivity. Qed.
Lemma stored_manager i u w : manager (stored i u w) = manager w.
Proof. reflexivity. Qed.
Lemma stored_async_storage i u w : async_storage (stored i u w) = async_storage w.
Proof. reflexivity. Qed.
Lemma stored_network i u w : network (stored i u w) = network w.
Proof. reflexivity. Qed.
Lemma stored_mock i u w : mock (stored i u w) = mock w.
Proof. reflexivity. Qed.

(** The rows stored under [i] after a write under [i]. *)
Lemma rows_of_stored i u w :
  rows_of i (stored i u w) = map (SqliteDb.apply_updates u) (rows_of i w).
Proof.
  unfold rows_of. rewrite stored_rows. unfold updated_rows.
  induction (rows (sqlite w)) as [| row l IH]; [reflexivity |].
  cbn [map filter].
  destruct (str_eqb (id row) i) eqn:Hrow.
  - change (id (SqliteDb.apply_updates u row)) with (id row).
    rewrite Hrow. cbn [map]. now rewrite IH.
  - rewrite Hrow. exact IH.
Qed.

End StoreLemmas.

Section AdapterRuns.

Lemma run_markAsSyncing c :
  TaskAdapter.markAsSyncing c =
  (Ok tt, mkCtx (set_sync_status syncing (this c))
            (stored (id (this c)) TaskAdapter.fields_markAsSyncing (world c))).
Proof. destruct c. reflexivity. Qed.

Lemma run_markAsSynced sid st c :
  TaskAdapter.markAsSynced sid st c =
  let d := marked_synced sid st (clock (world c)) (this c) in
  (Ok tt, mkCtx d (stored (id (this c)) (TaskAdapter.fields_markAsSynced d) (world c))).
Proof. destruct c as [t w]. destruct sid as [| |[|]], st; reflexivity. Qed.

Lemma run_resolveConflict resolution finalStatus c :
  TaskAdapter.resolveConflict resolution (val finalStatus) c =
  let d := conflict_resolved resolution finalStatus (clock (world c)) (this c) in
  (Ok tt, mkCtx d (stored (id (this c))
                     (TaskAdapter.fields_resolveConflict resolution d) (world c))).
Proof. destruct c. reflexivity. Qed.

Lemma run_updateStatus newStatus c :
  TaskAdapter.updateStatus newStatus c =
  let d := status_updated newStatus (clock (world c)) (this c) in
  (Ok tt, mkCtx d (stored (id (this c))
                     (TaskAdapter.fields_updateStatus newStatus d) (world c))).
Proof. destruct c as [t w]. unfold status_updated. destruct (sync_status t) eqn:E;
  unfold TaskAdapter.updateStatus, bind; cbn; rewrite E; reflexivity. Qed.

Lemma run_update updater c c1 :
  updater c = (Ok tt, c1) ->
  TaskAdapter.update updater c =
  (Ok tt, mkCtx (this c1)
            (stored (id (this c1)) (TaskAdapter.all_fields (this c1)) (world c1))).
Proof. intros H. unfold TaskAdapter.update, bind. rewrite H. destruct c1. reflexivity. Qed.

Lemma run_destroyPermanently c :
  TaskAdapter.destroyPermanently c =
  (Ok tt, mkCtx (this c)
            (final_state ((SqliteDb.deleteTask (id (this c)) ;; SqliteDb.notifyChange)
                            (world c)))).
Proof. destruct c. reflexivity. Qed.

End AdapterRuns.

Ltac case_respond e r H :=
  match goal with
  | |- context [respond ?n ?h ?q] => destruct (respond n h q) as [e | r] eqn:H
  end.

Section RemoteCalls.

Variable cfg : Config.

Lemma createTaskOnServer_spec c :
  exists res w',
    SyncManager.createTaskOnServer cfg c = (res, mkCtx (this c) w') /\
    kept_by_remote w' = kept_by_remote (world c) /\
    (ids_assured cfg (world c) -> forall r, res = Ok (Some r) -> reply_id r <> []).
Proof.
  destruct c as [t w]. unfold ids_assured.
  unfold SyncManager.createTaskOnServer, try_catch, bind.
  cbn [get_this gets this world].
  destruct (USE_MOCK_API cfg) eqn:Hmock.
  - do 2 eexists. split; [reflexivity |]. split; [reflexivity |].
    intros _ r Hr. inversion Hr; subst. cbn. discriminate.
  - unfold lift, SyncManager.fetch. cbn [this world].
    case_respond e r Hresp.
    + destruct (SyncManager.network_failure e);
        do 2 eexists; (split; [reflexivity |]); (split; [reflexivity |]);
        intros _ r Hr; discriminate.
    + destruct (ok r) eqn:Hok; cbn [negb].
      * unfold SyncManager.response_json.
        destruct (json r) as [reply | e] eqn:Hjson.
        -- do 2 eexists. split; [reflexivity |]. split; [reflexivity |].
           intros [Habs | Hids] r' Hr; [discriminate |].
           inversion Hr; subst r'.
           eapply Hids; [| exact Hresp | exact Hjson]. reflexivity.
        -- cbn. destruct (SyncManager.network_failure e);
             do 2 eexists; (split; [reflexivity |]); (split; [reflexivity |]);
             intros _ r' Hr; discriminate.
      * cbn [throw this world].
        destruct (SyncManager.network_failure _);
          do 2 eexists; (split; [reflexivity |]); (split; [reflexivity |]);
          intros _ r' Hr; discriminate.
Qed.

Lemma mock_updateTask_run sid p w :
  exists resp w',
    MockApi.updateTask sid p w = (Ok resp, w') /\
    kept_by_remote w' = kept_by_remote w /\
    console w' = console w /\
    r_status resp = p_status p.
Proof.
  unfold MockApi.updateTask, bind, MockApi.called, modify, gets, Date_now.
  cbn [mock set_mock mockTasks].
  destruct (MockApi.map_get sid (mockTasks (mock w)));
    do 2 eexists; (split; [reflexivity |]); repeat split.
Qed.

Lemma put_task_spec t c :
  exists res w',
    SyncManager.put_task t c = (res, mkCtx (this c) w') /\
    kept_by_remote w' = kept_by_remote (world c) /\
    console w' = console (world c).
Proof.
  destruct c as [t0 w].
  unfold SyncManager.put_task, bind.
  unfold lift, SyncManager.fetch. cbn [this world].
  case_respond e r Hresp.
  - do 2 eexists. repeat split.
  - destruct (ok r); cbn [negb].
    + unfold SyncManager.response_json.
      destruct (json r) as [reply | e]; do 2 eexists; repeat split.
    + do 2 eexists. repeat split.
Qed.

Lemma updateTaskOnServer_spec c :
  exists res w',
    SyncManager.updateTaskOnServer cfg c = (res, mkCtx (this c) w') /\
    kept_by_remote w' = kept_by_remote (world c).
Proof.
  assert (Hcatch : forall (res1 : Result (option TaskStatus)) w1,
    kept_by_remote w1 = kept_by_remote (world c) ->
    exists (res : Result (option TaskStatus)) w',
      match res1 with
      | Ok a => (Ok a, mkCtx (this c) w1)
      | Throw error =>
          (if SyncManager.network_failure error then ret None
           else lift (console_error (js "Error updating task on server:") error) ;;
                throw error) (mkCtx (this c) w1)
      end = (res, mkCtx (this c) w') /\
      kept_by_remote w' = kept_by_remote (world c)).
  { intros [a | e] w1 Hk.
    - do 2 eexists. split; [reflexivity | exact Hk].
    - destruct (SyncManager.network_failure e);
        do 2 eexists; (split; [reflexivity |]); exact Hk. }
  unfold SyncManager.updateTaskOnServer, try_catch.
  unfold bind at 1. cbn [get_this gets].
  assert (Hput : exists (res : Result (option TaskStatus)) w',
    match SyncManager.put_task (this c) c with
    | (Ok a, s') => (Ok a, s')
    | (Throw e, s') =>
        (if SyncManager.network_failure e then ret None
         else lift (console_error (js "Error updating task on server:") e) ;;
              throw e) s'
    end = (res, mkCtx (this c) w') /\
    kept_by_remote w' = kept_by_remote (world c)).
  { destruct (put_task_spec (this c) c) as (res1 & w1 & Hrun & Hk & _).
    rewrite Hrun. destruct (Hcatch res1 w1 Hk) as (res & w' & H1 & H2).
    exists res, w'. split; [| exact H2]. destruct res1; exact H1. }
  destruct (server_id (this c)) as [| | sid] eqn:Hsid; try exact Hput.
  destruct (USE_MOCK_API cfg && truthy_str sid); [| exact Hput].
  destruct c as [t w]. unfold bind, try_catch, lift. cbn [this world].
  destruct (mock_updateTask_run sid (SyncManager.payload_of t) w)
    as (resp & w' & Hrun & Hk & _).
  rewrite Hrun. do 2 eexists. split; [reflexivity | exact Hk].
Qed.

End RemoteCalls.

Section Preservation.

Context {S : Type} (P : S -> Prop).

Lemma preserves_ret A (a : A) : preserves P (ret a).
Proof. intros s Hs. exact Hs. Qed.

Lemma preserves_throw A e : preserves P (@throw S A e).
Proof. intros s Hs. exact Hs. Qed.

Lemma preserves_gets A (f : S -> A) : preserves P (gets f).
Proof. intros s Hs. exact Hs. Qed.

Lemma preserves_bind A B (m : M S A) (k : A -> M S B) :
  preserves P m -> (forall a, preserves P (k a)) -> preserves P (bind m k).
Proof.
  intros Hm Hk s Hs. rewrite wp_bind.
  eapply wp_mono; [| | apply Hm, Hs]; cbv beta; [| auto].
  intros a s' Hs'. apply Hk, Hs'.
Qed.

Lemma preserves_try_catch A (m : M S A) h :
  preserves P m -> (forall e, preserves P (h e)) -> preserves P (try_catch m h).
Proof.
  intros Hm Hh s Hs. rewrite wp_try_catch.
  eapply wp_mono; [| | apply Hm, Hs]; cbv beta; [auto |].
  intros e s' Hs'. apply Hh, Hs'.
Qed.

Lemma preserves_try_finally A (m : M S A) final :
  preserves P m -> preserves P final -> preserves P (try_finally m final).
Proof.
  intros Hm Hf s Hs. rewrite wp_try_finally.
  eapply wp_mono; [| | apply Hm, Hs]; cbv beta; intros ? s' Hs'; apply Hf, Hs'.
Qed.

Lemma preserves_for_each A (body : A -> M S unit) xs :
  (forall x, preserves P (body x)) -> preserves P (for_each xs body).
Proof.
  intros Hbody. induction xs as [| x xs IH]; [apply preserves_ret |].
  cbn [for_each]. apply preserves_bind; [apply Hbody | intros _; exact IH].
Qed.

(** A step whose continuation may use what the step guarantees. *)
Lemma preserves_bind_with A B (m : M S A) (k : A -> M S B) (R : A -> S -> Prop) :
  (forall s, P s -> wp m (fun a s' => P s' /\ R a s') (fun _ => P) s) ->
  (forall a s, P s -> R a s -> wp (k a) (fun _ => P) (fun _ => P) s) ->
  preserves P (bind m k).
Proof.
  intros Hm Hk s Hs. rewrite wp_bind.
  eapply wp_mono; [| | apply Hm, Hs]; cbv beta; [| auto].
  intros a s' [Hs' HR]. now apply Hk.
Qed.

End Preservation.

(** Code over the world alone, run inside the code of an adapter. *)
Lemma preserves_lift A (P : Ctx -> Prop) (m : M World A) :
  (forall t, preserves (fun w => P (mkCtx t w)) m) -> preserves P (lift m).
Proof.
  intros Hm [t w] Hc. rewrite wp_lift. cbn [this world]. now apply (Hm t).
Qed.

Lemma preserves_with_task A (P : World -> Prop) task (m : M Ctx A) :
  preserves (fun c => P (world c)) m -> preserves P (with_task task m).
Proof.
  intros Hm w Hw. rewrite wp_with_task. now apply (Hm (mkCtx task w)).
Qed.

Section Frames.

Variable cfg : Config.

Lemma framed_refl c : framed c c.
Proof. repeat split. Qed.

Lemma framed_trans c0 c1 c2 : framed c0 c1 -> framed c1 c2 -> framed c0 c2.
Proof.
  intros (H1 & H2 & H3 & H4 & H5) (K1 & K2 & K3 & K4 & K5).
  repeat split; congruence.
Qed.

Lemma framed_step A (m : M Ctx A) :
  (forall c, framed c (snd (m c))) -> forall c0, preserves (framed c0) m.
Proof.
  intros Hm c0 c Hc. unfold wp. specialize (Hm c).
  destruct (m c) as [[a | e] c']; cbn [snd] in Hm; eapply framed_trans; eauto.
Qed.

Lemma kept_framed t w w' :
  kept_by_remote w' = kept_by_remote w -> framed (mkCtx t w) (mkCtx t w').
Proof.
  unfold kept_by_remote. intros H. inversion H. repeat split; assumption.
Qed.

Lemma framed_stored t t' w u :
  id t' = id t -> framed (mkCtx t w) (mkCtx t' (stored (id t) u w)).
Proof. intros H. repeat split. exact H. Qed.

Lemma frame_markAsSyncing c0 : preserves (framed c0) TaskAdapter.markAsSyncing.
Proof.
  apply framed_step. intros [t w]. rewrite run_markAsSyncing. repeat split.
Qed.

Lemma frame_markAsSynced sid st c0 :
  preserves (framed c0) (TaskAdapter.markAsSynced sid st).
Proof.
  apply framed_step. intros [t w]. rewrite run_markAsSynced.
  repeat split. cbn. unfold marked_synced.
  destruct (truthy truthy_str sid), (truthy always_truthy st); reflexivity.
Qed.

Lemma frame_resolveConflict r s c0 :
  preserves (framed c0) (TaskAdapter.resolveConflict r (val s)).
Proof.
  apply framed_step. intros [t w]. rewrite run_resolveConflict. repeat split.
Qed.

Lemma frame_createTaskOnServer c0 :
  preserves (framed c0) (SyncManager.createTaskOnServer cfg).
Proof.
  apply framed_step. intros c.
  destruct (createTaskOnServer_spec cfg c) as (res & w' & Hrun & Hk & _).
  rewrite Hrun. destruct c. now apply kept_framed.
Qed.

Lemma frame_updateTaskOnServer c0 :
  preserves (framed c0) (SyncManager.updateTaskOnServer cfg).
Proof.
  apply framed_step. intros c.
  destruct (updateTaskOnServer_spec cfg c) as (res & w' & Hrun & Hk).
  rewrite Hrun. destruct c. now apply kept_framed.
Qed.

Lemma frame_handleConflict server c0 :
  preserves (framed c0) (SyncManager.handleConflict cfg server).
Proof.
  unfold SyncManager.handleConflict.
  apply preserves_bind; [apply preserves_gets | intros task].
  destruct (SyncManager.decide (status task) server) as [resolution finalStatus].
  apply preserves_bind; [apply frame_resolveConflict | intros _].
  destruct (ConflictResolution_eqb resolution client_wins).
  - apply preserves_bind; [apply frame_updateTaskOnServer | intros _].
    apply preserves_bind; [apply preserves_gets | intros task'].
    apply frame_markAsSynced.
  - destruct (ConflictResolution_eqb resolution server_wins).
    + apply preserves_bind; [apply preserves_gets | intros task'].
      apply frame_markAsSynced.
    + apply preserves_ret.
Qed.

Lemma frame_syncTask_try c0 : preserves (framed c0) (SyncManager.syncTask_try cfg).
Proof.
  unfold SyncManager.syncTask_try.
  apply preserves_bind; [apply frame_markAsSyncing | intros _].
  apply preserves_bind; [apply preserves_gets | intros task].
  destruct (negb (truthy truthy_str (server_id task))).
  - apply preserves_bind; [apply frame_createTaskOnServer | intros [r |]].
    + apply frame_markAsSynced.
    + apply preserves_ret.
  - apply preserves_bind; [apply frame_updateTaskOnServer | intros [st |]].
    + apply preserves_bind; [apply preserves_gets | intros task'].
      destruct (SyncManager.conflict_detected st task').
      * apply frame_handleConflict.
      * apply frame_markAsSynced.
    + apply preserves_bind; [apply frame_createTaskOnServer | intros [r |]].
      * apply frame_markAsSynced.
      * apply preserves_ret.
Qed.

(** The [catch] block of [syncTask] ends normally, with the task pending. *)
Lemma run_syncTask_catch error c :
  SyncManager.syncTask_catch error c =
  let w1 := set_console (console (world c) ++
              [(js "Error syncing task " ++ id (this c) ++ js ":", error)]) (world c) in
  let d := set_sync_status pending_sync (this c) in
  (Ok tt, mkCtx d (stored (id (this c)) (TaskAdapter.all_fields d) w1)).
Proof. destruct c. reflexivity. Qed.

Lemma frame_syncTask_catch error c0 :
  preserves (framed c0) (SyncManager.syncTask_catch error).
Proof.
  apply framed_step. intros [t w]. rewrite run_syncTask_catch. repeat split.
Qed.

Lemma frame_syncTask c0 : preserves (framed c0) (SyncManager.syncTask cfg).
Proof.
  apply preserves_try_catch; [apply frame_syncTask_try |].
  intros e. apply frame_syncTask_catch.
Qed.

(** [syncTask] never throws. *)
Lemma syncTask_returns c :
  exists c', SyncManager.syncTask cfg c = (Ok tt, c').
Proof.
  unfold SyncManager.syncTask, try_catch.
  destruct (SyncManager.syncTask_try cfg c) as [[[] | e] c1].
  - now exists c1.
  - rewrite run_syncTask_catch. eexists. reflexivity.
Qed.

End Frames.

Ltac split_good :=
  unfold Good; cbn [this world];
  refine (conj _ (conj _ (conj _ (conj _ _)))).

Section SyncedInvariant.

Variable cfg : Config.

Lemma table_ok_stored i u w :
  table_ok w ->
  (forall row, synced_ok row -> synced_ok (SqliteDb.apply_updates u row)) ->
  table_ok (stored i u w).
Proof.
  unfold table_ok. rewrite stored_rows. unfold updated_rows.
  intros Hw Hu. induction Hw as [| row l Hrow Hl IH]; cbn [map]; constructor.
  - destruct (str_eqb (id row) i); auto.
  - exact IH.
Qed.

Lemma row_ok_not_synced u row :
  u_sync_status u <> None -> u_sync_status u <> Some synced ->
  synced_ok (SqliteDb.apply_updates u row).
Proof.
  intros H1 H2 Hs. exfalso. cbn in Hs.
  destruct (u_sync_status u) as [x |]; [| congruence].
  cbn in Hs. congruence.
Qed.

Lemma written_or_null_set A (t : A -> bool) (u old : maybe A) :
  truthy t u = true -> truthy t (SqliteDb.written_or_null t u old) = true.
Proof.
  destruct u as [| | a]; cbn; try discriminate. intros H. now rewrite H.
Qed.

Lemma row_ok_all_fields d row :
  synced_ok d -> synced_ok (SqliteDb.apply_updates (TaskAdapter.all_fields d) row).
Proof.
  intros Hd Hs. cbn in Hs. destruct (Hd Hs) as [H1 H2].
  split; apply written_or_null_set; assumption.
Qed.

Lemma row_ok_markAsSynced d row :
  serverId_set d = true -> syncedAt_set d = true ->
  synced_ok (SqliteDb.apply_updates (TaskAdapter.fields_markAsSynced d) row).
Proof. intros H1 H2 _. split; apply written_or_null_set; assumption. Qed.

Lemma marked_synced_ok sid st now t :
  now <> 0%Z ->
  truthy truthy_str sid = true \/ serverId_set t = true ->
  serverId_set (marked_synced sid st now t) = true /\
  syncedAt_set (marked_synced sid st now t) = true /\
  id (marked_synced sid st now t) = id t.
Proof.
  intros Hnow Hid. unfold marked_synced, serverId_set, syncedAt_set.
  assert (Ht : truthy_int now = true).
  { unfold truthy_int. apply negb_true_iff. now apply Z.eqb_neq. }
  destruct (truthy truthy_str sid) eqn:Hsid, (truthy always_truthy st);
    cbn; rewrite ?Hsid, ?Ht; repeat split; destruct Hid as [Hid | Hid];
    try discriminate; exact Hid.
Qed.

Lemma good_weaken b c : Good cfg true c -> Good cfg b c.
Proof. intros (H1 & H2 & H3 & H4 & H5). unfold Good; intuition. Qed.

Lemma good_markAsSyncing b : preserves (Good cfg b) TaskAdapter.markAsSyncing.
Proof.
  intros [t w] (H1 & H2 & H3 & H4 & H5). unfold wp. rewrite run_markAsSyncing.
  cbn [this world] in *. split_good; try assumption.
  - intros Hs. discriminate.
  - apply table_ok_stored; [assumption |]. intros row _.
    apply row_ok_not_synced; cbn; congruence.
Qed.

Lemma good_markAsSynced b sid st c E :
  Good cfg b c ->
  truthy truthy_str sid = true \/ serverId_set (this c) = true ->
  wp (TaskAdapter.markAsSynced sid st) (fun _ => Good cfg b) E c.
Proof.
  destruct c as [t w]. intros (H1 & H2 & H3 & H4 & H5) Hid.
  unfold wp. rewrite run_markAsSynced. cbn [this world] in *.
  destruct (@marked_synced_ok sid st _ t H1 Hid) as (K1 & K2 & K3).
  apply good_weaken. split_good; try assumption.
  - intros _. now split.
  - apply table_ok_stored; [assumption |]. intros row _.
    now apply row_ok_markAsSynced.
  - intros _. exact K1.
Qed.

Lemma good_resolveConflict b r s :
  preserves (Good cfg b) (TaskAdapter.resolveConflict r (val s)).
Proof.
  intros [t w] (H1 & H2 & H3 & H4 & H5). unfold wp. rewrite run_resolveConflict.
  cbn [this world] in *. split_good; try assumption.
  - intros Hs. discriminate.
  - apply table_ok_stored; [assumption |]. intros row _.
    apply row_ok_not_synced; cbn; congruence.
Qed.

Lemma good_kept b t w w' :
  kept_by_remote w' = kept_by_remote w ->
  Good cfg b (mkCtx t w) -> Good cfg b (mkCtx t w').
Proof.
  unfold kept_by_remote. intros Hk (H1 & H2 & H3 & H4 & H5). inversion Hk.
  unfold Good, table_ok in *. cbn [this world] in *.
  split_good; try assumption; congruence.
Qed.

Lemma good_createTaskOnServer b c :
  Good cfg b c ->
  wp (SyncManager.createTaskOnServer cfg)
     (fun res c' => Good cfg b c' /\
                    forall r, res = Some r -> truthy_str (reply_id r) = true)
     (fun _ => Good cfg b) c.
Proof.
  intros Hc. unfold wp.
  destruct (createTaskOnServer_spec cfg c) as (res & w' & Hrun & Hk & Hid).
  rewrite Hrun. destruct c as [t w]. cbn [this world] in *.
  pose proof (good_kept Hk Hc) as Hc'.
  destruct res as [a | e]; [| exact Hc'].
  split; [exact Hc' |]. intros r ->.
  destruct Hc as (_ & H2 & _).
  specialize (Hid H2 r eq_refl). destruct (reply_id r); [congruence | reflexivity].
Qed.

Lemma good_updateTaskOnServer b : preserves (Good cfg b) (SyncManager.updateTaskOnServer cfg).
Proof.
  intros c Hc. unfold wp.
  destruct (updateTaskOnServer_spec cfg c) as (res & w' & Hrun & Hk).
  rewrite Hrun. destruct c as [t w]. cbn [this world] in *.
  pose proof (good_kept Hk Hc) as Hc'. destruct res; exact Hc'.
Qed.

Lemma good_get_this b Q E c :
  Good cfg b c -> (Good cfg b c -> Q (this c) c) -> wp get_this Q E c.
Proof. intros H HQ. rewrite wp_get_this. auto. Qed.

Lemma good_handleConflict server :
  preserves (Good cfg true) (SyncManager.handleConflict cfg server).
Proof.
  unfold SyncManager.handleConflict.
  apply preserves_bind; [apply preserves_gets | intros task].
  destruct (SyncManager.decide (status task) server) as [resolution finalStatus].
  apply preserves_bind; [apply good_resolveConflict | intros _].
  destruct (ConflictResolution_eqb resolution client_wins).
  - apply preserves_bind; [apply good_updateTaskOnServer | intros _].
    intros c Hc. rewrite wp_bind, wp_get_this.
    apply good_markAsSynced; [exact Hc |]. right. now apply Hc.
  - destruct (ConflictResolution_eqb resolution server_wins).
    + intros c Hc. rewrite wp_bind, wp_get_this.
      apply good_markAsSynced; [exact Hc |]. right. now apply Hc.
    + apply preserves_ret.
Qed.

Lemma good_create_then_mark b :
  preserves (Good cfg b)
    (response <- SyncManager.createTaskOnServer cfg ;;
     match response with
     | Some r => TaskAdapter.markAsSynced (val (reply_id r)) (val (reply_status r))
     | None => ret tt
     end).
Proof.
  eapply preserves_bind_with with
    (R := fun res _ => forall r, res = Some r -> truthy_str (reply_id r) = true).
  - intros c Hc. now apply good_createTaskOnServer.
  - intros [r |] c Hc Hr.
    + apply good_markAsSynced; [exact Hc |]. left. now apply Hr.
    + exact Hc.
Qed.

Lemma good_syncTask_try : preserves (Good cfg false) (SyncManager.syncTask_try cfg).
Proof.
  unfold SyncManager.syncTask_try.
  apply preserves_bind; [apply good_markAsSyncing | intros _].
  intros c Hc. rewrite wp_bind, wp_get_this.
  destruct (truthy truthy_str (server_id (this c))) eqn:Hsid; cbn [negb].
  - assert (Hc' : Good cfg true c).
    { destruct Hc as (H1 & H2 & H3 & H4 & _). split_good; auto. }
    assert (Hw : forall (m : M Ctx unit),
               preserves (Good cfg true) m ->
               wp m (fun _ => Good cfg false) (fun _ => Good cfg false) c).
    { intros m Hm. eapply wp_mono; [| | apply Hm, Hc'];
        intros ? ?; apply good_weaken. }
    apply Hw.
    apply preserves_bind; [apply good_updateTaskOnServer | intros [st |]].
    + intros c1 Hc1. rewrite wp_bind, wp_get_this.
      destruct (SyncManager.conflict_detected st (this c1)).
      * now apply good_handleConflict.
      * apply good_markAsSynced; [exact Hc1 |]. right. now apply Hc1.
    + apply good_create_then_mark.
  - now apply good_create_then_mark.
Qed.

Lemma good_update b (updater : M Ctx unit) :
  preserves (Good cfg b) updater ->
  (forall c, exists c1, updater c = (Ok tt, c1)) ->
  preserves (Good cfg b) (TaskAdapter.update updater).
Proof.
  intros Hu Hrun c Hc. destruct (Hrun c) as [c1 Hc1].
  unfold wp. rewrite (run_update Hc1).
  specialize (Hu c Hc). unfold wp in Hu. rewrite Hc1 in Hu.
  destruct c1 as [t1 w1]. cbn [this world] in *.
  destruct Hu as (H1 & H2 & H3 & H4 & H5). split_good; try assumption.
  apply table_ok_stored; [assumption |]. intros row _.
  now apply row_ok_all_fields.
Qed.

Lemma good_syncTask_catch b error :
  preserves (Good cfg b) (SyncManager.syncTask_catch error).
Proof.
  intros [t w] (H1 & H2 & H3 & H4 & H5). unfold wp. rewrite run_syncTask_catch.
  cbn [this world] in *. split_good; try assumption.
  - intros Hs. discriminate.
  - apply table_ok_stored; [assumption |]. intros row _.
    apply row_ok_all_fields. intros Hs. discriminate.
Qed.

Lemma good_syncTask : preserves (Good cfg false) (SyncManager.syncTask cfg).
Proof.
  apply preserves_try_catch; [apply good_syncTask_try |].
  intros e. apply good_syncTask_catch.
Qed.

End SyncedInvariant.

Section Drain.

Variable cfg : Config.

Lemma drain_framed_refl w : drain_framed w w.
Proof. repeat split. Qed.

Lemma drain_framed_trans w0 w1 w2 :
  drain_framed w0 w1 -> drain_framed w1 w2 -> drain_framed w0 w2.
Proof.
  intros (H1 & H2 & H3 & H4 & H5) (K1 & K2 & K3 & K4 & K5).
  repeat split; congruence.
Qed.

Lemma process_item_framed item w :
  drain_framed w (snd (SyncManager.process_item cfg item w)) /\
  async_storage (snd (SyncManager.process_item cfg item w)) = async_storage w.
Proof.
  unfold SyncManager.process_item.
  destruct (action item); try (split; [apply drain_framed_refl | reflexivity]).
  destruct (truthy_str (taskId item)); [| split; [apply drain_framed_refl | reflexivity]].
  destruct (USE_MOCK_API cfg); [split; [apply drain_framed_refl | reflexivity] |].
  unfold bind, SyncManager.fetch.
  case_respond e r Hresp.
  - repeat split.
  - destruct (ok r); repeat split.
Qed.

(** One turn of the loop keeps the item exactly when processing it threw. *)
Lemma drain_step_run item remaining w :
  exists w',
    SyncManager.drain_step cfg item remaining w =
      (Ok (if thrown (fst (SyncManager.process_item cfg item w))
           then remaining ++ [item] else remaining), w') /\
    w' = final_state (SyncManager.drain_step cfg item [] w) /\
    drain_framed w w' /\ async_storage w' = async_storage w.
Proof.
  unfold SyncManager.drain_step, try_catch, bind, final_state.
  destruct (process_item_framed item w) as [Hf Hs].
  destruct (SyncManager.process_item cfg item w) as [[[] | e] w1]; cbn [fst snd thrown] in *.
  - eexists. repeat split; try apply Hf. exact Hs.
  - destruct (SyncManager.connectivity_error e).
    + eexists. repeat split; try apply Hf. exact Hs.
    + eexists. split; [reflexivity |]. split; [reflexivity |].
      split; [| exact Hs]. destruct Hf as (H1 & H2 & H3 & H4 & H5).
      repeat split; assumption.
Qed.

Lemma retained_cons item rest r outcomes :
  retained (item :: rest) (r :: outcomes) =
  (if thrown r then [item] else []) ++ retained rest outcomes.
Proof. unfold retained. cbn. destruct (thrown r); reflexivity. Qed.

Lemma drain_loop_run :
  forall queue remaining w,
    exists w',
      SyncManager.drain_loop cfg queue remaining w =
        (Ok (remaining ++ retained queue (item_outcomes cfg queue w)), w') /\
      drain_framed w w' /\ async_storage w' = async_storage w.
Proof.
  induction queue as [| item rest IH]; intros remaining w.
  - exists w. cbn. rewrite app_nil_r. repeat split.
  - cbn [SyncManager.drain_loop item_outcomes]. unfold bind.
    destruct (drain_step_run item remaining w) as (w1 & Hrun & Hw1 & Hf1 & Hs1).
    rewrite Hrun. rewrite <- Hw1.
    destruct (IH (if thrown (fst (SyncManager.process_item cfg item w))
                  then remaining ++ [item] else remaining) w1)
      as (w2 & Hrun2 & Hf2 & Hs2).
    exists w2. rewrite Hrun2. split; [| split].
    + f_equal. f_equal. rewrite retained_cons.
      destruct (thrown _); cbn [app]; now rewrite <- ?app_assoc.
    + eapply drain_framed_trans; eassumption.
    + congruence.
Qed.

Lemma processSyncQueue_run w q :
  isOnline (manager w) = true ->
  async_storage w = Some q ->
  exists w',
    SyncManager.processSyncQueue cfg w = (Ok tt, w') /\
    async_storage w' = stored_queue (retained q (item_outcomes cfg q w)) /\
    drain_framed w w'.
Proof.
  intros Hon Hq. unfold SyncManager.processSyncQueue.
  unfold bind at 1. cbn [gets]. rewrite Hon. cbn [negb].
  unfold try_catch. unfold bind at 1. cbn [gets]. rewrite Hq.
  unfold bind.
  destruct (drain_loop_run q [] w) as (w1 & Hrun & Hf & Hs).
  rewrite Hrun. cbn [app].
  destruct (retained q (item_outcomes cfg q w)) as [| x l];
    eexists; (split; [reflexivity |]); (split; [reflexivity |]);
    destruct Hf as (H1 & H2 & H3 & H4 & H5); repeat split; assumption.
Qed.

Lemma processSyncQueue_returns w :
  exists w', SyncManager.processSyncQueue cfg w = (Ok tt, w') /\ drain_framed w w'.
Proof.
  destruct (isOnline (manager w)) eqn:Hon.
  - destruct (async_storage w) as [q |] eqn:Hq.
    + destruct (processSyncQueue_run Hon Hq) as (w' & H1 & _ & H3). eauto.
    + exists w. split; [| apply drain_framed_refl].
      unfold SyncManager.processSyncQueue. unfold bind at 1. cbn [gets].
      rewrite Hon. cbn [negb]. unfold try_catch, bind. cbn [gets].
      rewrite Hq. reflexivity.
  - exists w. split; [| apply drain_framed_refl].
    unfold SyncManager.processSyncQueue, bind. cbn [gets]. rewrite Hon. reflexivity.
Qed.

End Drain.

Section ShippedDrain.

Lemma process_item_shipped item w :
  SyncManager.process_item shipped item w = (Ok tt, w).
Proof.
  unfold SyncManager.process_item. destruct (action item); try reflexivity.
  destruct (truthy_str (taskId item)); reflexivity.
Qed.

Lemma drain_loop_shipped queue :
  forall remaining w,
    SyncManager.drain_loop shipped queue remaining w = (Ok remaining, w).
Proof.
  induction queue as [| item rest IH]; intros remaining w; [reflexivity |].
  cbn [SyncManager.drain_loop]. unfold SyncManager.drain_step, try_catch, bind.
  rewrite process_item_shipped. apply IH.
Qed.

End ShippedDrain.

Section Conflicts.

Lemma decide_table l s : SyncManager.decide l s = spec_conflict_table l s.
Proof. destruct l, s; reflexivity. Qed.


End Conflicts.


Lemma framed_id_handleConflict cfg server c :
  id (this (final_state (SyncManager.handleConflict cfg server c))) = id (this c).
Proof.
  pose proof (@frame_handleConflict cfg server c c (framed_refl c)) as H.
  unfold wp in H. unfold final_state.
  destruct (SyncManager.handleConflict cfg server c) as [[[] | e] c']; apply H.
Qed.

Lemma kept_sqlite w w' :
  kept_by_remote w' = kept_by_remote w -> sqlite w' = sqlite w.
Proof. unfold kept_by_remote. congruence. Qed.

Lemma records_kept r s i t w w' :
  kept_by_remote w' = kept_by_remote w ->
  records r s i (mkCtx t w) -> records r s i (mkCtx t w').
Proof.
  intros Hk. unfold records, rows_of. cbn [this world].
  now rewrite (kept_sqlite Hk).
Qed.

Lemma records_resolveConflict r s c :
  wp (TaskAdapter.resolveConflict r (val s))
     (fun _ c' => records r s (id (this c)) c' /\ id (this c') = id (this c))
     (fun _ _ => False) c.
Proof.
  unfold wp. rewrite run_resolveConflict. cbv zeta.
  unfold records. cbn [this world]. repeat split.
  rewrite rows_of_stored. apply Forall_forall. intros row Hin.
  apply in_map_iff in Hin. destruct Hin as (r0 & <- & _). split; reflexivity.
Qed.

Lemma records_markAsSynced r s i sid st :
  preserves (fun c => records r s i c /\ id (this c) = i)
            (TaskAdapter.markAsSynced sid st).
Proof.
  intros [t w] [(H1 & H2 & H3) Hi]. unfold wp. rewrite run_markAsSynced. cbv zeta.
  cbn [this world] in *. subst i.
  assert (Hm : forall x, conflict_resolution (marked_synced sid st x t) = conflict_resolution t /\
                         status (marked_synced sid st x t) = status t /\
                         id (marked_synced sid st x t) = id t).
  { intros x. unfold marked_synced.
    destruct (truthy truthy_str sid), (truthy always_truthy st); repeat split. }
  destruct (Hm (clock w)) as (K1 & K2 & K3).
  split; [| exact K3]. unfold records. cbn [this world].
  rewrite K1, K2. repeat split; try assumption.
  rewrite rows_of_stored. apply Forall_forall. intros row Hin.
  apply in_map_iff in Hin. destruct Hin as (r0 & <- & Hr0).
  rewrite Forall_forall in H3. exact (H3 r0 Hr0).
Qed.

Lemma records_updateTaskOnServer cfg r s i :
  preserves (fun c => records r s i c /\ id (this c) = i)
            (SyncManager.updateTaskOnServer cfg).
Proof.
  intros c [Hc Hi]. unfold wp.
  destruct (updateTaskOnServer_spec cfg c) as (res & w' & Hrun & Hk).
  rewrite Hrun. destruct c as [t w]. cbn [this world] in *.
  destruct res; (split; [eapply records_kept; eassumption | exact Hi]).
Qed.

Lemma run_edit_updater form c :
  exists t',
    TaskDetail.edit_updater form c = (Ok tt, mkCtx t' (world c)) /\
    id t' = id (this c) /\
    updated_at t' = clock (world c) /\
    sync_status t' = (if SyncStatus_eqb (sync_status (this c)) synced
                      then pending_sync else sync_status (this c)).
Proof.
  destruct c as [t w]. unfold TaskDetail.edit_updater, bind, assign, modify, lift,
    Date_now, get_this, gets. cbn [this world].
  match goal with
  | |- context [SyncStatus_eqb (sync_status ?x) synced] =>
      replace (sync_status x) with (sync_status t)
  end.
  2:{ destruct (TaskDetail.f_imageUris form), (TaskDetail.chosen_location (TaskDetail.f_location form));
      reflexivity. }
  destruct (SyncStatus_eqb (sync_status t) synced);
    eexists; (split; [reflexivity |]);
    destruct (TaskDetail.f_imageUris form), (TaskDetail.chosen_location (TaskDetail.f_location form));
    repeat split.
Qed.

Lemma find_rows_of i w :
  find (fun row => str_eqb (id row) i) (rows (sqlite w)) = hd_error (rows_of i w).
Proof.
  unfold rows_of. induction (rows (sqlite w)) as [| row l IH]; [reflexivity |].
  cbn. destruct (str_eqb (id row) i); [reflexivity | exact IH].
Qed.

Lemma status_updated_fields newStatus now t :
  sync_status t = synced \/ sync_status t = pending_sync ->
  sync_status (status_updated newStatus now t) = pending_sync /\
  status (status_updated newStatus now t) = newStatus /\
  updated_at (status_updated newStatus now t) = now.
Proof.
  intros [H | H]; unfold status_updated; cbn; rewrite H; cbn; rewrite ?H;
    repeat split.
Qed.


Lemma rows_of_deleted i w :
  rows_of i (final_state ((SqliteDb.deleteTask i ;; SqliteDb.notifyChange) w)) = [].
Proof.
  unfold rows_of. cbn. induction (rows (sqlite w)) as [| row l IH]; [reflexivity |].
  cbn. destruct (str_eqb (id row) i) eqn:E; cbn; [exact IH |].
  rewrite E. exact IH.
Qed.

Lemma rows_after_delete i w :
  rows (sqlite (final_state ((SqliteDb.deleteTask i ;; SqliteDb.notifyChange) w)))
  = filter (fun row => negb (str_eqb (id row) i)) (rows (sqlite w)).
Proof. reflexivity. Qed.

Lemma stringify_array_truthy items : truthy_str (stringify (JArray items)) = true.
Proof. reflexivity. Qed.

Lemma imageUrl_of_text (d : TaskData) (refs : list jsstring) :
  image_url d = val (stringify (JArray (map JString refs))) ->
  TaskAdapter.imageUrl d = img_array (map JString refs).
Proof.
  intros H. unfold TaskAdapter.imageUrl. rewrite H.
  rewrite stringify_array_truthy. now rewrite parse_stringify_strings.
Qed.

Lemma run_initializer form c :
  exists t',
    TaskForm.initializer form c = (Ok tt, mkCtx t' (world c)) /\
    image_url t' =
      match TaskForm.c_imageUris form with
      | _ :: _ => val (stringify (JArray (map JString (TaskForm.c_imageUris form))))
      | [] => image_url (this c)
      end.
Proof.
  destruct c as [t w].
  unfold TaskForm.initializer, bind, assign, modify, lift, Date_now, gets.
  cbn [this world].
  destruct (TaskForm.c_price form), (TaskForm.form_location form),
    (TaskForm.c_imageUris form), (TaskForm.c_expiresAt form);
    eexists; split; reflexivity.
Qed.

Lemma find_app_fresh (f : TaskData -> bool) l x :
  find f l = None -> f x = true -> find f (l ++ [x]) = Some x.
Proof.
  intros Hl Hx. induction l as [| y l IH]; cbn in *.
  - now rewrite Hx.
  - destruct (f y); [discriminate | auto].
Qed.

Lemma bind_ok S A B (m : M S A) (k : A -> M S B) s a s' :
  m s = (Ok a, s') -> bind m k s = k a s'.
Proof. unfold bind. now intros ->. Qed.

(** The write of the edit screen, for a task that is synced or pending. *)
Lemma edit_write_run form c :
  sync_status (this c) = synced \/ sync_status (this c) = pending_sync ->
  exists c1,
    TaskAdapter.update (TaskDetail.edit_updater form) c = (Ok tt, c1) /\
    edited_at (clock (world c)) (id (this c)) c1 /\
    id (this c1) = id (this c).
Proof.
  intros Hs.
  destruct (run_edit_updater form c) as (t' & Hupd & Hid & Hup & Hss).
  assert (Hpend : sync_status t' = pending_sync).
  { rewrite Hss. destruct Hs as [-> | ->]; reflexivity. }
  eexists. split; [exact (run_update Hupd) |]. cbn [this world].
  split; [| exact Hid]. unfold edited_at. cbn [this world].
  split; [exact Hpend |]. split; [exact Hup |].
  rewrite <- Hid, rows_of_stored. apply Forall_forall.
  intros row Hin. apply in_map_iff in Hin. destruct Hin as (r0 & <- & _).
  cbn. now rewrite Hpend, Hup.
Qed.

(** The reload keeps what the write established. *)
Lemma loadTask_edited now i c :
  id (this c) = i ->
  edited_at now i c ->
  exists c', TaskDetail.loadTask c = (Ok tt, c') /\ edited_at now i c'.
Proof.
  intros <- (H1 & H2 & H3). destruct c as [t w]. cbn [this world] in *.
  unfold TaskDetail.loadTask, try_catch.
  erewrite bind_ok by reflexivity. cbn [this].
  unfold bind, lift, Database.find, bind, SqliteDb.getTask, gets. cbn [this world].
  rewrite find_rows_of.
  destruct (rows_of (id t) w) as [| row l] eqn:Hl; cbn [hd_error].
  - eexists. split; [reflexivity |]. unfold edited_at. cbn [this world].
    change (rows_of (id t) (set_console ?x w)) with (rows_of (id t) w).
    rewrite Hl. repeat split; auto.
  - eexists. split; [reflexivity |]. unfold edited_at. cbn [this world].
    rewrite Hl. inversion H3 as [| ? ? [K1 K2] Hrest]; subst.
    repeat split; auto.
Qed.

(** The guard at the head of [syncAll]. *)
Lemma syncAll_guard cfg w :
  isSyncing (manager w) = true \/ isOnline (manager w) = false ->
  SyncManager.syncAll cfg w = (Ok tt, w).
Proof.
  intros H. unfold SyncManager.syncAll. unfold bind at 1. cbn [gets].
  destruct H as [H | H]; rewrite H; [reflexivity |].
  now rewrite orb_true_r.
Qed.

Section Batch.

Variable cfg : Config.

Lemma with_task_syncTask_returns task w :
  with_task task (SyncManager.syncTask cfg) w
  = (Ok tt, final_state (with_task task (SyncManager.syncTask cfg) w)).
Proof.
  unfold with_task, final_state.
  destruct (syncTask_returns cfg (mkCtx task w)) as [c' ->]. reflexivity.
Qed.

(** The loop of [syncAll] never leaves early. *)
Lemma sync_loop_run tasks :
  forall w,
    for_each tasks (fun task =>
      if SyncManager.needs_sync task
      then with_task task (SyncManager.syncTask cfg) else ret tt) w
    = (Ok tt, fold_left (sync_step cfg) tasks w).
Proof.
  induction tasks as [| task rest IH]; intros w; [reflexivity |].
  cbn [for_each fold_left]. unfold sync_step at 2.
  destruct (SyncManager.needs_sync task).
  - erewrite bind_ok by apply with_task_syncTask_returns. apply IH.
  - erewrite bind_ok by reflexivity. apply IH.
Qed.

Lemma sync_step_manager w task : manager (sync_step cfg w task) = manager w.
Proof.
  unfold sync_step. destruct (SyncManager.needs_sync task); [| reflexivity].
  unfold with_task, final_state.
  pose proof (@frame_syncTask cfg (mkCtx task w) (mkCtx task w) (framed_refl _)) as H.
  unfold wp in H.
  destruct (SyncManager.syncTask cfg (mkCtx task w)) as [[[] | e] c']; apply H.
Qed.

Lemma sync_loop_manager tasks :
  forall w, manager (fold_left (sync_step cfg) tasks w) = manager w.
Proof.
  induction tasks as [| task rest IH]; intros w; [reflexivity |].
  cbn [fold_left]. rewrite IH. apply sync_step_manager.
Qed.

Lemma syncAll_try_run w :
  exists w',
    SyncManager.syncAll_try cfg w = (Ok tt, w') /\
    w' = final_state
           (SyncManager.processSyncQueue cfg
              (fold_left (sync_step cfg)
                 (SqliteDb.order_by_updated_at_desc (rows (sqlite w))) w)).
Proof.
  unfold SyncManager.syncAll_try.
  erewrite bind_ok by reflexivity.
  erewrite bind_ok by apply sync_loop_run.
  destruct (processSyncQueue_returns cfg
              (fold_left (sync_step cfg)
                 (SqliteDb.order_by_updated_at_desc (rows (sqlite w))) w))
    as (w' & Hrun & _).
  rewrite Hrun. eauto.
Qed.

Lemma syncAll_run w :
  isOnline (manager w) = true -> isSyncing (manager w) = false ->
  SyncManager.syncAll cfg w =
  (Ok tt,
   sync_finished
     (final_state
        (SyncManager.processSyncQueue cfg
           (fold_left (sync_step cfg)
              (SqliteDb.order_by_updated_at_desc (rows (sqlite w)))
              (sync_started w))))).
Proof.
  intros Hon Hsync. unfold SyncManager.syncAll.
  erewrite bind_ok by reflexivity. rewrite Hon, Hsync. cbn [orb negb].
  transitivity
    (try_finally
       (try_catch (SyncManager.syncAll_try cfg)
          (fun error => console_error (js "Sync error:") error))
       SyncManager.syncAll_finally (sync_started w)); [reflexivity |].
  unfold try_finally, try_catch.
  destruct (syncAll_try_run (sync_started w)) as (w' & Hrun & ->).
  rewrite Hrun. reflexivity.
Qed.

End Batch.

Lemma syncTask_try_id cfg c :
  id (this (final_state (SyncManager.syncTask_try cfg c))) = id (this c).
Proof.
  pose proof (@frame_syncTask_try cfg c c (framed_refl c)) as H.
  unfold wp in H. unfold final_state.
  destruct (SyncManager.syncTask_try cfg c) as [[[] | e] c']; apply H.
Qed.

Lemma sync_finished_manager w :
  manager (sync_finished w) =
  mkManager (isOnline (manager w)) false (S (listener_rounds (manager w))).
Proof. reflexivity. Qed.

Lemma sync_started_manager w :
  manager (sync_started w) =
  mkManager (isOnline (manager w)) true (S (listener_rounds (manager w))).
Proof. reflexivity. Qed.

Section Positions.

Lemma item_outcomes_length cfg q : forall w, List.length (item_outcomes cfg q w) = List.length q.
Proof. induction q as [| item rest IH]; intros w; cbn; [reflexivity | now rewrite IH]. Qed.

Lemma thrown_positions_bounds outcomes :
  forall from i, In i (thrown_positions from outcomes) ->
    (from <= i)%nat /\ nth_error outcomes (i - from) <> None /\
    exists e, nth_error outcomes (i - from) = Some (Throw e).
Proof.
  induction outcomes as [| r rest IH]; intros from i Hin; [contradiction |].
  cbn [thrown_positions] in Hin. apply in_app_or in Hin. destruct Hin as [Hin | Hin].
  - destruct r as [a | e]; cbn in Hin; [contradiction |].
    destruct Hin as [<- | []]. rewrite Nat.sub_diag. cbn.
    split; [lia |]. split; [discriminate | eauto].
  - destruct (IH _ _ Hin) as (Hle & Hn & e & He).
    replace (i - from)%nat with (S (i - S from)) by lia. cbn.
    split; [lia |]. split; [exact Hn | eauto].
Qed.

Lemma thrown_positions_sorted outcomes :
  forall from, StronglySorted lt (thrown_positions from outcomes).
Proof.
  induction outcomes as [| r rest IH]; intros from; [constructor |].
  cbn [thrown_positions]. destruct (thrown r); cbn [app]; [| apply IH].
  constructor; [apply IH |]. apply Forall_forall. intros i Hin.
  destruct (thrown_positions_bounds Hin) as (Hle & _). lia.
Qed.

Lemma thrown_positions_complete outcomes :
  forall from i e, nth_error outcomes i = Some (Throw e) ->
    In (from + i)%nat (thrown_positions from outcomes).
Proof.
  induction outcomes as [| r rest IH]; intros from i e Hi.
  - destruct i; discriminate.
  - cbn [thrown_positions]. apply in_or_app. destruct i as [| i]; cbn in Hi.
    + inversion Hi; subst r. left. cbn. left. lia.
    + right. replace (from + S i)%nat with (S from + i)%nat by lia.
      eapply IH; eassumption.
Qed.

Lemma retained_positions q :
  forall (pre : list SyncQueueItem) outcomes,
    List.length outcomes = List.length q ->
    map Some (retained q outcomes)
    = map (nth_error (pre ++ q)) (thrown_positions (List.length pre) outcomes).
Proof.
  induction q as [| item rest IH]; intros pre outcomes Hlen.
  - destruct outcomes; [reflexivity | discriminate].
  - destruct outcomes as [| r outs]; [discriminate |].
    cbn [List.length] in Hlen. rewrite retained_cons. cbn [thrown_positions].
    rewrite !map_app.
    specialize (IH (pre ++ [item]) outs ltac:(lia)).
    rewrite <- app_assoc in IH. cbn [app] in IH.
    rewrite length_app in IH. cbn [List.length] in IH.
    rewrite Nat.add_1_r in IH. rewrite IH. f_equal.
    destruct (thrown r); [| reflexivity]. cbn [map].
    rewrite nth_error_app2 by lia. rewrite Nat.sub_diag. reflexivity.
Qed.

End Positions.

Section InvariantOfTheStore.

Variable cfg : Config.

Lemma good_final A (m : M Ctx A) b c :
  preserves (Good cfg b) m -> Good cfg b c -> Good cfg b (final_state (m c)).
Proof.
  intros Hm Hc. specialize (Hm c Hc). unfold wp in Hm. unfold final_state.
  destruct (m c) as [[a | e] c']; exact Hm.
Qed.

Lemma good_keeps A (m : M Ctx A) b c :
  preserves (Good cfg b) m -> Good cfg b c -> keeps_synced_ok m c.
Proof.
  intros Hm Hc. destruct (good_final Hm Hc) as (_ & _ & H3 & H4 & _). now split.
Qed.

Lemma not_synced_ok t : sync_status t <> synced -> synced_ok t.
Proof. intros H Hs. contradiction. Qed.

Lemma status_updated_not_synced s now t :
  sync_status (status_updated s now t) <> synced.
Proof.
  unfold status_updated. cbn.
  destruct (sync_status t) eqn:E; cbn; rewrite ?E; discriminate.
Qed.

Lemma good_updateStatus b s : preserves (Good cfg b) (TaskAdapter.updateStatus s).
Proof.
  intros [t w] (H1 & H2 & H3 & H4 & H5). unfold wp. rewrite run_updateStatus.
  cbv zeta. cbn [this world] in *. split_good; try assumption.
  - apply not_synced_ok, status_updated_not_synced.
  - apply table_ok_stored; [assumption |]. intros row _.
    apply row_ok_not_synced; cbn [TaskAdapter.fields_updateStatus u_sync_status].
    + discriminate.
    + intros H. inversion H as [Hs]. revert Hs. apply status_updated_not_synced.
  - intros Hb. specialize (H5 Hb). unfold status_updated, serverId_set in *.
    cbn. destruct (sync_status t); exact H5.
Qed.

Lemma table_ok_kept w w' : sqlite w' = sqlite w -> table_ok w -> table_ok w'.
Proof. unfold table_ok. now intros ->. Qed.

Lemma good_edit_write form :
  preserves (Good cfg false) (TaskAdapter.update (TaskDetail.edit_updater form)).
Proof.
  intros c Hc.
  destruct (run_edit_updater form c) as (t' & Hupd & Hid & Hup & Hss).
  unfold wp. rewrite (run_update Hupd). cbn [this world].
  assert (Hns : sync_status t' <> synced).
  { rewrite Hss. destruct (sync_status (this c)); cbn; discriminate. }
  destruct Hc as (H1 & H2 & H3 & H4 & _).
  split_good; try assumption.
  - now apply not_synced_ok.
  - apply table_ok_stored; [assumption |]. intros row _.
    apply row_ok_all_fields. now apply not_synced_ok.
  - discriminate.
Qed.

Lemma good_loadTask : preserves (Good cfg false) TaskDetail.loadTask.
Proof.
  intros [t w] (H1 & H2 & H3 & H4 & _). unfold TaskDetail.loadTask.
  rewrite wp_try_catch, wp_bind, wp_get_this, wp_bind, wp_lift.
  cbn [this world]. unfold Database.find. rewrite wp_bind.
  unfold SqliteDb.getTask. rewrite wp_gets.
  destruct (find _ (rows (sqlite w))) as [row |] eqn:Hfind.
  - rewrite wp_ret, wp_assign. cbn [this world].
    split_good; try assumption; [| discriminate].
    apply find_some in Hfind. destruct Hfind as [Hin _].
    unfold table_ok in H4. rewrite Forall_forall in H4. now apply H4.
  - rewrite wp_throw, wp_lift. cbn [this world].
    unfold console_error. rewrite wp_modify.
    split_good; try assumption. discriminate.
Qed.

Lemma good_console_error label error :
  preserves (Good cfg false) (lift (console_error label error)).
Proof.
  intros [t w] Hc. rewrite wp_lift. unfold console_error. rewrite wp_modify.
  exact Hc.
Qed.

Lemma good_handleUpdate form : preserves (Good cfg false) (TaskDetail.handleUpdate form).
Proof.
  unfold TaskDetail.handleUpdate.
  destruct (negb (truthy_str (trim (TaskDetail.f_title form))));
    [apply preserves_ret |].
  apply preserves_try_catch.
  - apply preserves_bind; [apply good_edit_write | intros _].
    apply preserves_bind; [apply good_loadTask | intros _].
    apply preserves_ret.
  - intros e. apply preserves_bind; [apply good_console_error | intros _].
    apply preserves_ret.
Qed.

Lemma good_saveBeforeLeaving form :
  preserves (Good cfg false) (TaskDetail.saveBeforeLeaving form).
Proof.
  unfold TaskDetail.saveBeforeLeaving.
  destruct (truthy_str (trim (TaskDetail.f_title form))); [| apply preserves_ret].
  apply preserves_try_catch; [apply good_edit_write |].
  intros e. apply good_console_error.
Qed.

Lemma good_handleDelete b : preserves (Good cfg b) TaskDetail.handleDelete.
Proof.
  intros [t w] (H1 & H2 & H3 & H4 & H5). unfold TaskDetail.handleDelete.
  rewrite wp_try_catch, wp_bind. unfold wp at 1. rewrite run_destroyPermanently.
  cbn [this world]. rewrite wp_bind, wp_get_this. cbn [this].
  assert (Htab : table_ok (final_state
                             ((SqliteDb.deleteTask (id t) ;; SqliteDb.notifyChange) w))).
  { unfold table_ok in *. rewrite rows_after_delete.
    rewrite Forall_forall in *. intros row Hin. apply filter_In in Hin.
    now apply H4. }
  assert (Hdone : Good cfg b
            (mkCtx t (final_state
                        ((SqliteDb.deleteTask (id t) ;; SqliteDb.notifyChange) w)))).
  { split_good; assumption. }
  destruct (server_id t) as [| | sid]; try exact Hdone.
  destruct (truthy_str sid); [| exact Hdone].
  rewrite wp_bind, wp_lift. cbn [this world]. unfold Date_now. rewrite wp_gets.
  rewrite wp_lift. cbn [this world].
  unfold SyncManager.addToQueue. rewrite wp_try_catch, wp_bind, wp_gets, wp_modify.
  split_good; assumption.
Qed.

Lemma good_world_of b t w : Good cfg b (mkCtx t w) -> GoodW cfg w.
Proof. intros (H1 & H2 & _ & H4 & _). now repeat split. Qed.

Lemma goodW_sync_step w task : GoodW cfg w -> GoodW cfg (sync_step cfg w task).
Proof.
  intros (H1 & H2 & H3). unfold sync_step.
  destruct (SyncManager.needs_sync task) eqn:Hn; [| now repeat split].
  assert (Hc : Good cfg false (mkCtx task w)).
  { split_good; try assumption; [| discriminate].
    apply not_synced_ok. intros Hs. unfold SyncManager.needs_sync in Hn.
    rewrite Hs in Hn. discriminate. }
  pose proof (good_final (@good_syncTask cfg) Hc) as Hfin.
  unfold with_task, final_state in *.
  destruct (SyncManager.syncTask cfg (mkCtx task w)) as [r [t' w']].
  cbn [snd world] in *. eapply good_world_of; eassumption.
Qed.

Lemma goodW_sync_loop tasks :
  forall w, GoodW cfg w -> GoodW cfg (fold_left (sync_step cfg) tasks w).
Proof.
  induction tasks as [| task rest IH]; intros w Hw; [exact Hw |].
  cbn [fold_left]. apply IH. now apply goodW_sync_step.
Qed.

Lemma goodW_drain_framed w w' : drain_framed w w' -> GoodW cfg w -> GoodW cfg w'.
Proof.
  intros (Hs & _ & Hc & _ & Hr) (H1 & H2 & H3). unfold GoodW, ids_assured, table_ok in *.
  rewrite Hs, Hc, Hr. now repeat split.
Qed.

Lemma goodW_syncAll w : GoodW cfg w -> GoodW cfg (final_state (SyncManager.syncAll cfg w)).
Proof.
  intros Hw.
  destruct (isSyncing (manager w) || negb (isOnline (manager w))) eqn:Hg.
  - rewrite syncAll_guard; [exact Hw |].
    apply orb_true_iff in Hg. destruct Hg as [Hg | Hg]; [now left | right].
    now apply negb_true_iff in Hg.
  - apply orb_false_iff in Hg. destruct Hg as [Hs Ho]. apply negb_false_iff in Ho.
    rewrite (syncAll_run cfg Ho Hs). cbn [final_state snd].
    set (w1 := fold_left _ _ _).
    assert (Hw1 : GoodW cfg w1).
    { subst w1. apply goodW_sync_loop. exact Hw. }
    destruct (processSyncQueue_returns cfg w1) as (w2 & Hrun & Hf).
    rewrite Hrun. cbn [snd].
    pose proof (goodW_drain_framed Hf Hw1) as Hw2.
    exact Hw2.
Qed.

End InvariantOfTheStore.

Section CreationKeepsTheInvariant.

Variable cfg : Config.

Lemma initializer_pending form c :
  exists t',
    TaskForm.initializer form c = (Ok tt, mkCtx t' (world c)) /\
    sync_status t' = pending_sync.
Proof.
  destruct c as [t w].
  unfold TaskForm.initializer, bind, assign, modify, lift, Date_now, gets.
  cbn [this world].
  destruct (TaskForm.c_price form), (TaskForm.form_location form),
    (TaskForm.c_imageUris form), (TaskForm.c_expiresAt form);
    eexists; split; reflexivity.
Qed.

Lemma createTask_run task w :
  let new_id := js "task_" ++ uuid_source (sqlite w) (uuids_drawn (sqlite w)) in
  SqliteDb.createTask task w =
  match find (fun row => str_eqb (id row) new_id) (rows (sqlite w)) with
  | Some _ => (Throw (new_Error (js "UNIQUE constraint failed: tasks.id")),
               uuid_drawn w)
  | None => (Ok new_id,
             SqliteDb.set_rows (rows (sqlite w) ++ [SqliteDb.inserted_row new_id task])
               (uuid_drawn w))
  end.
Proof.
  cbv zeta. unfold SqliteDb.createTask, bind, SqliteDb.getTask, gets,
    SqliteDb.generateUUID, uuid_drawn, final_state.
  cbn [sqlite set_sqlite rows snd].
  destruct (find _ (rows (sqlite w))); reflexivity.
Qed.

Lemma goodW_create form w :
  GoodW cfg w ->
  exists r w',
    Database.create (TaskForm.initializer form) w = (r, w') /\
    GoodW cfg w' /\
    forall row, r = Ok row -> synced_ok row.
Proof.
  intros (H1 & H2 & H3).
  destruct (initializer_pending form (mkCtx (Database.blank_task (clock w)) w))
    as (t' & Hinit & Hpend).
  assert (Htemp : with_task (Database.blank_task (clock w))
                    (TaskForm.initializer form ;; get_this) w = (Ok t', w)).
  { unfold with_task, bind. now rewrite Hinit. }
  assert (Hnew : forall x, synced_ok (SqliteDb.inserted_row x
                                        (Database.to_insert (clock w) t'))).
  { intros x. apply not_synced_ok. cbn. rewrite Hpend. discriminate. }
  unfold Database.create.
  erewrite bind_ok by reflexivity.
  rewrite (bind_ok _ Htemp).
  unfold bind at 1. rewrite createTask_run. cbv zeta.
  destruct (find _ (rows (sqlite w))) as [row |] eqn:Hfind.
  - do 2 eexists. split; [reflexivity |].
    split; [now repeat split | intros ? H; discriminate].
  - set (w2 := SqliteDb.set_rows _ _).
    assert (Hw2 : table_ok w2).
    { unfold table_ok. subst w2. cbn [SqliteDb.set_rows sqlite set_sqlite rows].
      apply Forall_app. split; [exact H3 |]. constructor; [apply Hnew | constructor]. }
    unfold bind, SqliteDb.notifyChange, SqliteDb.getTask, gets, modify, ret.
    match goal with |- context [find ?f ?l] => destruct (find f l) as [row |] eqn:Hfind2 end.
    + do 2 eexists. split; [reflexivity |]. split.
      * unfold GoodW, ids_assured. repeat split; try assumption.
      * intros row' H. inversion H; subst row'.
        apply find_some in Hfind2. destruct Hfind2 as [Hin _].
        unfold table_ok in Hw2. rewrite Forall_forall in Hw2. now apply Hw2.
    + do 2 eexists. split; [reflexivity |]. split.
      * unfold GoodW, ids_assured. repeat split; try assumption.
      * intros row' H. discriminate.
Qed.

Lemma goodW_handleCreateTask form w :
  GoodW cfg w ->
  GoodW cfg (final_state (TaskForm.handleCreateTask form w)) /\
  forall created,
    fst (TaskForm.handleCreateTask form w) = Ok (Some created) -> synced_ok created.
Proof.
  intros Hw. unfold TaskForm.handleCreateTask.
  destruct (negb (truthy_str (trim (TaskForm.c_title form)))).
  { split; [exact Hw | intros created H; discriminate]. }
  destruct (goodW_create form Hw) as (r & w' & Hrun & Hw' & Hrow).
  unfold try_catch, bind. rewrite Hrun.
  destruct r as [row | e]; cbn.
  - split; [exact Hw' |]. intros created H. inversion H; subst. now apply Hrow.
  - split; [| intros created H; discriminate].
    destruct Hw' as (K1 & K2 & K3). now repeat split.
Qed.

End CreationKeepsTheInvariant.

Lemma clock_positive_nonzero (z : Z) : (0 < z)%Z -> z <> 0%Z.
Proof. lia. Qed.

Section ThrowsReachTheCatch.

Variable cfg : Config.

Lemma serverId_set_syncing t :
  serverId_set (set_sync_status syncing t) = serverId_set t.
Proof. reflexivity. Qed.

(** A throw of the create step or of the update step leaves the [try]
    block of [syncTask]. *)
Lemma syncTask_try_throws_at_create c e c1 :
  serverId_set (this c) = false ->
  SyncManager.createTaskOnServer cfg (final_state (TaskAdapter.markAsSyncing c))
    = (Throw e, c1) ->
  SyncManager.syncTask_try cfg c = (Throw e, c1).
Proof.
  intros Hid Hthrow. unfold SyncManager.syncTask_try.
  rewrite run_markAsSyncing in Hthrow. cbn [final_state snd] in Hthrow.
  erewrite bind_ok by apply run_markAsSyncing.
  erewrite bind_ok by reflexivity. cbn [this].
  change (truthy truthy_str (server_id (set_sync_status syncing (this c))))
    with (serverId_set (this c)).
  rewrite Hid. cbn [negb]. unfold bind. now rewrite Hthrow.
Qed.

Lemma syncTask_try_throws_at_update c e c1 :
  serverId_set (this c) = true ->
  SyncManager.updateTaskOnServer cfg (final_state (TaskAdapter.markAsSyncing c))
    = (Throw e, c1) ->
  SyncManager.syncTask_try cfg c = (Throw e, c1).
Proof.
  intros Hid Hthrow. unfold SyncManager.syncTask_try.
  rewrite run_markAsSyncing in Hthrow. cbn [final_state snd] in Hthrow.
  erewrite bind_ok by apply run_markAsSyncing.
  erewrite bind_ok by reflexivity. cbn [this].
  change (truthy truthy_str (server_id (set_sync_status syncing (this c))))
    with (serverId_set (this c)).
  rewrite Hid. cbn [negb]. unfold bind. now rewrite Hthrow.
Qed.

End ThrowsReachTheCatch.

(* ================================================================== *)
(** ** The claims of the specification                                 *)
(* ================================================================== *)

(** *** C1: a conflict resolved as manual *)




(** *** C2: the conflict policy *)

(** C2.  The conflict procedure is a total function of the local and the
    server status: its decision is the table of the specification (done
    against cancelled: client_wins and done; cancelled against done:
    server_wins and done; every other pair: manual and the local status),
    and whatever the configuration, the server and the world, the
    resolution and the final status recorded in the task and in its stored
    rows are the ones of the table. *)
Theorem C2_conflict_policy_is_the_table :
  forall (cfg : Config) (server : TaskStatus) (c : Ctx),
    SyncManager.decide (status (this c)) server
      = spec_conflict_table (status (this c)) server /\
    records (fst (spec_conflict_table (status (this c)) server))
            (snd (spec_conflict_table (status (this c)) server))
            (id (this c))
            (final_state (SyncManager.handleConflict cfg server c)).
Proof.
  intros cfg server c. split; [apply decide_table |].
  rewrite <- decide_table.
  set (r := fst (SyncManager.decide (status (this c)) server)).
  set (s := snd (SyncManager.decide (status (this c)) server)).
  set (P := fun c' : Ctx => records r s (id (this c)) c' /\ id (this c') = id (this c)).
  assert (H : wp (SyncManager.handleConflict cfg server) (fun _ => P) (fun _ => P) c).
  { unfold SyncManager.handleConflict. rewrite wp_bind, wp_get_this.
    subst r s P. destruct (SyncManager.decide (status (this c)) server) as [r s].
    cbn [fst snd]. rewrite wp_bind.
    eapply wp_mono; [| | apply (records_resolveConflict r s c)]; cbv beta;
      [| contradiction].
    intros _ c1 Hc1. revert c1 Hc1.
    change (preserves
              (fun c' => records r s (id (this c)) c' /\ id (this c') = id (this c))
              (if ConflictResolution_eqb r client_wins
               then SyncManager.updateTaskOnServer cfg ;;
                    task <- get_this ;;
                    TaskAdapter.markAsSynced (server_id task) (val s)
               else if ConflictResolution_eqb r server_wins
                    then task <- get_this ;;
                         TaskAdapter.markAsSynced (server_id task) (val server)
                    else ret tt)).
    destruct (ConflictResolution_eqb r client_wins).
    - apply preserves_bind; [apply records_updateTaskOnServer | intros _].
      apply preserves_bind; [apply preserves_gets | intros task].
      apply records_markAsSynced.
    - destruct (ConflictResolution_eqb r server_wins).
      + apply preserves_bind; [apply preserves_gets | intros task].
        apply records_markAsSynced.
      + apply preserves_ret. }
  unfold wp in H. unfold final_state.
  destruct (SyncManager.handleConflict cfg server c) as [[[] | e] c']; apply H.
Qed.

(** *** C3: synced implies a server identifier and a sync time *)

(** C3.  With the clock past the epoch and a server whose creations return
    an identifier (the mock server always does), a table in which every
    task marked synced has its serverId and its syncedAt set stays so:
    through a whole [syncAll], through a creation from the form, and
    through every operation on an adapter whose own data satisfy the
    property ([syncTask] with its create, update and conflict paths,
    [markAsSyncing], [updateStatus], [resolveConflict], the edit, the save
    made on leaving and the delete of the detail screen, [handleConflict]
    for a task that has a server identifier).  [markAsSynced], called with an identifier or on a
    task that has one, leaves the task synced with both fields set. *)
Theorem C3_synced_tasks_have_server_id_and_sync_time :
  forall (cfg : Config) (w : World),
    (0 < clock w)%Z -> ids_assured cfg w -> table_ok w ->
    table_ok (final_state (SyncManager.syncAll cfg w)) /\
    (forall form,
        table_ok (final_state (TaskForm.handleCreateTask form w)) /\
        forall created,
          fst (TaskForm.handleCreateTask form w) = Ok (Some created) ->
          synced_ok created) /\
    (forall task,
        synced_ok task ->
        keeps_synced_ok (SyncManager.syncTask cfg) (mkCtx task w) /\
        keeps_synced_ok TaskAdapter.markAsSyncing (mkCtx task w) /\
        (forall s, keeps_synced_ok (TaskAdapter.updateStatus s) (mkCtx task w)) /\
        (forall r s,
            keeps_synced_ok (TaskAdapter.resolveConflict r (val s)) (mkCtx task w)) /\
        (forall form, keeps_synced_ok (TaskDetail.handleUpdate form) (mkCtx task w)) /\
        (forall form,
            keeps_synced_ok (TaskDetail.saveBeforeLeaving form) (mkCtx task w)) /\
        keeps_synced_ok TaskDetail.handleDelete (mkCtx task w) /\
        (serverId_set task = true ->
         forall server,
           keeps_synced_ok (SyncManager.handleConflict cfg server) (mkCtx task w)) /\
        (forall sid st,
            truthy truthy_str sid = true \/ serverId_set task = true ->
            let c' := final_state (TaskAdapter.markAsSynced sid st (mkCtx task w)) in
            sync_status (this c') = synced /\
            serverId_set (this c') = true /\
            syncedAt_set (this c') = true /\
            table_ok (world c'))).
Proof.
  intros cfg w Hclock Hids Htab.
  apply clock_positive_nonzero in Hclock.
  assert (Hw : GoodW cfg w) by now repeat split.
  split; [| split].
  - now apply (goodW_syncAll Hw).
  - intros form. destruct (goodW_handleCreateTask form Hw) as [(_ & _ & H) Hc].
    now split.
  - intros task Htask.
    assert (Hc : Good cfg false (mkCtx task w)).
    { split_good; try assumption. discriminate. }
    split; [eapply good_keeps; [apply good_syncTask | exact Hc] |].
    split; [eapply good_keeps; [apply good_markAsSyncing | exact Hc] |].
    split; [intros s; eapply good_keeps; [apply good_updateStatus | exact Hc] |].
    split; [intros r s; eapply good_keeps; [apply good_resolveConflict | exact Hc] |].
    split; [intros form; eapply good_keeps; [apply good_handleUpdate | exact Hc] |].
    split; [intros form; eapply good_keeps; [apply good_saveBeforeLeaving | exact Hc] |].
    split; [eapply good_keeps; [apply good_handleDelete | exact Hc] |].
    split.
    + intros Hsid server. eapply good_keeps; [apply good_handleConflict |].
      split_good; try assumption. intros _. exact Hsid.
    + intros sid st Hid. cbv zeta. rewrite run_markAsSynced. cbv zeta.
      cbn [final_state snd this world].
      destruct (@marked_synced_ok sid st _ task Hclock Hid) as (K1 & K2 & _).
      split; [| split; [exact K1 | split; [exact K2 |]]].
      * unfold marked_synced.
        destruct (truthy truthy_str sid), (truthy always_truthy st); reflexivity.
      * apply table_ok_stored; [assumption |]. intros row _.
        now apply row_ok_markAsSynced.
Qed.

Lemma C3_synced_tasks_have_server_id_and_sync_time_witness :
  let w := world_with [synced_task; fresh_task] None done_server in
  (0 < clock w)%Z /\ ids_assured shipped w /\ table_ok w /\
  table_ok (final_state (SyncManager.syncAll shipped w)) /\
  Forall (fun row => sync_status row = synced /\ serverId_set row = true)
         (rows (sqlite (final_state (SyncManager.syncAll shipped w)))).
Proof.
  cbv zeta.
  assert (H0 : (0 < clock (world_with [synced_task; fresh_task] None done_server))%Z)
    by reflexivity.
  assert (H1 : ids_assured shipped
                 (world_with [synced_task; fresh_task] None done_server))
    by (left; reflexivity).
  assert (H2 : table_ok (world_with [synced_task; fresh_task] None done_server)).
  { repeat constructor; discriminate. }
  split; [exact H0 |]. split; [exact H1 |]. split; [exact H2 |].
  split.
  - exact (proj1 (C3_synced_tasks_have_server_id_and_sync_time H0 H1 H2)).
  - vm_compute. repeat constructor.
Defined.

(** *** C4: the guard of syncAll *)

(** C4.  When the syncing flag is already set or the manager is offline,
    [syncAll] returns at once and the world is the one it was called in:
    no request reached the mock server or the network, no task was
    processed, and every row, the persisted queue, the flags and the
    listeners are untouched. *)
Theorem C4_syncAll_is_a_no_op_when_busy_or_offline :
  forall (cfg : Config) (w : World),
    isSyncing (manager w) = true \/ isOnline (manager w) = false ->
    SyncManager.syncAll cfg w = (Ok tt, w).
Proof. intros cfg w H. now apply syncAll_guard. Qed.

Lemma C4_syncAll_is_a_no_op_when_busy_or_offline_witness :
  (isSyncing (manager busy_world) = true \/ isOnline (manager busy_world) = false) /\
  SyncManager.syncAll shipped busy_world = (Ok tt, busy_world).
Proof.
  split.
  - left. reflexivity.
  - apply C4_syncAll_is_a_no_op_when_busy_or_offline. left. reflexivity.
Defined.

(** *** C5: a failing task does not abort the batch *)

(** C5.  An error thrown by the create step or by the update step of
    [syncTask], and more generally any error thrown inside its [try]
    block, is caught: [syncTask] returns normally, the task is written
    back as pending_sync, in the adapter and in its stored rows, so it is
    not left syncing.  The loop of [syncAll] therefore never leaves early:
    it is the fold of the per-task step over all fetched tasks.  A pass
    started online and idle returns normally and is that fold, over the
    tasks in the order of the store, followed by the drain of the queue
    and the [finally] block.  The pass raises the syncing flag and calls
    the listeners before its [try] block; the flag stays raised through
    the loop and the drain, so that a second pass started meanwhile is
    refused; the [finally] block then clears it and calls the listeners
    again, which makes two calls in all.  The [finally] block clears the
    flag in whatever world it runs, raised or not, keeps the online flag
    and calls the listeners once. *)
Theorem C5_one_failure_never_aborts_the_batch :
  forall (cfg : Config),
    (forall c e c1,
        serverId_set (this c) = false ->
        SyncManager.createTaskOnServer cfg (final_state (TaskAdapter.markAsSyncing c))
          = (Throw e, c1) ->
        exists c2,
          SyncManager.syncTask cfg c = (Ok tt, c2) /\
          sync_status (this c2) = pending_sync /\
          Forall (fun row => sync_status row = pending_sync)
                 (rows_of (id (this c)) (world c2))) /\
    (forall c e c1,
        serverId_set (this c) = true ->
        SyncManager.updateTaskOnServer cfg (final_state (TaskAdapter.markAsSyncing c))
          = (Throw e, c1) ->
        exists c2,
          SyncManager.syncTask cfg c = (Ok tt, c2) /\
          sync_status (this c2) = pending_sync /\
          Forall (fun row => sync_status row = pending_sync)
                 (rows_of (id (this c)) (world c2))) /\
    (forall c e c1,
        SyncManager.syncTask_try cfg c = (Throw e, c1) ->
        exists c2,
          SyncManager.syncTask cfg c = (Ok tt, c2) /\
          sync_status (this c2) = pending_sync /\
          Forall (fun row => sync_status row = pending_sync)
                 (rows_of (id (this c)) (world c2))) /\
    (forall tasks w,
        for_each tasks (fun task =>
          if SyncManager.needs_sync task
          then with_task task (SyncManager.syncTask cfg) else ret tt) w
        = (Ok tt, fold_left (sync_step cfg) tasks w)) /\
    (forall w,
        isOnline (manager w) = true -> isSyncing (manager w) = false ->
        let looped :=
          fold_left (sync_step cfg)
            (SqliteDb.order_by_updated_at_desc (rows (sqlite w)))
            (sync_started w) in
        let drained := final_state (SyncManager.processSyncQueue cfg looped) in
        exists w',
          SyncManager.syncAll cfg w = (Ok tt, w') /\
          w' = sync_finished drained /\
          manager (sync_started w)
            = mkManager true true (S (listener_rounds (manager w))) /\
          isSyncing (manager looped) = true /\
          SyncManager.syncAll cfg looped = (Ok tt, looped) /\
          isSyncing (manager drained) = true /\
          isSyncing (manager w') = false /\
          isOnline (manager w') = true /\
          listener_rounds (manager w') = (listener_rounds (manager w) + 2)%nat) /\
    (forall w1,
        exists w2,
          SyncManager.syncAll_finally w1 = (Ok tt, w2) /\
          manager w2 = mkManager (isOnline (manager w1)) false
                         (S (listener_rounds (manager w1))) /\
          sqlite w2 = sqlite w1 /\ async_storage w2 = async_storage w1).
Proof.
  intros cfg.
  assert (Hcatch : forall c e c1,
    SyncManager.syncTask_try cfg c = (Throw e, c1) ->
    exists c2,
      SyncManager.syncTask cfg c = (Ok tt, c2) /\
      sync_status (this c2) = pending_sync /\
      Forall (fun row => sync_status row = pending_sync)
             (rows_of (id (this c)) (world c2))).
  { intros c e c1 Htry.
    unfold SyncManager.syncTask, try_catch. rewrite Htry.
    rewrite run_syncTask_catch. cbv zeta. eexists. split; [reflexivity |].
    cbn [this world]. split; [reflexivity |].
    pose proof (syncTask_try_id cfg c) as Hid. rewrite Htry in Hid.
    cbn [final_state snd] in Hid. rewrite <- Hid, rows_of_stored.
    apply Forall_forall. intros row Hin.
    apply in_map_iff in Hin. destruct Hin as (r0 & <- & _). reflexivity. }
  split; [| split; [| split; [| split; [| split]]]].
  - intros c e c1 Hid Hthrow. apply (Hcatch c e c1).
    now apply syncTask_try_throws_at_create.
  - intros c e c1 Hid Hthrow. apply (Hcatch c e c1).
    now apply syncTask_try_throws_at_update.
  - exact Hcatch.
  - intros tasks w. apply sync_loop_run.
  - intros w Hon Hsync looped drained.
    assert (Hlooped : manager looped
                      = mkManager true true (S (listener_rounds (manager w)))).
    { unfold looped. rewrite sync_loop_manager, sync_started_manager.
      now rewrite Hon. }
    assert (Hdrained : manager drained = manager looped).
    { unfold drained.
      destruct (processSyncQueue_returns cfg looped) as (w' & Hrun & Hf).
      rewrite Hrun. cbn [final_state snd]. apply Hf. }
    exists (sync_finished drained). split; [now apply syncAll_run |].
    split; [reflexivity |].
    split; [rewrite sync_started_manager; now rewrite Hon |].
    split; [now rewrite Hlooped |].
    split; [apply syncAll_guard; left; now rewrite Hlooped |].
    split; [now rewrite Hdrained, Hlooped |].
    rewrite sync_finished_manager, Hdrained, Hlooped.
    cbn [isSyncing isOnline listener_rounds].
    split; [reflexivity |]. split; [reflexivity |]. lia.
  - intros w1. eexists. split; [reflexivity |]. repeat split.
Qed.

Lemma C5_one_failure_never_aborts_the_batch_witness :
  let w := world_with [fresh_task; sample_task] None broken_server in
  serverId_set fresh_task = false /\
  fst (SyncManager.createTaskOnServer real_server
         (final_state (TaskAdapter.markAsSyncing (mkCtx fresh_task w))))
    = Throw (new_Error (js "Failed to create task: Internal Server Error")) /\
  (exists c2,
      SyncManager.syncTask real_server (mkCtx fresh_task w) = (Ok tt, c2) /\
      sync_status (this c2) = pending_sync) /\
  isOnline (manager w) = true /\ isSyncing (manager w) = false /\
  (exists w',
      SyncManager.syncAll real_server w = (Ok tt, w') /\
      isSyncing (manager w') = false /\
      listener_rounds (manager w') = 2%nat /\
      map sync_status (rows (sqlite w')) = [pending_sync; pending_sync] /\
      List.length (sent (network w')) = 2%nat).
Proof.
  cbv zeta.
  destruct (C5_one_failure_never_aborts_the_batch real_server)
    as (Hcreate & _ & _ & _ & Hbatch & _).
  split; [reflexivity |]. split; [reflexivity |]. split; [| split; [| split]].
  - destruct (Hcreate
                (mkCtx fresh_task (world_with [fresh_task; sample_task] None broken_server))
                (new_Error (js "Failed to create task: Internal Server Error"))
                (snd (SyncManager.createTaskOnServer real_server
                        (final_state
                           (TaskAdapter.markAsSyncing
                              (mkCtx fresh_task
                                 (world_with [fresh_task; sample_task] None
                                    broken_server)))))))
      as (c2 & H1 & H2 & _); [reflexivity | reflexivity |].
    exists c2. now split.
  - reflexivity.
  - reflexivity.
  - destruct (Hbatch (world_with [fresh_task; sample_task] None broken_server)
                eq_refl eq_refl) as (w' & H1 & H2 & _ & _ & _ & _ & H3 & _ & H4).
    exists w'. split; [exact H1 |]. split; [exact H3 |]. split; [exact H4 |].
    rewrite H2. split; reflexivity.
Defined.

(** *** C6: an edit marks the task pending *)

(** C6.  For a task that is synced or pending_sync, [updateStatus], the
    update of the detail screen and the save it makes before leaving (with
    a title that is not blank, the only case in which the screen writes)
    return normally and leave the task pending_sync with [updatedAt] equal
    to the time of the edit, in the adapter and in its stored rows, also
    after the reload that follows the update; [updateStatus] also stores
    the new status. *)
Theorem C6_edits_mark_the_task_pending :
  forall (c : Ctx),
    sync_status (this c) = synced \/ sync_status (this c) = pending_sync ->
    (forall newStatus,
        exists c',
          TaskAdapter.updateStatus newStatus c = (Ok tt, c') /\
          status (this c') = newStatus /\
          edited_at (clock (world c)) (id (this c)) c') /\
    (forall form,
        truthy_str (trim (TaskDetail.f_title form)) = true ->
        (exists c',
            TaskDetail.handleUpdate form c = (Ok true, c') /\
            edited_at (clock (world c)) (id (this c)) c') /\
        (exists c',
            TaskDetail.saveBeforeLeaving form c = (Ok tt, c') /\
            edited_at (clock (world c)) (id (this c)) c')).
Proof.
  intros c Hs. split.
  - intros newStatus. rewrite run_updateStatus. cbv zeta.
    eexists. split; [reflexivity |]. unfold edited_at. cbn [this world].
    destruct (status_updated_fields newStatus (clock (world c)) Hs)
      as (Hst & Hnew & Hup).
    split; [exact Hnew |]. split; [exact Hst |]. split; [exact Hup |].
    rewrite rows_of_stored. apply Forall_forall. intros row Hin.
    apply in_map_iff in Hin. destruct Hin as (r0 & <- & _).
    cbn. now rewrite Hst, Hup.
  - intros form Htitle.
    destruct (edit_write_run form Hs) as (c1 & Hwrite & Hedit & Hid).
    split.
    + destruct (loadTask_edited Hid Hedit) as (c2 & Hload & Hedit2).
      exists c2. split; [| exact Hedit2].
      unfold TaskDetail.handleUpdate. rewrite Htitle. cbn [negb].
      unfold try_catch.
      rewrite (bind_ok _ Hwrite), (bind_ok _ Hload). reflexivity.
    + exists c1. split; [| exact Hedit].
      unfold TaskDetail.saveBeforeLeaving. rewrite Htitle.
      unfold try_catch. now rewrite Hwrite.
Qed.

Lemma C6_edits_mark_the_task_pending_witness :
  let c := mkCtx synced_task (world_with [synced_task] None offline_network) in
  (sync_status (this c) = synced \/ sync_status (this c) = pending_sync) /\
  truthy_str (trim (TaskDetail.f_title edit_form)) = true /\
  (exists c',
      TaskAdapter.updateStatus done c = (Ok tt, c') /\
      sync_status (this c') = pending_sync /\ updated_at (this c') = 5000%Z) /\
  (exists c',
      TaskDetail.handleUpdate edit_form c = (Ok true, c') /\
      sync_status (this c') = pending_sync /\ updated_at (this c') = 5000%Z).
Proof.
  cbv zeta.
  destruct (@C6_edits_mark_the_task_pending
              (mkCtx synced_task (world_with [synced_task] None offline_network))
              (or_introl eq_refl)) as [Hstatus Hedit].
  split; [left; reflexivity |]. split; [reflexivity |]. split.
  - destruct (Hstatus done) as (c' & H1 & _ & H2 & H3 & _).
    exists c'. repeat split; assumption.
  - destruct (Hedit edit_form eq_refl) as [(c' & H1 & H2 & H3 & _) _].
    exists c'. repeat split; assumption.
Defined.

(** *** C7: deleting a task *)

(** C7.  The delete handler returns normally and removes the rows of the
    task from the table, leaving the other rows.  When the task has a
    server identifier, the persisted queue becomes the queue it was with
    one item appended, of action delete and with that identifier as
    taskId; when it has none, the persisted queue is unchanged. *)
Theorem C7_delete_enqueues_one_remote_delete :
  forall (c : Ctx),
    exists c',
      TaskDetail.handleDelete c = (Ok tt, c') /\
      rows_of (id (this c)) (world c') = [] /\
      rows (sqlite (world c'))
        = filter (fun row => negb (str_eqb (id row) (id (this c))))
                 (rows (sqlite (world c))) /\
      (forall sid,
          server_id (this c) = val sid -> truthy_str sid = true ->
          async_storage (world c')
            = Some (queue_of (world c)
                    ++ [mkQueueItem sid act_delete undefined (clock (world c))])) /\
      (serverId_set (this c) = false ->
          async_storage (world c') = async_storage (world c)).
Proof.
  intros [t w]. unfold TaskDetail.handleDelete, try_catch.
  unfold bind at 1. rewrite run_destroyPermanently. cbn [this world].
  unfold bind at 1. cbn [get_this gets this].
  destruct (server_id t) as [| | sid] eqn:Hsid.
  - eexists. split; [reflexivity |]. cbn [this world].
    split; [apply rows_of_deleted |]. split; [reflexivity |].
    split; [intros ? H; discriminate | reflexivity].
  - eexists. split; [reflexivity |]. cbn [this world].
    split; [apply rows_of_deleted |]. split; [reflexivity |].
    split; [intros ? H; discriminate | reflexivity].
  - destruct (truthy_str sid) eqn:Htr.
    + eexists. split; [reflexivity |]. cbn [this world].
      split; [apply rows_of_deleted |]. split; [reflexivity |].
      split.
      * intros sid' H _. inversion H; subst sid'. reflexivity.
      * unfold serverId_set. cbn. rewrite Hsid. cbn. rewrite Htr. discriminate.
    + eexists. split; [reflexivity |]. cbn [this world].
      split; [apply rows_of_deleted |]. split; [reflexivity |].
      split.
      * intros sid' H Ht. inversion H; subst sid'. congruence.
      * reflexivity.
Qed.

Lemma C7_delete_enqueues_one_remote_delete_witness :
  server_id sample_task = val (js "srv_1") /\
  truthy_str (js "srv_1") = true /\
  serverId_set fresh_task = false /\
  (exists c',
      TaskDetail.handleDelete (sample_ctx offline_network) = (Ok tt, c') /\
      rows (sqlite (world c')) = [] /\
      async_storage (world c')
        = Some [mkQueueItem (js "srv_1") act_delete undefined 5000]) /\
  (exists c',
      TaskDetail.handleDelete
        (mkCtx fresh_task (world_with [fresh_task] (Some sample_queue) offline_network))
        = (Ok tt, c') /\
      async_storage (world c') = Some sample_queue).
Proof.
  split; [reflexivity |]. split; [reflexivity |]. split; [reflexivity |]. split.
  - destruct (C7_delete_enqueues_one_remote_delete (sample_ctx offline_network))
      as (c' & H1 & _ & H3 & H4 & _).
    exists c'. split; [exact H1 |]. split; [exact H3 |].
    exact (H4 (js "srv_1") eq_refl eq_refl).
  - destruct (C7_delete_enqueues_one_remote_delete
                (mkCtx fresh_task
                   (world_with [fresh_task] (Some sample_queue) offline_network)))
      as (c' & H1 & _ & _ & _ & H5).
    exists c'. split; [exact H1 |]. exact (H5 eq_refl).
Defined.

(** *** C8: the drain keeps what failed, in order *)

(** C8.  A drain called offline leaves the world as it is.  A drain called
    online processes every item of the stored queue in order; with
    [outcomes] the outcome of each item in the world in which the loop
    reaches it, the queue left behind consists of the items at the
    positions whose outcome is a throw, in increasing order of position:
    every item whose processing threw (a connectivity error or any other
    error) is kept, in its original order relative to the other kept
    items, and no item whose processing ended normally is kept. *)
Theorem C8_drain_keeps_failed_items_in_order :
  forall (cfg : Config) (w : World) (q : list SyncQueueItem),
    async_storage w = Some q ->
    (isOnline (manager w) = false ->
     SyncManager.processSyncQueue cfg w = (Ok tt, w)) /\
    (isOnline (manager w) = true ->
     let outcomes := item_outcomes cfg q w in
     let after := final_state (SyncManager.processSyncQueue cfg w) in
     List.length outcomes = List.length q /\
     queue_of after = retained q outcomes /\
     map Some (queue_of after) = map (nth_error q) (thrown_positions 0 outcomes) /\
     StronglySorted lt (thrown_positions 0 outcomes) /\
     (forall i e, nth_error outcomes i = Some (Throw e) ->
                  In i (thrown_positions 0 outcomes)) /\
     (forall i, nth_error outcomes i = Some (Ok tt) ->
                ~ In i (thrown_positions 0 outcomes))).
Proof.
  intros cfg w q Hq. split.
  { intros Hoff. unfold SyncManager.processSyncQueue, bind. cbn [gets].
    rewrite Hoff. reflexivity. }
  intros Hon outcomes after.
  assert (Hlen : List.length outcomes = List.length q) by apply item_outcomes_length.
  assert (Hqueue : queue_of after = retained q outcomes).
  { subst after outcomes.
    destruct (processSyncQueue_run cfg Hon Hq) as (w' & Hrun & Hs & _).
    rewrite Hrun. cbn [final_state snd]. unfold queue_of. rewrite Hs.
    destruct (retained q (item_outcomes cfg q w)); reflexivity. }
  split; [exact Hlen |]. split; [exact Hqueue |]. split; [| split; [| split]].
  - rewrite Hqueue. exact (@retained_positions q [] outcomes Hlen).
  - apply thrown_positions_sorted.
  - intros i e Hi. exact (@thrown_positions_complete outcomes 0 i e Hi).
  - intros i Hi Hin. destruct (thrown_positions_bounds Hin) as (_ & _ & e & He).
    rewrite Nat.sub_0_r in He. congruence.
Qed.

Lemma C8_drain_keeps_failed_items_in_order_witness :
  let w := world_with [] (Some sample_queue) flaky_server in
  async_storage w = Some sample_queue /\
  isOnline (manager w) = true /\
  map thrown (item_outcomes real_server sample_queue w) = [true; false; true] /\
  thrown_positions 0 (item_outcomes real_server sample_queue w) = [0; 2]%nat /\
  queue_of (final_state (SyncManager.processSyncQueue real_server w))
    = [mkQueueItem (js "srv_5") act_delete undefined 4000;
       mkQueueItem (js "srv_7") act_delete undefined 4200].
Proof.
  cbv zeta.
  destruct (@C8_drain_keeps_failed_items_in_order real_server
              (world_with [] (Some sample_queue) flaky_server) sample_queue eq_refl)
    as [_ Hon].
  destruct (Hon eq_refl) as (_ & Hqueue & _).
  split; [reflexivity |]. split; [reflexivity |]. split; [reflexivity |].
  split; [reflexivity |].
  rewrite Hqueue. reflexivity.
Defined.

(** *** C9: the image references round-trip *)

(** C9.  Setting the image references of a task to a non-empty list of
    strings and reading them back gives the same strings in the same
    order: [JSON.parse] maps the text written by [JSON.stringify] back to
    the array, whatever code units the strings hold.  The same holds
    through the store: a task created from the form with these references
    (a title that is not blank, a fresh identifier) is returned with them,
    and so is the task found again under its identifier. *)
Theorem C9_image_references_round_trip :
  forall (refs : list jsstring),
    refs <> [] ->
    (forall d : TaskData,
        TaskAdapter.imageUrl
          (TaskAdapter.set_imageUrl (img_array (map JString refs)) d)
        = img_array (map JString refs)) /\
    (forall (form : TaskForm.CreateForm) (w : World),
        TaskForm.c_imageUris form = refs ->
        truthy_str (trim (TaskForm.c_title form)) = true ->
        fst (SqliteDb.getTask
               (js "task_" ++ uuid_source (sqlite w) (uuids_drawn (sqlite w))) w)
          = Ok None ->
        exists created w',
          TaskForm.handleCreateTask form w = (Ok (Some created), w') /\
          TaskAdapter.imageUrl created = img_array (map JString refs) /\
          exists reloaded,
            Database.find (id created) w' = (Ok reloaded, w') /\
            TaskAdapter.imageUrl reloaded = img_array (map JString refs)).
Proof.
  intros refs Hne. split.
  - intros d. now apply imageUrl_of_text.
  - intros form w Hrefs Htitle Hfresh.
    destruct (run_initializer form (mkCtx (Database.blank_task (clock w)) w))
      as (t' & Hinit & Himg).
    rewrite Hrefs in Himg. destruct refs as [| r0 refs']; [congruence |].
    set (new_id := js "task_" ++ uuid_source (sqlite w) (uuids_drawn (sqlite w))) in *.
    set (row := SqliteDb.inserted_row new_id (Database.to_insert (clock w) t')).
    assert (Hfind : find (fun r => str_eqb (id r) new_id) (rows (sqlite w)) = None).
    { unfold SqliteDb.getTask in Hfresh. cbn in Hfresh. now inversion Hfresh. }
    assert (Hrow : str_eqb (id row) new_id = true) by apply str_eqb_refl.
    assert (Himg_row : TaskAdapter.imageUrl row = img_array (map JString (r0 :: refs'))).
    { apply imageUrl_of_text. subst row.
      cbn [SqliteDb.inserted_row Database.to_insert image_url].
      rewrite Himg. reflexivity. }
    assert (Htemp : with_task (Database.blank_task (clock w))
                      (TaskForm.initializer form ;; get_this) w = (Ok t', w)).
    { unfold with_task, bind. now rewrite Hinit. }
    set (w1 := set_sqlite (mkSqlite (rows (sqlite w)) (change_rounds (sqlite w))
                             (uuid_source (sqlite w)) (S (uuids_drawn (sqlite w)))) w).
    set (w2 := SqliteDb.set_rows (rows (sqlite w1) ++ [row]) w1).
    assert (Hins : SqliteDb.createTask (Database.to_insert (clock w) t') w
                   = (Ok new_id, w2)).
    { unfold SqliteDb.createTask.
      erewrite bind_ok by reflexivity.
      erewrite bind_ok.
      2:{ unfold SqliteDb.getTask, gets. cbn [sqlite set_sqlite rows].
          fold new_id. rewrite Hfind. reflexivity. }
      reflexivity. }
    set (w3 := final_state (SqliteDb.notifyChange w2)).
    assert (Hget : SqliteDb.getTask new_id w3 = (Ok (Some row), w3)).
    { unfold SqliteDb.getTask, gets. f_equal. f_equal.
      subst w3 w2 w1. cbn [final_state snd SqliteDb.notifyChange modify sqlite set_sqlite
                           SqliteDb.set_rows rows].
      now apply find_app_fresh. }
    assert (Hcreate : Database.create (TaskForm.initializer form) w = (Ok row, w3)).
    { unfold Database.create.
      erewrite bind_ok by reflexivity.
      rewrite (bind_ok _ Htemp), (bind_ok _ Hins).
      erewrite bind_ok by reflexivity.
      fold w3. now rewrite (bind_ok _ Hget). }
    exists row, w3. split.
    + unfold TaskForm.handleCreateTask. rewrite Htitle. cbn [negb].
      unfold try_catch. now rewrite (bind_ok _ Hcreate).
    + split; [exact Himg_row |]. exists row. split; [| exact Himg_row].
      unfold Database.find. change (id row) with new_id.
      now rewrite (bind_ok _ Hget).
Qed.

Lemma C9_image_references_round_trip_witness :
  let refs := [js "file:///a.jpg"; [34; 92; 10; 55357; 56832; 56832; 233]] in
  refs <> [] /\
  TaskAdapter.imageUrl (TaskAdapter.set_imageUrl (img_array (map JString refs)) fresh_task)
    = img_array (map JString refs) /\
  exists created w',
    TaskForm.handleCreateTask create_form
      (world_with [sample_task] None offline_network) = (Ok (Some created), w') /\
    TaskAdapter.imageUrl created
      = img_array [JString (js "file:///a.jpg"); JString (js "file:///b.jpg")].
Proof.
  cbv zeta. split; [discriminate |]. split.
  - apply C9_image_references_round_trip. discriminate.
  - destruct (@C9_image_references_round_trip (TaskForm.c_imageUris create_form))
      as [_ Hcreate]; [discriminate |].
    destruct (Hcreate create_form (world_with [sample_task] None offline_network)
                eq_refl eq_refl eq_refl) as (created & w' & H1 & H2 & _).
    exists created, w'. split; [exact H1 | exact H2].
Defined.

(** *** C10: the shipped drain *)

(** C10.  In the shipped configuration a drain called online ends normally
    with the key of the queue removed and nothing else changed: every
    item is processed without a throw, so none is retained, and the mock
    server and the network are as before, so that no queued deletion is
    sent to the remote. *)
Theorem C10_shipped_drain_empties_the_queue :
  forall (w : World) (q : list SyncQueueItem),
    isOnline (manager w) = true ->
    async_storage w = Some q ->
    SyncManager.processSyncQueue shipped w = (Ok tt, set_async_storage None w) /\
    item_outcomes shipped q w = map (fun _ => Ok tt) q /\
    retained q (item_outcomes shipped q w) = [] /\
    mock (final_state (SyncManager.processSyncQueue shipped w)) = mock w /\
    network (final_state (SyncManager.processSyncQueue shipped w)) = network w.
Proof.
  intros w q Hon Hq.
  assert (Hrun : SyncManager.processSyncQueue shipped w = (Ok tt, set_async_storage None w)).
  { unfold SyncManager.processSyncQueue. unfold bind at 1. cbn [gets].
    rewrite Hon. cbn [negb]. unfold try_catch. unfold bind at 1. cbn [gets].
    rewrite Hq. unfold bind. rewrite drain_loop_shipped. reflexivity. }
  assert (Hout : forall q' w', item_outcomes shipped q' w' = map (fun _ => Ok tt) q').
  { induction q' as [| item rest IH]; intros w'; [reflexivity |].
    cbn [item_outcomes map]. rewrite process_item_shipped. cbn [fst].
    now rewrite IH. }
  rewrite Hrun, Hout. repeat split.
  clear. unfold retained. induction q as [| item rest IH]; [reflexivity |].
  exact IH.
Qed.

Lemma C10_shipped_drain_empties_the_queue_witness :
  let w := world_with [] (Some sample_queue) done_server in
  isOnline (manager w) = true /\
  async_storage w = Some sample_queue /\
  SyncManager.processSyncQueue shipped w = (Ok tt, set_async_storage None w) /\
  mock_calls (mock (final_state (SyncManager.processSyncQueue shipped w))) = [] /\
  sent (network (final_state (SyncManager.processSyncQueue shipped w))) = [].
Proof.
  cbv zeta.
  destruct (@C10_shipped_drain_empties_the_queue
              (world_with [] (Some sample_queue) done_server) sample_queue
              eq_refl eq_refl) as (H1 & _ & _ & H4 & H5).
  split; [reflexivity |]. split; [reflexivity |]. split; [exact H1 |].
  rewrite H4, H5. split; reflexivity.
Defined.

(* ================================================================== *)
(** * Further properties of the code                                   *)
(* ================================================================== *)

(** ** The list of all tasks *)

Section FetchAll.


Lemma insert_desc_perm row l : Permutation (SqliteDb.insert_desc row l) (row :: l).
Proof.
  induction l as [| r l IH]; cbn [SqliteDb.insert_desc]; [reflexivity |].
  destruct (updated_at r <=? updated_at row)%Z; [reflexivity |].
  rewrite IH. apply perm_swap.
Qed.

Lemma order_by_perm l : Permutation (SqliteDb.order_by_updated_at_desc l) l.
Proof.
  induction l as [| r l IH]; cbn; [reflexivity |].
  fold (SqliteDb.order_by_updated_at_desc l).
  rewrite insert_desc_perm. now constructor.
Qed.

Lemma insert_desc_sorted row l :
  StronglySorted newer_first l ->
  StronglySorted newer_first (SqliteDb.insert_desc row l).
Proof.
  induction 1 as [| r l Hl IH Hr]; cbn [SqliteDb.insert_desc].
  - repeat constructor.
  - destruct (Z.leb_spec (updated_at r) (updated_at row)) as [Hle | Hgt].
    + constructor; [now constructor |].
      constructor; [exact Hle |].
      eapply Forall_impl; [| exact Hr]. unfold newer_first. intros; lia.
    + constructor; [exact IH |].
      eapply Permutation_Forall; [symmetry; apply insert_desc_perm |].
      constructor; [unfold newer_first; lia | exact Hr].
Qed.

Lemma order_by_sorted l :
  StronglySorted newer_first (SqliteDb.order_by_updated_at_desc l).
Proof.
  induction l as [| r l IH]; cbn; [constructor |].
  now apply insert_desc_sorted.
Qed.

Lemma order_by_sorted_input l :
  StronglySorted newer_first l -> SqliteDb.order_by_updated_at_desc l = l.
Proof.
  induction 1 as [| x l Hl IH Hx]; [reflexivity |].
  cbn [SqliteDb.order_by_updated_at_desc fold_right].
  fold (SqliteDb.order_by_updated_at_desc l). rewrite IH.
  destruct l as [| y l']; [reflexivity |]. cbn [SqliteDb.insert_desc].
  inversion Hx as [| ? ? Hxy _]; subst. unfold newer_first in Hxy.
  destruct (Z.leb_spec (updated_at y) (updated_at x)); [reflexivity | lia].
Qed.

End FetchAll.

(** X1.  [database.get('tasks').query().fetch()] never throws and leaves
    the world as it is; the list it returns holds every stored row exactly
    once, the most recently updated first.  Rows that are already in that
    order in the table, rows with equal times of update among them, are
    returned in the order of the table. *)
Theorem X1_fetch_lists_every_task_newest_first :
  forall w : World,
    exists tasks,
      Database.fetch_all w = (Ok tasks, w) /\
      Permutation tasks (rows (sqlite w)) /\
      StronglySorted newer_first tasks /\
      (StronglySorted newer_first (rows (sqlite w)) -> tasks = rows (sqlite w)).
Proof.
  intros w. exists (SqliteDb.order_by_updated_at_desc (rows (sqlite w))).
  split; [reflexivity |]. split; [apply order_by_perm |].
  split; [apply order_by_sorted | apply order_by_sorted_input].
Qed.

Lemma X1_fetch_lists_every_task_newest_first_witness :
  let w := world_with [synced_task; sample_task; fresh_task] None offline_network in
  StronglySorted newer_first (rows (sqlite w)) /\
  exists tasks,
    Database.fetch_all w = (Ok tasks, w) /\ tasks = rows (sqlite w).
Proof.
  cbv zeta.
  assert (Hsorted : StronglySorted newer_first
                      (rows (sqlite (world_with [synced_task; sample_task; fresh_task]
                                       None offline_network)))).
  { repeat constructor; unfold newer_first; cbn; lia. }
  split; [exact Hsorted |].
  destruct (X1_fetch_lists_every_task_newest_first
              (world_with [synced_task; sample_task; fresh_task] None offline_network))
    as (tasks & H1 & _ & _ & H4).
  exists tasks. split; [exact H1 | exact (H4 Hsorted)].
Defined.

(** ** Creating a task from the form *)

Section CreateFromTheForm.

Lemma find_id_none i l :
  ~ In i (map id l) -> find (fun row => str_eqb (id row) i) l = None.
Proof.
  induction l as [| r l IH]; cbn; [reflexivity |]. intros H.
  destruct (str_eqb (id r) i) eqn:E.
  - apply str_eqb_eq in E. tauto.
  - apply IH. tauto.
Qed.

Lemma find_id_some i l :
  In i (map id l) -> exists row, find (fun row => str_eqb (id row) i) l = Some row.
Proof.
  induction l as [| r l IH]; cbn; [tauto |]. intros [H | H].
  - subst i. rewrite str_eqb_refl. now exists r.
  - destruct (str_eqb (id r) i); [now exists r | now apply IH].
Qed.

Lemma initializer_fields form c :
  exists t',
    TaskForm.initializer form c = (Ok tt, mkCtx t' (world c)) /\
    title t' = trim (TaskForm.c_title form) /\
    status t' = pending /\
    sync_status t' = pending_sync /\
    price t' = match TaskForm.c_price form with
               | val p => val p
               | _ => price (this c)
               end.
Proof.
  destruct c as [t w].
  unfold TaskForm.initializer, bind, assign, modify, lift, Date_now, gets.
  cbn [this world].
  destruct (TaskForm.c_price form), (TaskForm.form_location form),
    (TaskForm.c_imageUris form), (TaskForm.c_expiresAt form);
    eexists; repeat split.
Qed.

Lemma create_run form w :
  exists t',
    TaskForm.initializer form (mkCtx (Database.blank_task (clock w)) w)
      = (Ok tt, mkCtx t' w) /\
    Database.create (TaskForm.initializer form) w =
    match find (fun row => str_eqb (id row) (next_task_id w)) (rows (sqlite w)) with
    | Some _ => (Throw (new_Error (js "UNIQUE constraint failed: tasks.id")),
                 uuid_drawn w)
    | None =>
        let row := SqliteDb.inserted_row (next_task_id w)
                     (Database.to_insert (clock w) t') in
        (Ok row,
         final_state (SqliteDb.notifyChange
                        (SqliteDb.set_rows (rows (sqlite w) ++ [row]) (uuid_drawn w))))
    end.
Proof.
  destruct (initializer_fields form (mkCtx (Database.blank_task (clock w)) w))
    as (t' & Hinit & _).
  exists t'. split; [exact Hinit |].
  assert (Htemp : with_task (Database.blank_task (clock w))
                    (TaskForm.initializer form ;; get_this) w = (Ok t', w)).
  { unfold with_task, bind. now rewrite Hinit. }
  unfold Database.create.
  erewrite bind_ok by reflexivity.
  rewrite (bind_ok _ Htemp).
  unfold bind at 1. rewrite createTask_run. cbv zeta. fold (next_task_id w).
  destruct (find _ (rows (sqlite w))) as [row |] eqn:Hfind; [reflexivity |].
  erewrite bind_ok by reflexivity.
  unfold bind, SqliteDb.getTask, gets.
  cbn [final_state snd SqliteDb.notifyChange modify sqlite set_sqlite
         SqliteDb.set_rows rows uuid_drawn SqliteDb.generateUUID].
  rewrite (find_app_fresh (x := SqliteDb.inserted_row (next_task_id w)
                                  (Database.to_insert (clock w) t')) Hfind)
    by apply str_eqb_refl.
  reflexivity.
Qed.

End CreateFromTheForm.

(** X2.  A task created from the form, with a title that is not blank, is
    stored at the end of the table under the identifier drawn for it and
    is found again under that identifier: pending, not yet synced, with
    the trimmed title and the time of creation, and with a price of zero
    stored as no price.  When the identifier drawn is already in use the
    creation fails: nothing is stored and the error is logged.  With a
    blank title nothing happens at all. *)
Theorem X2_created_task_is_stored_and_found :
  forall (form : TaskForm.CreateForm) (w : World),
    (truthy_str (trim (TaskForm.c_title form)) = false ->
     TaskForm.handleCreateTask form w = (Ok None, w)) /\
    (truthy_str (trim (TaskForm.c_title form)) = true ->
     In (next_task_id w) (stored_ids w) ->
     exists w',
       TaskForm.handleCreateTask form w = (Ok None, w') /\
       rows (sqlite w') = rows (sqlite w) /\
       console w' = console w ++
         [(js "Error creating task:",
           new_Error (js "UNIQUE constraint failed: tasks.id"))]) /\
    (truthy_str (trim (TaskForm.c_title form)) = true ->
     ~ In (next_task_id w) (stored_ids w) ->
     exists row w',
       TaskForm.handleCreateTask form w = (Ok (Some row), w') /\
       rows (sqlite w') = rows (sqlite w) ++ [row] /\
       Database.find (next_task_id w) w' = (Ok row, w') /\
       id row = next_task_id w /\
       title row = trim (TaskForm.c_title form) /\
       status row = pending /\
       sync_status row = pending_sync /\
       created_at row = clock w /\
       updated_at row = clock w /\
       server_id row = null /\
       synced_at row = null /\
       price row = or_null truthy_num (TaskForm.c_price form)).
Proof.
  intros form w. split; [| split].
  - intros Hblank. unfold TaskForm.handleCreateTask. now rewrite Hblank.
  - intros Htitle Hused.
    destruct (create_run form w) as (t' & _ & Hcreate).
    destruct (find_id_some Hused) as (old & Hfind). rewrite Hfind in Hcreate.
    eexists. split.
    + unfold TaskForm.handleCreateTask. rewrite Htitle. cbn [negb].
      unfold try_catch, bind at 1. rewrite Hcreate. reflexivity.
    + split; reflexivity.
  - intros Htitle Hfresh.
    destruct (create_run form w) as (t' & Hinit & Hcreate).
    rewrite (find_id_none Hfresh) in Hcreate. cbv zeta in Hcreate.
    destruct (initializer_fields form (mkCtx (Database.blank_task (clock w)) w))
      as (t2 & Hinit2 & Ht & Hs & Hss & Hp).
    rewrite Hinit in Hinit2. inversion Hinit2; subst t2; clear Hinit2.
    do 2 eexists. split.
    + unfold TaskForm.handleCreateTask. rewrite Htitle. cbn [negb].
      unfold try_catch. rewrite (bind_ok _ Hcreate). reflexivity.
    + split; [reflexivity |]. split.
      { unfold Database.find, bind, SqliteDb.getTask, gets.
        cbn [final_state snd SqliteDb.notifyChange modify sqlite set_sqlite
               SqliteDb.set_rows rows uuid_drawn SqliteDb.generateUUID].
        rewrite (find_app_fresh (x := SqliteDb.inserted_row (next_task_id w)
                                        (Database.to_insert (clock w) t'))
                   (find_id_none Hfresh)) by apply str_eqb_refl.
        reflexivity. }
      cbn [SqliteDb.inserted_row Database.to_insert id title status sync_status
             created_at updated_at server_id synced_at price or_null].
      repeat split; try assumption.
      rewrite Hp. cbn [Database.blank_task price this].
      destruct (TaskForm.c_price form); reflexivity.
Qed.

Lemma X2_created_task_is_stored_and_found_witness :
  let w := world_with [sample_task] None offline_network in
  truthy_str (trim (TaskForm.c_title create_form)) = true /\
  ~ In (next_task_id w) (stored_ids w) /\
  exists row w',
    TaskForm.handleCreateTask create_form w = (Ok (Some row), w') /\
    id row = js "task_0" /\ title row = js "Audit 4" /\
    sync_status row = pending_sync.
Proof.
  cbv zeta.
  assert (Hfresh : ~ In (next_task_id (world_with [sample_task] None offline_network))
                        (stored_ids (world_with [sample_task] None offline_network))).
  { intros [H | []]. discriminate H. }
  split; [reflexivity |]. split; [exact Hfresh |].
  destruct (X2_created_task_is_stored_and_found create_form
              (world_with [sample_task] None offline_network)) as (_ & _ & H).
  destruct (H eq_refl Hfresh)
    as (row & w' & H1 & _ & _ & H4 & H5 & _ & H7 & _).
  exists row, w'. split; [exact H1 |]. split; [exact H4 |].
  split; [exact H5 | exact H7].
Defined.

(** ** Deleted tasks and stale adapters *)

Section MissingRows.

Lemma updated_rows_missing i u l :
  ~ In i (map id l) -> updated_rows i u l = l.
Proof.
  unfold updated_rows. induction l as [| r l IH]; cbn; [reflexivity |]. intros H.
  destruct (str_eqb (id r) i) eqn:E.
  - apply str_eqb_eq in E. tauto.
  - f_equal. apply IH. tauto.
Qed.

Lemma stored_missing i u w :
  ~ In i (stored_ids w) -> rows (sqlite (stored i u w)) = rows (sqlite w).
Proof. intros H. rewrite stored_rows. now apply updated_rows_missing. Qed.

Lemma deleted_not_stored i l :
  ~ In i (map id (filter (fun row => negb (str_eqb (id row) i)) l)).
Proof.
  intros H. apply in_map_iff in H. destruct H as (row & Hid & Hin).
  apply filter_In in Hin. destruct Hin as [_ Hne].
  subst i. now rewrite str_eqb_refl in Hne.
Qed.

Lemma find_missing i w :
  ~ In i (stored_ids w) ->
  Database.find i w = (Throw (new_Error (js "Task not found")), w).
Proof.
  intros H. unfold Database.find, bind, SqliteDb.getTask, gets.
  now rewrite (find_id_none H).
Qed.

Lemma handleDelete_rows c :
  exists c',
    TaskDetail.handleDelete c = (Ok tt, c') /\
    this c' = this c /\
    rows (sqlite (world c'))
      = filter (fun row => negb (str_eqb (id row) (id (this c))))
               (rows (sqlite (world c))).
Proof.
  destruct c as [t w]. unfold TaskDetail.handleDelete, try_catch.
  rewrite (bind_ok _ (run_destroyPermanently _)). cbn [this world].
  erewrite bind_ok by reflexivity. cbn [this].
  destruct (server_id t) as [| | sid];
    try (eexists; split; [reflexivity | split; reflexivity]).
  destruct (truthy_str sid);
    (eexists; split; [reflexivity | split; reflexivity]).
Qed.

End MissingRows.

(** X3.  Once the delete handler has run, the task is not in the table
    any more: [find] under its identifier throws 'Task not found', and a
    reload of the detail screen logs that error and keeps the adapter it
    had. *)
Theorem X3_a_deleted_task_is_not_found :
  forall c : Ctx,
    exists c',
      TaskDetail.handleDelete c = (Ok tt, c') /\
      ~ In (id (this c)) (stored_ids (world c')) /\
      Database.find (id (this c)) (world c')
        = (Throw (new_Error (js "Task not found")), world c') /\
      exists c'',
        TaskDetail.loadTask c' = (Ok tt, c'') /\
        this c'' = this c /\
        rows (sqlite (world c'')) = rows (sqlite (world c')) /\
        console (world c'') = console (world c') ++
          [(js "Error loading task:", new_Error (js "Task not found"))].
Proof.
  intros c. destruct (handleDelete_rows c) as (c' & Hrun & Hthis & Hrows).
  assert (Hgone : ~ In (id (this c)) (stored_ids (world c'))).
  { unfold stored_ids. rewrite Hrows. apply deleted_not_stored. }
  exists c'. split; [exact Hrun |]. split; [exact Hgone |].
  split; [now apply find_missing |].
  destruct c' as [t' w']. cbn [this world] in *. subst t'.
  unfold TaskDetail.loadTask, try_catch.
  erewrite bind_ok by reflexivity. cbn [this].
  unfold bind, lift. cbn [world this].
  rewrite (find_missing Hgone).
  eexists. split; [reflexivity |]. repeat split.
Qed.

(** X4.  A write through an adapter whose row is not in the table is lost
    without an error: [updateStatus], [markAsSyncing], [markAsSynced] and
    [resolveConflict] return normally and leave the table as it is, so a
    deleted task is never stored again.  The update of the detail screen
    does the same and still reports success, after its reload has logged
    that the task was not found. *)
Theorem X4_writes_to_a_missing_task_are_lost :
  forall c : Ctx,
    ~ In (id (this c)) (stored_ids (world c)) ->
    (forall newStatus,
        exists c', TaskAdapter.updateStatus newStatus c = (Ok tt, c') /\
                   rows (sqlite (world c')) = rows (sqlite (world c))) /\
    (exists c', TaskAdapter.markAsSyncing c = (Ok tt, c') /\
                rows (sqlite (world c')) = rows (sqlite (world c))) /\
    (forall serverId serverStatus,
        exists c', TaskAdapter.markAsSynced serverId serverStatus c = (Ok tt, c') /\
                   rows (sqlite (world c')) = rows (sqlite (world c))) /\
    (forall resolution finalStatus,
        exists c',
          TaskAdapter.resolveConflict resolution (val finalStatus) c = (Ok tt, c') /\
          rows (sqlite (world c')) = rows (sqlite (world c))) /\
    (forall form,
        truthy_str (trim (TaskDetail.f_title form)) = true ->
        exists c',
          TaskDetail.handleUpdate form c = (Ok true, c') /\
          rows (sqlite (world c')) = rows (sqlite (world c)) /\
          console (world c') = console (world c) ++
            [(js "Error loading task:", new_Error (js "Task not found"))]).
Proof.
  intros c Hgone. split; [| split; [| split; [| split]]].
  - intros newStatus. rewrite run_updateStatus. cbv zeta.
    eexists. split; [reflexivity |]. now apply stored_missing.
  - rewrite run_markAsSyncing.
    eexists. split; [reflexivity |]. now apply stored_missing.
  - intros serverId serverStatus. rewrite run_markAsSynced. cbv zeta.
    eexists. split; [reflexivity |]. now apply stored_missing.
  - intros resolution finalStatus. rewrite run_resolveConflict. cbv zeta.
    eexists. split; [reflexivity |]. now apply stored_missing.
  - intros form Htitle.
    destruct (run_edit_updater form c) as (t' & Hupd & Hid & _).
    pose proof (run_update Hupd) as Hwrite. cbn [this world] in Hwrite.
    set (w1 := stored (id t') (TaskAdapter.all_fields t') (world c)) in *.
    assert (Hrows : rows (sqlite w1) = rows (sqlite (world c))).
    { subst w1. rewrite Hid. now apply stored_missing. }
    assert (Hgone1 : ~ In (id t') (stored_ids w1)).
    { unfold stored_ids. rewrite Hrows, Hid. exact Hgone. }
    unfold TaskDetail.handleUpdate. rewrite Htitle. cbn [negb].
    unfold try_catch at 1. rewrite (bind_ok _ Hwrite).
    unfold TaskDetail.loadTask, try_catch.
    unfold bind at 1. unfold bind at 1. cbn [get_this gets this].
    unfold bind at 1. unfold lift at 1. cbn [world this].
    rewrite (find_missing Hgone1).
    eexists. split; [reflexivity |]. cbn [world]. split; [exact Hrows |].
    reflexivity.
Qed.

Lemma X4_writes_to_a_missing_task_are_lost_witness :
  let c := mkCtx fresh_task (world_with [sample_task] None offline_network) in
  ~ In (id (this c)) (stored_ids (world c)) /\
  exists c',
    TaskAdapter.updateStatus done c = (Ok tt, c') /\
    rows (sqlite (world c')) = [sample_task].
Proof.
  cbv zeta.
  assert (Hgone : ~ In (id fresh_task)
                       (stored_ids (world_with [sample_task] None offline_network))).
  { intros [H | []]. discriminate H. }
  split; [exact Hgone |].
  destruct (@X4_writes_to_a_missing_task_are_lost
              (mkCtx fresh_task (world_with [sample_task] None offline_network)) Hgone)
    as (H & _).
  destruct (H done) as (c' & H1 & H2). exists c'. split; [exact H1 | exact H2].
Defined.

(** ** What the edit screen stores *)

Section EditWrites.

Lemma edit_updater_fields form c :
  exists t',
    TaskDetail.edit_updater form c = (Ok tt, mkCtx t' (world c)) /\
    id t' = id (this c) /\
    title t' = trim (TaskDetail.f_title form) /\
    description t'
      = or_undefined truthy_str (val (trim (TaskDetail.f_description form))) /\
    status t' = TaskDetail.f_currentStatus form /\
    image_url t'
      = match TaskDetail.f_imageUris form with
        | _ :: _ => val (stringify (JArray (map JString (TaskDetail.f_imageUris form))))
        | [] => null
        end /\
    (location_lat t', location_lng t', location_address t')
      = match TaskDetail.chosen_location (TaskDetail.f_location form) with
        | val l => (val (lat l), val (lng l), val (address l))
        | _ => (undefined, undefined, undefined)
        end.
Proof.
  destruct c as [t w]. unfold TaskDetail.edit_updater, bind, assign, modify, lift,
    Date_now, get_this, gets. cbn [this world].
  match goal with
  | |- context [SyncStatus_eqb (sync_status ?x) synced] =>
      replace (sync_status x) with (sync_status t)
  end.
  2:{ destruct (TaskDetail.f_imageUris form),
        (TaskDetail.chosen_location (TaskDetail.f_location form)); reflexivity. }
  destruct (SyncStatus_eqb (sync_status t) synced);
    eexists; (split; [reflexivity |]);
    destruct (TaskDetail.f_imageUris form),
      (TaskDetail.chosen_location (TaskDetail.f_location form));
    repeat split.
Qed.

Lemma find_after_write i u w row0 :
  find (fun row => str_eqb (id row) i) (rows (sqlite w)) = Some row0 ->
  find (fun row => str_eqb (id row) i) (rows (sqlite (stored i u w)))
    = Some (SqliteDb.apply_updates u row0).
Proof.
  rewrite !find_rows_of, rows_of_stored.
  destruct (rows_of i w) as [| r l]; cbn; [discriminate |].
  now intros [= ->].
Qed.

(** The update of the detail screen for a task that is stored: the screen
    ends up holding the row as the write left it. *)
Lemma handleUpdate_run form c row0 :
  truthy_str (trim (TaskDetail.f_title form)) = true ->
  find (fun row => str_eqb (id row) (id (this c))) (rows (sqlite (world c)))
    = Some row0 ->
  forall t',
    TaskDetail.edit_updater form c = (Ok tt, mkCtx t' (world c)) ->
    id t' = id (this c) ->
    TaskDetail.handleUpdate form c =
    (Ok true,
     mkCtx (SqliteDb.apply_updates (TaskAdapter.all_fields t') row0)
       (stored (id (this c)) (TaskAdapter.all_fields t') (world c))).
Proof.
  intros Htitle Hfind t' Hupd Hid.
  pose proof (run_update Hupd) as Hwrite. cbn [this world] in Hwrite.
  rewrite Hid in Hwrite.
  unfold TaskDetail.handleUpdate. rewrite Htitle. cbn [negb].
  unfold try_catch at 1. rewrite (bind_ok _ Hwrite).
  unfold TaskDetail.loadTask, try_catch.
  unfold bind at 1. unfold bind at 1. cbn [get_this gets this].
  unfold bind at 1. unfold lift at 1. cbn [world this].
  unfold Database.find, bind, SqliteDb.getTask, gets.
  rewrite Hid, (find_after_write _ Hfind). reflexivity.
Qed.

End EditWrites.

(** X5.  The update of the detail screen, for a stored task and a title
    that is not blank, stores the trimmed title, the chosen status and the
    image list, and the screen reloads the row it wrote.  It cannot clear
    the description or the location: with a blank description, or with no
    location chosen, the column keeps the value it had, because a field
    that is [undefined] is not written.  An empty image list does clear
    the images, because it is written as [null]. *)
Theorem X5_an_edit_cannot_clear_description_or_location :
  forall (form : TaskDetail.EditForm) (c : Ctx) (row0 : TaskData),
    truthy_str (trim (TaskDetail.f_title form)) = true ->
    fst (SqliteDb.getTask (id (this c)) (world c)) = Ok (Some row0) ->
    exists c',
      TaskDetail.handleUpdate form c = (Ok true, c') /\
      fst (SqliteDb.getTask (id (this c)) (world c')) = Ok (Some (this c')) /\
      title (this c') = trim (TaskDetail.f_title form) /\
      status (this c') = TaskDetail.f_currentStatus form /\
      (trim (TaskDetail.f_description form) <> [] ->
       description (this c') = val (trim (TaskDetail.f_description form))) /\
      (trim (TaskDetail.f_description form) = [] ->
       description (this c') = description row0) /\
      (TaskDetail.chosen_location (TaskDetail.f_location form) = undefined ->
       location_lat (this c') = location_lat row0 /\
       location_lng (this c') = location_lng row0 /\
       location_address (this c') = location_address row0) /\
      (TaskDetail.f_imageUris form <> [] ->
       image_url (this c')
         = val (stringify (JArray (map JString (TaskDetail.f_imageUris form))))) /\
      (TaskDetail.f_imageUris form = [] -> image_url (this c') = null).
Proof.
  intros form c row0 Htitle Hget.
  assert (Hfind : find (fun row => str_eqb (id row) (id (this c)))
                    (rows (sqlite (world c))) = Some row0).
  { unfold SqliteDb.getTask, gets in Hget. cbn in Hget. now inversion Hget. }
  destruct (edit_updater_fields form c)
    as (t' & Hupd & Hid & Ht & Hd & Hs & Hi & Hl).
  exists (mkCtx (SqliteDb.apply_updates (TaskAdapter.all_fields t') row0)
            (stored (id (this c)) (TaskAdapter.all_fields t') (world c))).
  split; [now apply handleUpdate_run |].
  cbn [this world]. split.
  { unfold SqliteDb.getTask, gets. cbn [fst]. f_equal.
    now apply find_after_write. }
  cbn [SqliteDb.apply_updates TaskAdapter.all_fields title status description
         location_lat location_lng location_address image_url
         u_title u_status u_description u_location_lat u_location_lng
         u_location_address u_image_url SqliteDb.written].
  split; [exact Ht |]. split; [exact Hs |].
  rewrite Hd, Hi.
  assert (Hloc : TaskDetail.chosen_location (TaskDetail.f_location form) = undefined ->
                 location_lat t' = undefined /\ location_lng t' = undefined /\
                 location_address t' = undefined).
  { intros H. rewrite H in Hl. now inversion Hl. }
  split; [| split; [| split; [| split]]].
  - intros Hne. destruct (trim (TaskDetail.f_description form)); [congruence |].
    reflexivity.
  - intros ->. reflexivity.
  - intros H. destruct (Hloc H) as (-> & -> & ->). repeat split.
  - intros Hne. destruct (TaskDetail.f_imageUris form); [congruence |].
    reflexivity.
  - intros ->. reflexivity.
Qed.

Lemma X5_an_edit_cannot_clear_description_or_location_witness :
  let described := set_description (val (js "Check the roof")) synced_task in
  let c := mkCtx described (world_with [described] None offline_network) in
  truthy_str (trim (TaskDetail.f_title edit_form)) = true /\
  fst (SqliteDb.getTask (id (this c)) (world c)) = Ok (Some described) /\
  trim (TaskDetail.f_description edit_form) = [] /\
  exists c',
    TaskDetail.handleUpdate edit_form c = (Ok true, c') /\
    title (this c') = js "Audit 3, checked" /\
    description (this c') = val (js "Check the roof").
Proof.
  cbv zeta. split; [reflexivity |]. split; [reflexivity |]. split; [reflexivity |].
  destruct (@X5_an_edit_cannot_clear_description_or_location edit_form
              (mkCtx (set_description (val (js "Check the roof")) synced_task)
                 (world_with [set_description (val (js "Check the roof")) synced_task]
                    None offline_network))
              (set_description (val (js "Check the roof")) synced_task)
              eq_refl eq_refl)
    as (c' & H1 & _ & H3 & _ & _ & H6 & _).
  exists c'. split; [exact H1 |]. split; [exact H3 |]. exact (H6 eq_refl).
Defined.



(** ** The mock server *)

Section MockStore.

Lemma map_get_set_same k v m : MockApi.map_get k (MockApi.map_set k v m) = Some v.
Proof.
  unfold MockApi.map_get. induction m as [| kv m IH]; cbn.
  - now rewrite str_eqb_refl.
  - destruct (str_eqb (fst kv) k) eqn:E; cbn.
    + now rewrite str_eqb_refl.
    + now rewrite E.
Qed.

Lemma map_get_set_other j k v m :
  j <> k -> MockApi.map_get j (MockApi.map_set k v m) = MockApi.map_get j m.
Proof.
  intros Hne. unfold MockApi.map_get.
  assert (Hkj : str_eqb k j = false).
  { destruct (str_eqb k j) eqn:E; [| reflexivity].
    apply str_eqb_eq in E. congruence. }
  induction m as [| kv m IH]; cbn.
  - now rewrite Hkj.
  - destruct (str_eqb (fst kv) k) eqn:E; cbn.
    + apply str_eqb_eq in E. rewrite E, Hkj. reflexivity.
    + destruct (str_eqb (fst kv) j); [reflexivity | exact IH].
Qed.

Lemma map_get_delete_same k m : MockApi.map_get k (MockApi.map_delete k m) = None.
Proof.
  unfold MockApi.map_get, MockApi.map_delete.
  induction m as [| kv m IH]; cbn; [reflexivity |].
  destruct (str_eqb (fst kv) k) eqn:E; cbn; [exact IH |].
  now rewrite E.
Qed.

Lemma map_get_delete_other j k m :
  j <> k -> MockApi.map_get j (MockApi.map_delete k m) = MockApi.map_get j m.
Proof.
  intros Hne. unfold MockApi.map_get, MockApi.map_delete.
  induction m as [| kv m IH]; cbn; [reflexivity |].
  destruct (str_eqb (fst kv) k) eqn:E; cbn.
  - apply str_eqb_eq in E.
    destruct (str_eqb (fst kv) j) eqn:E2; [| exact IH].
    apply str_eqb_eq in E2. congruence.
  - destruct (str_eqb (fst kv) j); [reflexivity | exact IH].
Qed.




End MockStore.



(** X8.  [mockApi.updateTask] never throws and never changes the counter:
    it is an upsert.  Under an identifier the server does not know it
    stores a new task with the title, the description and the status of
    the request and without price, location, image or expiry, whatever
    the request holds; under a known identifier it keeps the identifier
    and the creation time of the stored task and replaces title,
    description and status.  In both cases the task returned is the one
    read back afterwards. *)
Theorem X8_mock_update_is_an_upsert :
  forall (sid : jsstring) (p : Payload) (w : World),
    exists t w1,
      MockApi.updateTask sid p w = (Ok t, w1) /\
      r_title t = p_title p /\
      r_description t = p_description p /\
      r_status t = p_status p /\
      r_updated_at t = clock w /\
      nextId (mock w1) = nextId (mock w) /\
      MockApi.getTask sid w1 = (Ok (Some t), w1) /\
      (forall j, j <> sid ->
                 fst (MockApi.getTask j w1) = fst (MockApi.getTask j w)) /\
      (fst (MockApi.getTask sid w) = Ok None ->
       r_id t = sid /\ r_created_at t = clock w /\
       r_price t = undefined /\ r_location t = undefined /\
       r_image_url t = undefined /\ r_expires_at t = undefined) /\
      (forall old,
          fst (MockApi.getTask sid w) = Ok (Some old) ->
          r_id t = r_id old /\ r_created_at t = r_created_at old /\
          (p_price p = undefined -> r_price t = r_price old) /\
          (p_location p = undefined -> r_location t = r_location old) /\
          (p_image_url p = undefined -> r_image_url t = r_image_url old) /\
          (p_expires_at p = undefined -> r_expires_at t = r_expires_at old)).
Proof.
  intros sid p w.
  unfold MockApi.updateTask, MockApi.getTask, bind, MockApi.called, modify, gets,
    Date_now, MockApi.store, ret.
  cbn [mock set_mock mockTasks nextId clock fst].
  destruct (MockApi.map_get sid (mockTasks (mock w))) as [old |] eqn:Hget.
  - do 2 eexists. split; [reflexivity |].
    cbn [r_title r_description r_status r_updated_at r_id r_created_at r_price
           r_location r_image_url r_expires_at mock set_mock mockTasks nextId].
    repeat (split; [reflexivity |]).
    split; [now rewrite map_get_set_same |].
    split; [intros j Hj; now rewrite map_get_set_other |].
    split; [discriminate |].
    intros old' [= <-]. repeat split; intros ->; reflexivity.
  - do 2 eexists. split; [reflexivity |].
    cbn [r_title r_description r_status r_updated_at r_id r_created_at r_price
           r_location r_image_url r_expires_at mock set_mock mockTasks nextId].
    repeat (split; [reflexivity |]).
    split; [now rewrite map_get_set_same |].
    split; [intros j Hj; now rewrite map_get_set_other |].
    split; [intros _; repeat split | discriminate].
Qed.

Lemma X8_mock_update_is_an_upsert_witness :
  let w := world_with [] None offline_network in
  fst (MockApi.getTask (js "srv_1") w) = Ok None /\
  exists t w1,
    MockApi.updateTask (js "srv_1") sample_payload w = (Ok t, w1) /\
    r_id t = js "srv_1" /\ r_price t = undefined.
Proof.
  cbv zeta. split; [reflexivity |].
  destruct (X8_mock_update_is_an_upsert (js "srv_1") sample_payload
              (world_with [] None offline_network))
    as (t & w1 & H1 & _ & _ & _ & _ & _ & _ & _ & H9 & _).
  destruct (H9 eq_refl) as (K1 & _ & K3 & _).
  exists t, w1. split; [exact H1 |]. split; [exact K1 | exact K3].
Defined.

(** X9.  [mockApi.deleteTask] under an identifier the server does not
    know throws 'Task not found' and leaves the stored tasks as they are;
    under a known identifier it returns normally, after which [getTask]
    under that identifier yields nothing and the tasks under the other
    identifiers are as before. *)
Theorem X9_mock_delete_needs_a_known_task :
  forall (sid : jsstring) (w : World),
    (fst (MockApi.getTask sid w) = Ok None ->
     exists w1,
       MockApi.deleteTask sid w = (Throw (new_Error (js "Task not found")), w1) /\
       mockTasks (mock w1) = mockTasks (mock w)) /\
    (forall old,
        fst (MockApi.getTask sid w) = Ok (Some old) ->
        exists w1,
          MockApi.deleteTask sid w = (Ok tt, w1) /\
          MockApi.getTask sid w1 = (Ok None, w1) /\
          forall j, j <> sid ->
                    fst (MockApi.getTask j w1) = fst (MockApi.getTask j w)).
Proof.
  intros sid w.
  unfold MockApi.deleteTask, MockApi.getTask, bind, MockApi.called, modify, gets.
  cbn [mock set_mock mockTasks nextId fst].
  destruct (MockApi.map_get sid (mockTasks (mock w))) as [old |] eqn:Hget.
  - split; [discriminate |]. intros old' _.
    eexists. split; [reflexivity |]. cbn [mock set_mock mockTasks].
    split; [now rewrite map_get_delete_same |].
    intros j Hj. now rewrite map_get_delete_other.
  - split; [| discriminate]. intros _.
    eexists. split; [reflexivity |]. reflexivity.
Qed.

Lemma X9_mock_delete_needs_a_known_task_witness :
  let w := world_with [] None offline_network in
  fst (MockApi.getTask (js "srv_1") w) = Ok None /\
  exists w1,
    MockApi.deleteTask (js "srv_1") w = (Throw (new_Error (js "Task not found")), w1).
Proof.
  cbv zeta. split; [reflexivity |].
  destruct (X9_mock_delete_needs_a_known_task (js "srv_1")
              (world_with [] None offline_network)) as (H & _).
  destruct (H eq_refl) as (w1 & H1 & _). exists w1. exact H1.
Defined.

(** ** Synchronisation against the mock server *)

Section ShippedSync.

Lemma shipped_createTaskOnServer_run c :
  exists m',
    SyncManager.createTaskOnServer shipped c =
    (Ok (Some (mkReply (js "task_" ++ MockApi.decimal (nextId (mock (world c))))
                 (status (this c)))),
     mkCtx (this c) (set_mock m' (world c))) /\
    mock_calls m' = mock_calls (mock (world c))
                    ++ [mock_createTask (SyncManager.payload_of (this c))].
Proof. destruct c as [t w]. eexists. split; reflexivity. Qed.

Lemma shipped_updateTaskOnServer_run c sid :
  server_id (this c) = val sid ->
  truthy_str sid = true ->
  exists m',
    SyncManager.updateTaskOnServer shipped c =
    (Ok (Some (status (this c))), mkCtx (this c) (set_mock m' (world c))) /\
    mock_calls m' = mock_calls (mock (world c))
                    ++ [mock_updateTask sid (SyncManager.payload_of (this c))].
Proof.
  destruct c as [t w]. cbn [this world]. intros Hsid Htruthy.
  unfold SyncManager.updateTaskOnServer, try_catch.
  unfold bind at 1. cbn [get_this gets this].
  rewrite Hsid. cbn [USE_MOCK_API shipped andb]. rewrite Htruthy.
  unfold bind, lift. cbn [this world].
  unfold MockApi.updateTask, bind, MockApi.called, modify, gets, Date_now,
    MockApi.store, ret.
  cbn [mock set_mock mockTasks].
  destruct (MockApi.map_get sid (mockTasks (mock w)));
    eexists; split; reflexivity.
Qed.

Lemma conflict_detected_same s t :
  status t = s -> SyncManager.conflict_detected s t = false.
Proof.
  intros <-. unfold SyncManager.conflict_detected.
  destruct (status t); reflexivity.
Qed.

Lemma shipped_syncTask_run c :
  exists m',
    mock_calls m' = mock_calls (mock (world c)) ++ [shipped_call c] /\
    let d := marked_synced (shipped_server_id c) (val (status (this c)))
               (clock (world c)) (set_sync_status syncing (this c)) in
    SyncManager.syncTask shipped c =
    (Ok tt,
     mkCtx d
       (stored (id (this c)) (TaskAdapter.fields_markAsSynced d)
          (set_mock m'
             (stored (id (this c)) TaskAdapter.fields_markAsSyncing (world c))))).
Proof.
  unfold SyncManager.syncTask, try_catch, SyncManager.syncTask_try.
  rewrite (bind_ok _ (run_markAsSyncing c)).
  erewrite bind_ok by reflexivity. cbn [this].
  unfold shipped_server_id, serverId_set.
  change (server_id (set_sync_status syncing (this c))) with (server_id (this c)).
  destruct (truthy truthy_str (server_id (this c))) eqn:Hsid; cbn [negb].
  - destruct (server_id (this c)) as [| | sid] eqn:Hs; try discriminate.
    cbn [truthy] in Hsid.
    destruct (@shipped_updateTaskOnServer_run
                (mkCtx (set_sync_status syncing (this c))
                   (stored (id (this c)) TaskAdapter.fields_markAsSyncing (world c)))
                sid Hs Hsid) as (m' & Hrun & Hcall).
    exists m'. split.
    { rewrite Hcall. unfold shipped_call. cbn [this world].
      rewrite Hs, Hsid. reflexivity. }
    cbv zeta.
    rewrite (bind_ok _ Hrun). erewrite bind_ok by reflexivity.
    cbn [this]. change (status (set_sync_status syncing (this c))) with (status (this c)).
    rewrite conflict_detected_same by reflexivity.
    change (server_id (set_sync_status syncing (this c))) with (server_id (this c)).
    rewrite run_markAsSynced. cbv zeta. cbn [this world].
    rewrite Hs. reflexivity.
  - destruct (shipped_createTaskOnServer_run
                (mkCtx (set_sync_status syncing (this c))
                   (stored (id (this c)) TaskAdapter.fields_markAsSyncing (world c))))
      as (m' & Hrun & Hcall).
    exists m'. split.
    { rewrite Hcall. unfold shipped_call. cbn [this world].
      destruct (server_id (this c)) as [| | sid]; try reflexivity.
      cbn [truthy] in Hsid. now rewrite Hsid. }
    cbv zeta.
    rewrite (bind_ok _ Hrun). cbn [reply_id reply_status this world].
    rewrite run_markAsSynced. cbv zeta. cbn [this world].
    reflexivity.
Qed.


Lemma shipped_server_id_truthy c : truthy truthy_str (shipped_server_id c) = true.
Proof.
  unfold shipped_server_id, serverId_set.
  destruct (truthy truthy_str (server_id (this c))) eqn:E; [exact E | reflexivity].
Qed.

End ShippedSync.

(** X10.  Against the mock server a sync attempt always succeeds and
    never finds a conflict: [syncTask] returns normally with the task
    synced, in the adapter and in its stored rows, synced at the time of
    the attempt, its status and its recorded conflict resolution untouched
    and the server status equal to the local status.  A task without a
    server identifier gets the one the mock server numbers next; a task
    with one keeps it.  Exactly one call reaches the mock server, a
    creation or an update accordingly; nothing goes to the network, to the
    console or to the queue. *)
Theorem X10_a_mock_sync_attempt_always_succeeds :
  forall c : Ctx,
    exists c',
      SyncManager.syncTask shipped c = (Ok tt, c') /\
      sync_status (this c') = synced /\
      status (this c') = status (this c) /\
      server_status (this c') = val (status (this c)) /\
      conflict_resolution (this c') = conflict_resolution (this c) /\
      synced_at (this c') = val (clock (world c)) /\
      (serverId_set (this c) = true -> server_id (this c') = server_id (this c)) /\
      (serverId_set (this c) = false ->
       server_id (this c')
         = val (js "task_" ++ MockApi.decimal (nextId (mock (world c))))) /\
      Forall (fun row => sync_status row = synced /\
                         server_id row = server_id (this c') /\
                         server_status row = val (status (this c)))
             (rows_of (id (this c)) (world c')) /\
      mock_calls (mock (world c'))
        = mock_calls (mock (world c)) ++ [shipped_call c] /\
      network (world c') = network (world c) /\
      console (world c') = console (world c) /\
      async_storage (world c') = async_storage (world c).
Proof.
  intros c. destruct (shipped_syncTask_run c) as (m' & Hcall & Hrun).
  cbv zeta in Hrun. eexists. split; [exact Hrun |]. cbn [this world].
  pose proof (shipped_server_id_truthy c) as Hid.
  unfold marked_synced. rewrite Hid. cbn [truthy always_truthy].
  cbn [sync_status status server_status conflict_resolution synced_at server_id
         set_server_status set_server_id set_synced_at set_sync_status].
  repeat (split; [reflexivity |]).
  split; [| split; [| split]].
  - intros H. unfold shipped_server_id. now rewrite H.
  - intros H. unfold shipped_server_id. now rewrite H.
  - rewrite rows_of_stored. apply Forall_forall. intros row Hin.
    apply in_map_iff in Hin. destruct Hin as (r0 & <- & _).
    cbn [SqliteDb.apply_updates TaskAdapter.fields_markAsSynced sync_status
           server_id server_status u_sync_status u_server_id u_server_status
           SqliteDb.written SqliteDb.written_or_null or_null
           set_server_status set_server_id set_synced_at set_sync_status].
    unfold shipped_server_id in *.
    destruct (serverId_set (this c)).
    + destruct (server_id (this c)) as [| | sid]; try discriminate.
      cbn [truthy] in Hid. cbn [SqliteDb.written_or_null or_null].
      rewrite Hid. repeat split.
    + repeat split.
  - rewrite stored_mock. cbn [mock set_mock]. split; [exact Hcall |].
    repeat split.
Qed.

Lemma X10_a_mock_sync_attempt_always_succeeds_witness :
  let c := mkCtx fresh_task (world_with [fresh_task] None offline_network) in
  serverId_set (this c) = false /\
  exists c',
    SyncManager.syncTask shipped c = (Ok tt, c') /\
    sync_status (this c') = synced /\
    server_id (this c') = val (js "task_1").
Proof.
  cbv zeta. split; [reflexivity |].
  destruct (X10_a_mock_sync_attempt_always_succeeds
              (mkCtx fresh_task (world_with [fresh_task] None offline_network)))
    as (c' & H1 & H2 & _ & _ & _ & _ & _ & H8 & _).
  exists c'. split; [exact H1 |]. split; [exact H2 | exact (H8 eq_refl)].
Defined.

Section ShippedPass.

Lemma Forall2_compose A (P Q R : A -> A -> Prop) l1 :
  (forall a b c, P a b -> Q b c -> R a c) ->
  forall l2 l3, Forall2 P l1 l2 -> Forall2 Q l2 l3 -> Forall2 R l1 l3.
Proof.
  intros HR. induction l1 as [| a l1 IH]; intros l2 l3 H12 H23.
  - inversion H12; subst. inversion H23; subst. constructor.
  - inversion H12; subst. inversion H23; subst. constructor; eauto.
Qed.

Lemma Forall2_same A (P : A -> A -> Prop) l :
  (forall a, P a a) -> Forall2 P l l.
Proof. intros H. induction l; constructor; auto. Qed.

Lemma needs_sync_not_synced t :
  SyncManager.needs_sync t = negb (SyncStatus_eqb (sync_status t) synced).
Proof. unfold SyncManager.needs_sync. destruct (sync_status t); reflexivity. Qed.

(** The rows after two writes under [i] that leave title and status alone
    and end by marking the rows synced. *)
Lemma written_twice_synced i u1 u2 l :
  u_title u1 = None -> u_status u1 = None ->
  u_title u2 = None -> u_status u2 = None -> u_sync_status u2 = Some synced ->
  Forall2 (fun r r' => id r' = id r /\ title r' = title r /\ status r' = status r /\
                       (sync_status r = synced \/ id r = i -> sync_status r' = synced))
          l (updated_rows i u2 (updated_rows i u1 l)).
Proof.
  intros H1 H2 H3 H4 H5. unfold updated_rows.
  induction l as [| r l IH]; cbn [map]; constructor; [| exact IH].
  destruct (str_eqb (id r) i) eqn:E.
  - change (id (SqliteDb.apply_updates u1 r)) with (id r). rewrite E.
    cbn [SqliteDb.apply_updates id title status sync_status].
    rewrite H1, H2, H3, H4, H5. cbn [SqliteDb.written]. repeat split.
  - rewrite E. repeat split. intros [H | H]; [exact H |].
    subst i. now rewrite str_eqb_refl in E.
Qed.

Lemma shipped_sync_step w task :
  SyncManager.needs_sync task = true ->
  let w' := sync_step shipped w task in
  Forall2 (fun r r' => id r' = id r /\ title r' = title r /\ status r' = status r /\
                       (sync_status r = synced \/ id r = id task ->
                        sync_status r' = synced))
          (rows (sqlite w)) (rows (sqlite w')) /\
  network w' = network w /\ console w' = console w /\
  async_storage w' = async_storage w /\
  List.length (mock_calls (mock w')) = S (List.length (mock_calls (mock w))).
Proof.
  intros Hneeds. cbv zeta. unfold sync_step. rewrite Hneeds.
  unfold with_task, final_state.
  destruct (shipped_syncTask_run (mkCtx task w)) as (m' & Hcall & Hrun).
  cbv zeta in Hrun. rewrite Hrun. cbn [snd world this] in *.
  split; [| split; [| split; [| split]]]; try reflexivity.
  - rewrite stored_rows. cbn [sqlite set_mock]. rewrite stored_rows.
    now apply written_twice_synced.
  - rewrite stored_mock. cbn [mock set_mock]. rewrite Hcall, length_app.
    cbn [List.length]. lia.
Qed.

Lemma shipped_sync_loop tasks :
  forall w,
    let w' := fold_left (sync_step shipped) tasks w in
    Forall2 (synced_so_far tasks) (rows (sqlite w)) (rows (sqlite w')) /\
    network w' = network w /\ console w' = console w /\
    async_storage w' = async_storage w /\
    List.length (mock_calls (mock w'))
      = (List.length (mock_calls (mock w))
         + List.length (filter SyncManager.needs_sync tasks))%nat.
Proof.
  induction tasks as [| task rest IH]; intros w; cbv zeta.
  - cbn [fold_left filter List.length]. split; [| repeat split; lia].
    apply Forall2_same. intros r. unfold synced_so_far. cbn [filter map In].
    repeat split. intros [H | []]. exact H.
  - cbn [fold_left]. specialize (IH (sync_step shipped w task)). cbv zeta in IH.
    destruct IH as (Hrows & Hn & Hc & Hq & Hm).
    destruct (SyncManager.needs_sync task) eqn:Hneeds.
    + destruct (shipped_sync_step w Hneeds) as (Hrows1 & Hn1 & Hc1 & Hq1 & Hm1).
      split; [| split; [| split; [| split]]]; try congruence.
      * eapply Forall2_compose; [| exact Hrows1 | exact Hrows].
        intros a b c (A1 & A2 & A3 & A4) (B1 & B2 & B3 & B4).
        unfold synced_so_far. cbn [filter]. rewrite Hneeds. cbn [map In].
        repeat split; try congruence.
        intros [H | [H | H]].
        -- apply B4. left. apply A4. now left.
        -- apply B4. left. apply A4. now right.
        -- apply B4. right. now rewrite A1.
      * rewrite Hm, Hm1. cbn [filter]. rewrite Hneeds. cbn [List.length]. lia.
    + unfold sync_step in *. rewrite Hneeds in *.
      split; [| split; [| split; [| split]]]; try assumption.
      * eapply Forall2_impl; [| exact Hrows].
        intros a b (A1 & A2 & A3 & A4). unfold synced_so_far.
        cbn [filter]. rewrite Hneeds. repeat split; assumption.
      * rewrite Hm. cbn [filter]. now rewrite Hneeds.
Qed.

Lemma filter_length_perm A (f : A -> bool) l l' :
  Permutation l l' -> List.length (filter f l) = List.length (filter f l').
Proof.
  induction 1 as [| x l l' _ IH | x y l | l l' l'' _ IH1 _ IH2]; cbn.
  - reflexivity.
  - destruct (f x); cbn; now rewrite IH.
  - destruct (f x), (f y); reflexivity.
  - congruence.
Qed.

Lemma shipped_drain_run w :
  isOnline (manager w) = true ->
  SyncManager.processSyncQueue shipped w = (Ok tt, set_async_storage None w).
Proof.
  intros Hon. unfold SyncManager.processSyncQueue. unfold bind at 1. cbn [gets].
  rewrite Hon. cbn [negb]. unfold try_catch. unfold bind at 1. cbn [gets].
  destruct (async_storage w) as [q |] eqn:Hq.
  - unfold bind. rewrite drain_loop_shipped. reflexivity.
  - destruct w. cbn in Hq. subst. reflexivity.
Qed.

Lemma synced_so_far_all done l l' :
  Forall2 (synced_so_far done) l l' ->
  (forall r, In r l -> In r done) ->
  Forall2 same_task_synced l l'.
Proof.
  induction 1 as [| r r' l l' (H1 & H2 & H3 & H4) _ IH]; intros Hall;
    constructor.
  - repeat split; try assumption. apply H4.
    destruct (sync_status r) eqn:E; [right | right | now left];
      apply in_map, filter_In; (split; [apply Hall; now left |]);
      unfold SyncManager.needs_sync; rewrite E; reflexivity.
  - apply IH. intros x Hx. apply Hall. now right.
Qed.


Lemma shipped_pass :
  forall w : World,
    isOnline (manager w) = true ->
    isSyncing (manager w) = false ->
    exists w',
      SyncManager.syncAll shipped w = (Ok tt, w') /\
      Forall2 same_task_synced (rows (sqlite w)) (rows (sqlite w')) /\
      async_storage w' = None /\
      List.length (mock_calls (mock w'))
        = (List.length (mock_calls (mock w))
           + List.length (filter SyncManager.needs_sync (rows (sqlite w))))%nat /\
      network w' = network w /\
      console w' = console w /\
      isSyncing (manager w') = false /\
      isOnline (manager w') = true.
Proof.
  intros w Hon Hidle. eexists. split; [now apply syncAll_run |].
  set (tasks := SqliteDb.order_by_updated_at_desc (rows (sqlite w))).
  set (w1 := fold_left (sync_step shipped) tasks (sync_started w)).
  destruct (shipped_sync_loop tasks (sync_started w)) as (Hrows & Hn & Hc & Hq & Hm).
  fold w1 in Hrows, Hn, Hc, Hq, Hm.
  assert (Hon1 : isOnline (manager w1) = true).
  { unfold w1. rewrite sync_loop_manager, sync_started_manager. exact Hon. }
  rewrite (shipped_drain_run Hon1). cbn [final_state snd].
  assert (Hperm : Permutation tasks (rows (sqlite w))) by apply order_by_perm.
  split; [| split; [| split; [| split; [| split; [| split]]]]].
  - change (rows (sqlite (sync_finished (set_async_storage None w1))))
      with (rows (sqlite w1)).
    change (rows (sqlite (sync_started w))) with (rows (sqlite w)) in Hrows.
    apply (synced_so_far_all Hrows).
    intros r Hr. eapply Permutation_in; [symmetry; exact Hperm | exact Hr].
  - reflexivity.
  - change (mock (sync_finished (set_async_storage None w1))) with (mock w1).
    rewrite Hm. change (mock (sync_started w)) with (mock w).
    f_equal. now apply filter_length_perm.
  - change (network (sync_finished (set_async_storage None w1))) with (network w1).
    exact Hn.
  - change (console (sync_finished (set_async_storage None w1))) with (console w1).
    exact Hc.
  - reflexivity.
  - rewrite sync_finished_manager. exact Hon1.
Qed.

End ShippedPass.

(** X11.  Against the mock server a sync pass started online and idle
    leaves nothing to be sent: it returns normally, the table holds the
    same tasks in the same order with their titles and statuses, every one
    of them synced, and the queue is removed.  The mock server receives
    one call for each task that was pending or syncing; nothing goes to
    the network or to the console. *)
Theorem X11_a_mock_sync_pass_leaves_every_task_synced :
  forall w : World,
    isOnline (manager w) = true ->
    isSyncing (manager w) = false ->
    exists w',
      SyncManager.syncAll shipped w = (Ok tt, w') /\
      Forall2 same_task_synced (rows (sqlite w)) (rows (sqlite w')) /\
      async_storage w' = None /\
      List.length (mock_calls (mock w'))
        = (List.length (mock_calls (mock w))
           + List.length (filter SyncManager.needs_sync (rows (sqlite w))))%nat /\
      network w' = network w /\
      console w' = console w /\
      isSyncing (manager w') = false.
Proof.
  intros w Hon Hidle.
  destruct (shipped_pass Hon Hidle) as (w' & H1 & H2 & H3 & H4 & H5 & H6 & H7 & _).
  exists w'. repeat split; assumption.
Qed.

Lemma X11_a_mock_sync_pass_leaves_every_task_synced_witness :
  let w := world_with [fresh_task; sample_task; synced_task] None offline_network in
  isOnline (manager w) = true /\ isSyncing (manager w) = false /\
  exists w',
    SyncManager.syncAll shipped w = (Ok tt, w') /\
    Forall2 same_task_synced (rows (sqlite w)) (rows (sqlite w')) /\
    List.length (mock_calls (mock w')) = 2%nat.
Proof.
  cbv zeta. split; [reflexivity |]. split; [reflexivity |].
  destruct (@X11_a_mock_sync_pass_leaves_every_task_synced
              (world_with [fresh_task; sample_task; synced_task] None offline_network)
              eq_refl eq_refl) as (w' & H1 & H2 & _ & H4 & _).
  exists w'. split; [exact H1 |]. split; [exact H2 | exact H4].
Defined.

(** X16.  When the connection returns while no pass is running, the
    listener of the network state starts a sync pass by itself; against
    the mock server that pass leaves every task of the table synced and
    the queue removed, so that what was edited offline is sent without
    any action of the user.  The manager ends online and idle. *)
Theorem X16_offline_changes_are_sent_when_the_connection_returns :
  forall w : World,
    isOnline (manager w) = false ->
    isSyncing (manager w) = false ->
    exists w',
      SyncManager.on_network_event shipped true w = (Ok tt, w') /\
      Forall2 same_task_synced (rows (sqlite w)) (rows (sqlite w')) /\
      async_storage w' = None /\
      List.length (mock_calls (mock w'))
        = (List.length (mock_calls (mock w))
           + List.length (filter SyncManager.needs_sync (rows (sqlite w))))%nat /\
      isOnline (manager w') = true /\
      isSyncing (manager w') = false.
Proof.
  intros w Hoff Hidle. unfold SyncManager.on_network_event.
  erewrite bind_ok by reflexivity. rewrite Hoff. cbn [negb andb].
  erewrite bind_ok by reflexivity. erewrite bind_ok by reflexivity.
  match goal with |- context [SyncManager.syncAll shipped ?w1] => set (w1' := w1) end.
  destruct (@shipped_pass w1') as (w' & Hrun & Hrows & Hq & Hm & _ & _ & Hs & Ho);
    [reflexivity | exact Hidle |].
  exists w'. repeat split; assumption.
Qed.

Lemma X16_offline_changes_are_sent_when_the_connection_returns_witness :
  isOnline (manager offline_world) = false /\
  isSyncing (manager offline_world) = false /\
  exists w',
    SyncManager.on_network_event shipped true offline_world = (Ok tt, w') /\
    Forall2 same_task_synced (rows (sqlite offline_world)) (rows (sqlite w')) /\
    isOnline (manager w') = true.
Proof.
  split; [reflexivity |]. split; [reflexivity |].
  destruct (@X16_offline_changes_are_sent_when_the_connection_returns
              offline_world eq_refl eq_refl) as (w' & H1 & H2 & _ & _ & H5 & _).
  exists w'. split; [exact H1 |]. split; [exact H2 | exact H5].
Defined.

Section Connectivity.

Variable cfg : Config.

Lemma syncAll_returns w :
  exists w',
    SyncManager.syncAll cfg w = (Ok tt, w') /\
    (isOnline (manager w) = false \/ isSyncing (manager w) = true -> w' = w).
Proof.
  destruct (isOnline (manager w)) eqn:Hon, (isSyncing (manager w)) eqn:Hs.
  - exists w. split; [apply syncAll_guard; now left | reflexivity].
  - eexists. split; [now apply syncAll_run |].
    intros [H | H]; discriminate.
  - exists w. split; [apply syncAll_guard; now left | reflexivity].
  - exists w. split; [apply syncAll_guard; now right | reflexivity].
Qed.

End Connectivity.

(** X17.  Only the change from offline to online starts a pass.  An event
    that reports no connection, or a connection while the manager was
    already online, calls the listeners once and changes nothing but the
    online flag: the table, the queue, the mock server, the network and
    the console are untouched.  After an event that reports no connection
    a sync pass is a no-op, whoever starts it. *)
Theorem X17_only_going_online_starts_a_pass :
  forall (cfg : Config) (connected : bool) (w : World),
    connected = false \/ isOnline (manager w) = true ->
    exists w',
      SyncManager.on_network_event cfg connected w = (Ok tt, w') /\
      manager w' = mkManager connected (isSyncing (manager w))
                     (S (listener_rounds (manager w))) /\
      sqlite w' = sqlite w /\ async_storage w' = async_storage w /\
      mock w' = mock w /\ network w' = network w /\ console w' = console w /\
      (connected = false -> SyncManager.syncAll cfg w' = (Ok tt, w')).
Proof.
  intros cfg connected w Hcase. unfold SyncManager.on_network_event.
  erewrite bind_ok by reflexivity.
  erewrite bind_ok by reflexivity. erewrite bind_ok by reflexivity.
  assert (Hno : negb (isOnline (manager w)) && connected = false).
  { destruct Hcase as [-> | ->]; [apply andb_false_r | reflexivity]. }
  rewrite Hno. eexists. split; [reflexivity |].
  repeat (split; [reflexivity |]).
  intros ->. apply syncAll_guard. now right.
Qed.

Lemma X17_only_going_online_starts_a_pass_witness :
  let w := world_with [fresh_task] None done_server in
  exists w',
    SyncManager.on_network_event real_server false w = (Ok tt, w') /\
    isOnline (manager w') = false /\
    sent (network w') = [] /\
    SyncManager.syncAll real_server w' = (Ok tt, w').
Proof.
  cbv zeta.
  destruct (@X17_only_going_online_starts_a_pass real_server false
              (world_with [fresh_task] None done_server) (or_introl eq_refl))
    as (w' & H1 & H2 & _ & _ & _ & H6 & _ & H8).
  exists w'. split; [exact H1 |]. split; [now rewrite H2 |].
  split; [now rewrite H6 | exact (H8 eq_refl)].
Defined.

(** X18.  [syncAll] never throws, in either configuration and whatever
    the network does.  Therefore the background task always returns
    NewData and never Failed, also when the manager is offline or busy
    and the pass did nothing, having logged that the sync started and
    completed; and the pull-to-refresh handler of the task list always
    ends with [isRefreshing] false. *)
Theorem X18_a_sync_pass_never_throws :
  forall (cfg : Config) (w : World),
    exists w',
      SyncManager.syncAll cfg w = (Ok tt, w') /\
      (isOnline (manager w) = false \/ isSyncing (manager w) = true -> w' = w) /\
      (forall log,
          BackgroundSync.task cfg (w, log)
          = (Ok BackgroundSync.NewData,
             (w', log ++ [js "Background sync started";
                          js "Background sync completed"]))) /\
      (forall isRefreshing,
          TaskList.handleRefresh cfg (w, isRefreshing) = (Ok tt, (w', false))).
Proof.
  intros cfg w. destruct (syncAll_returns cfg w) as (w' & Hrun & Hsame).
  exists w'. split; [exact Hrun |]. split; [exact Hsame |]. split.
  - intros log. unfold BackgroundSync.task, try_catch, bind, BackgroundSync.console_log,
      in_world, modify. cbn [fst snd]. rewrite Hrun. cbn [fst snd ret].
    now rewrite <- app_assoc.
  - intros b. unfold TaskList.handleRefresh, bind, set_local, in_world, modify.
    cbn [fst snd]. rewrite Hrun. reflexivity.
Qed.

Lemma X18_a_sync_pass_never_throws_witness :
  isSyncing (manager busy_world) = true /\
  BackgroundSync.task shipped (busy_world, [])
  = (Ok BackgroundSync.NewData,
     (busy_world, [js "Background sync started"; js "Background sync completed"])).
Proof.
  split; [reflexivity |].
  destruct (X18_a_sync_pass_never_throws shipped busy_world)
    as (w' & _ & H2 & H3 & _).
  rewrite (H3 []). now rewrite (H2 (or_intror eq_refl)).
Defined.

(** ** Synchronisation against the real server *)

Section RealServer.

Lemma fetch_run req w :
  SyncManager.fetch req w =
  (match respond (network w) (sent (network w)) req with
   | Rejected e => Throw e
   | Resolved r => Ok r
   end,
   set_network (mkNetwork (respond (network w)) (sent (network w) ++ [req])) w).
Proof.
  unfold SyncManager.fetch.
  destruct (respond (network w) (sent (network w)) req); reflexivity.
Qed.

(** A creation request that fails on the network. *)
Lemma create_offline c e :
  respond (network (world c)) (sent (network (world c))) (post_request (this c))
    = Rejected e ->
  SyncManager.network_failure e = true ->
  SyncManager.createTaskOnServer real_server c =
  (Ok None,
   mkCtx (this c)
     (set_network (mkNetwork (respond (network (world c)))
                     (sent (network (world c)) ++ [post_request (this c)]))
        (world c))).
Proof.
  destruct c as [t w]. cbn [this world]. intros Hresp Hfail.
  unfold SyncManager.createTaskOnServer, try_catch.
  unfold bind at 1. cbn [get_this gets this USE_MOCK_API real_server].
  unfold bind at 1. unfold lift at 1. cbn [world this].
  rewrite fetch_run. fold (post_request t). rewrite Hresp, Hfail. reflexivity.
Qed.

(** An update request that fails on the network. *)
Lemma update_offline c e :
  respond (network (world c)) (sent (network (world c))) (put_request (this c))
    = Rejected e ->
  SyncManager.network_failure e = true ->
  SyncManager.updateTaskOnServer real_server c =
  (Ok None,
   mkCtx (this c)
     (set_network (mkNetwork (respond (network (world c)))
                     (sent (network (world c)) ++ [put_request (this c)]))
        (world c))).
Proof.
  destruct c as [t w]. cbn [this world]. intros Hresp Hfail.
  assert (Hput : SyncManager.put_task t (mkCtx t w) =
                 (Throw e,
                  mkCtx t (set_network
                             (mkNetwork (respond (network w))
                                (sent (network w) ++ [put_request t])) w))).
  { unfold SyncManager.put_task. unfold bind at 1. unfold lift at 1.
    cbn [world this]. rewrite fetch_run. fold (put_request t).
    rewrite Hresp. reflexivity. }
  unfold SyncManager.updateTaskOnServer, try_catch.
  unfold bind at 1. cbn [get_this gets this USE_MOCK_API real_server andb].
  destruct (server_id t); rewrite Hput, Hfail; reflexivity.
Qed.

End RealServer.

(** X12.  A sync attempt whose requests fail on the network ("Network
    request failed", "Failed to fetch") is not an error: [syncTask]
    returns normally, logs nothing and leaves the task marked syncing, in
    the adapter and in its stored rows; the task is not set back to
    pending_sync, and the next pass takes it up because it takes the
    tasks that are syncing too.  For a task without a server identifier
    one creation request was sent; for a task with one, the update request
    and then a creation request. *)
Theorem X12_a_network_failure_leaves_the_task_syncing :
  forall (c : Ctx),
    (forall e,
        serverId_set (this c) = false ->
        answer (world c) [] (post_request (this c)) = Rejected e ->
        SyncManager.network_failure e = true ->
        exists c',
          SyncManager.syncTask real_server c = (Ok tt, c') /\
          this c' = set_sync_status syncing (this c) /\
          Forall (fun row => sync_status row = syncing)
                 (rows_of (id (this c)) (world c')) /\
          SyncManager.needs_sync (this c') = true /\
          console (world c') = console (world c) /\
          sent (network (world c'))
            = sent (network (world c)) ++ [post_request (this c)]) /\
    (forall e1 e2,
        serverId_set (this c) = true ->
        answer (world c) [] (put_request (this c)) = Rejected e1 ->
        SyncManager.network_failure e1 = true ->
        answer (world c) [put_request (this c)] (post_request (this c))
          = Rejected e2 ->
        SyncManager.network_failure e2 = true ->
        exists c',
          SyncManager.syncTask real_server c = (Ok tt, c') /\
          this c' = set_sync_status syncing (this c) /\
          Forall (fun row => sync_status row = syncing)
                 (rows_of (id (this c)) (world c')) /\
          SyncManager.needs_sync (this c') = true /\
          console (world c') = console (world c) /\
          sent (network (world c'))
            = sent (network (world c))
              ++ [put_request (this c); post_request (this c)]).
Proof.
  intros c.
  assert (Hrows : forall w',
    sqlite w' = sqlite (stored (id (this c)) TaskAdapter.fields_markAsSyncing (world c)) ->
    Forall (fun row => sync_status row = syncing) (rows_of (id (this c)) w')).
  { intros w' Hw'. unfold rows_of. rewrite Hw'.
    fold (rows_of (id (this c))
            (stored (id (this c)) TaskAdapter.fields_markAsSyncing (world c))).
    rewrite rows_of_stored. apply Forall_forall. intros row Hin.
    apply in_map_iff in Hin. destruct Hin as (r0 & <- & _). reflexivity. }
  set (c1 := mkCtx (set_sync_status syncing (this c))
               (stored (id (this c)) TaskAdapter.fields_markAsSyncing (world c))).
  split.
  - intros e Hid Hresp Hfail. unfold answer in Hresp. rewrite app_nil_r in Hresp.
    pose proof (@create_offline c1 e Hresp Hfail) as Hcreate.
    unfold SyncManager.syncTask, try_catch, SyncManager.syncTask_try.
    rewrite (bind_ok _ (run_markAsSyncing c)). fold c1.
    erewrite bind_ok by reflexivity. cbn [this c1].
    change (server_id (set_sync_status syncing (this c))) with (server_id (this c)).
    unfold serverId_set in Hid. rewrite Hid. cbn [negb].
    rewrite (bind_ok _ Hcreate).
    eexists. split; [reflexivity |]. cbn [this world c1].
    split; [reflexivity |]. split; [now apply Hrows |].
    repeat split.
  - intros e1 e2 Hid Hput Hfail1 Hpost Hfail2. unfold answer in Hput, Hpost.
    rewrite app_nil_r in Hput.
    pose proof (@update_offline c1 e1 Hput Hfail1) as Hupdate.
    set (c2 := mkCtx (this c1)
                 (set_network (mkNetwork (respond (network (world c1)))
                                 (sent (network (world c1)) ++ [put_request (this c1)]))
                    (world c1))) in *.
    pose proof (@create_offline c2 e2 Hpost Hfail2) as Hcreate.
    unfold SyncManager.syncTask, try_catch, SyncManager.syncTask_try.
    rewrite (bind_ok _ (run_markAsSyncing c)). fold c1.
    erewrite bind_ok by reflexivity. cbn [this c1].
    change (server_id (set_sync_status syncing (this c))) with (server_id (this c)).
    unfold serverId_set in Hid. rewrite Hid. cbn [negb].
    rewrite (bind_ok _ Hupdate). fold c2.
    rewrite (bind_ok _ Hcreate).
    eexists. split; [reflexivity |]. cbn [this world c1 c2].
    split; [reflexivity |]. split; [now apply Hrows |].
    split; [reflexivity |]. split; [reflexivity |].
    cbn [network set_network sent]. rewrite stored_network.
    now rewrite <- app_assoc.
Qed.

Lemma X12_a_network_failure_leaves_the_task_syncing_witness :
  let c := mkCtx fresh_task (world_with [fresh_task] None offline_network) in
  let e := mkError (js "TypeError") (js "Network request failed") in
  serverId_set (this c) = false /\
  answer (world c) [] (post_request (this c)) = Rejected e /\
  SyncManager.network_failure e = true /\
  exists c',
    SyncManager.syncTask real_server c = (Ok tt, c') /\
    sync_status (this c') = syncing /\
    console (world c') = [].
Proof.
  cbv zeta. split; [reflexivity |]. split; [reflexivity |]. split; [reflexivity |].
  destruct (X12_a_network_failure_leaves_the_task_syncing
              (mkCtx fresh_task (world_with [fresh_task] None offline_network)))
    as (H & _).
  destruct (H (mkError (js "TypeError") (js "Network request failed"))
              eq_refl eq_refl eq_refl) as (c' & H1 & H2 & _ & _ & H5 & _).
  exists c'. split; [exact H1 |]. split; [now rewrite H2 | exact H5].
Defined.

Section RealServerReplies.

(** A creation request that the server answers. *)
Lemma create_answered c r reply :
  respond (network (world c)) (sent (network (world c))) (post_request (this c))
    = Resolved r ->
  ok r = true ->
  json r = Ok reply ->
  SyncManager.createTaskOnServer real_server c =
  (Ok (Some reply),
   mkCtx (this c)
     (set_network (mkNetwork (respond (network (world c)))
                     (sent (network (world c)) ++ [post_request (this c)]))
        (world c))).
Proof.
  destruct c as [t w]. cbn [this world]. intros Hresp Hok Hjson.
  unfold SyncManager.createTaskOnServer, try_catch.
  unfold bind at 1. cbn [get_this gets this USE_MOCK_API real_server].
  unfold bind at 1. unfold lift at 1. cbn [world this].
  rewrite fetch_run. fold (post_request t). rewrite Hresp, Hok. cbn [negb].
  unfold bind, lift, SyncManager.response_json. cbn [world this].
  rewrite Hjson. reflexivity.
Qed.

(** An update request that the server answers. *)
Lemma update_answered c r reply :
  respond (network (world c)) (sent (network (world c))) (put_request (this c))
    = Resolved r ->
  ok r = true ->
  json r = Ok reply ->
  SyncManager.updateTaskOnServer real_server c =
  (Ok (Some (reply_status reply)),
   mkCtx (this c)
     (set_network (mkNetwork (respond (network (world c)))
                     (sent (network (world c)) ++ [put_request (this c)]))
        (world c))).
Proof.
  destruct c as [t w]. cbn [this world]. intros Hresp Hok Hjson.
  assert (Hput : SyncManager.put_task t (mkCtx t w) =
                 (Ok (Some (reply_status reply)),
                  mkCtx t (set_network
                             (mkNetwork (respond (network w))
                                (sent (network w) ++ [put_request t])) w))).
  { unfold SyncManager.put_task. unfold bind at 1. unfold lift at 1.
    cbn [world this]. rewrite fetch_run. fold (put_request t).
    rewrite Hresp, Hok. cbn [negb].
    unfold bind, lift, SyncManager.response_json. cbn [world this].
    rewrite Hjson. reflexivity. }
  unfold SyncManager.updateTaskOnServer, try_catch.
  unfold bind at 1. cbn [get_this gets this USE_MOCK_API real_server andb].
  destruct (server_id t); rewrite Hput; reflexivity.
Qed.

End RealServerReplies.

(** X13.  When the update request of a task that has a server identifier
    fails on the network and the creation request that follows is
    answered with a non-empty identifier, the task is created again: it is
    marked synced under the identifier of the new record, which replaces
    the one it had, with the status of the reply as server status.  Both
    requests were sent and nothing was logged. *)
Theorem X13_a_failed_update_is_followed_by_a_creation :
  forall (c : Ctx) (e : JsError) (r : HttpResponse) (reply : ServerReply),
    serverId_set (this c) = true ->
    answer (world c) [] (put_request (this c)) = Rejected e ->
    SyncManager.network_failure e = true ->
    answer (world c) [put_request (this c)] (post_request (this c)) = Resolved r ->
    ok r = true ->
    json r = Ok reply ->
    reply_id reply <> [] ->
    exists c',
      SyncManager.syncTask real_server c = (Ok tt, c') /\
      sync_status (this c') = synced /\
      server_id (this c') = val (reply_id reply) /\
      server_status (this c') = val (reply_status reply) /\
      Forall (fun row => sync_status row = synced /\
                         server_id row = val (reply_id reply))
             (rows_of (id (this c)) (world c')) /\
      console (world c') = console (world c) /\
      sent (network (world c'))
        = sent (network (world c))
          ++ [put_request (this c); post_request (this c)].
Proof.
  intros c e r reply Hid Hput Hfail Hpost Hok Hjson Hnew.
  unfold answer in Hput, Hpost. rewrite app_nil_r in Hput.
  set (c1 := mkCtx (set_sync_status syncing (this c))
               (stored (id (this c)) TaskAdapter.fields_markAsSyncing (world c))).
  pose proof (@update_offline c1 e Hput Hfail) as Hupdate.
  set (c2 := mkCtx (this c1)
               (set_network (mkNetwork (respond (network (world c1)))
                               (sent (network (world c1)) ++ [put_request (this c1)]))
                  (world c1))) in *.
  pose proof (@create_answered c2 r reply Hpost Hok Hjson) as Hcreate.
  unfold SyncManager.syncTask, try_catch, SyncManager.syncTask_try.
  rewrite (bind_ok _ (run_markAsSyncing c)). fold c1.
  erewrite bind_ok by reflexivity. cbn [this c1].
  change (server_id (set_sync_status syncing (this c))) with (server_id (this c)).
  unfold serverId_set in Hid. rewrite Hid. cbn [negb].
  rewrite (bind_ok _ Hupdate). fold c2.
  rewrite (bind_ok _ Hcreate).
  rewrite run_markAsSynced. cbv zeta.
  eexists. split; [reflexivity |]. cbn [this world c1 c2].
  assert (Htruthy : truthy_str (reply_id reply) = true).
  { destruct (reply_id reply); [congruence | reflexivity]. }
  unfold marked_synced. cbn [truthy always_truthy]. rewrite Htruthy.
  cbn [sync_status server_id server_status
         set_server_status set_server_id set_synced_at set_sync_status].
  repeat (split; [reflexivity |]).
  split; [| split].
  - rewrite rows_of_stored. apply Forall_forall. intros row Hin.
    apply in_map_iff in Hin. destruct Hin as (r0 & <- & _).
    cbn [SqliteDb.apply_updates TaskAdapter.fields_markAsSynced sync_status
           server_id u_sync_status u_server_id SqliteDb.written
           SqliteDb.written_or_null or_null
           set_server_status set_server_id set_synced_at set_sync_status].
    rewrite Htruthy. split; reflexivity.
  - reflexivity.
  - rewrite stored_network. cbn [network set_network sent]. rewrite stored_network.
    now rewrite <- app_assoc.
Qed.

Lemma X13_a_failed_update_is_followed_by_a_creation_witness :
  let c := sample_ctx flaky_server in
  let e := mkError (js "TypeError") (js "Network request failed") in
  let reply := mkReply (js "srv_9") done in
  let r := mkHttpResponse true (js "OK") (Ok reply) in
  serverId_set (this c) = true /\
  server_id (this c) = val (js "srv_1") /\
  answer (world c) [] (put_request (this c)) = Rejected e /\
  SyncManager.network_failure e = true /\
  answer (world c) [put_request (this c)] (post_request (this c)) = Resolved r /\
  exists c',
    SyncManager.syncTask real_server c = (Ok tt, c') /\
    sync_status (this c') = synced /\
    server_id (this c') = val (js "srv_9").
Proof.
  cbv zeta. repeat (split; [reflexivity |]).
  assert (Hnew : reply_id (mkReply (js "srv_9") done) <> []) by discriminate.
  destruct (@X13_a_failed_update_is_followed_by_a_creation
              (sample_ctx flaky_server)
              (mkError (js "TypeError") (js "Network request failed"))
              (mkHttpResponse true (js "OK") (Ok (mkReply (js "srv_9") done)))
              (mkReply (js "srv_9") done)
              eq_refl eq_refl eq_refl eq_refl eq_refl eq_refl Hnew)
    as (c' & H1 & H2 & H3 & _).
  exists c'. split; [exact H1 |]. split; [exact H2 | exact H3].
Defined.

(** X14.  When the client wins a conflict (the task is done locally and
    cancelled on the server), [handleConflict] sends the local state again
    and marks the task synced without looking at the outcome: if that
    second request fails on the network, the task is still marked synced,
    with the local status recorded as the server status, and nothing is
    logged. *)
Theorem X14_client_wins_is_marked_synced_without_the_push :
  forall (c : Ctx) (known : TaskStatus) (r : HttpResponse) (reply : ServerReply)
         (e : JsError),
    serverId_set (this c) = true ->
    status (this c) = done ->
    server_status (this c) = val known ->
    known <> done ->
    answer (world c) [] (put_request (this c)) = Resolved r ->
    ok r = true ->
    json r = Ok reply ->
    reply_status reply = cancelled ->
    answer (world c) [put_request (this c)] (put_request (this c)) = Rejected e ->
    SyncManager.network_failure e = true ->
    exists c',
      SyncManager.syncTask real_server c = (Ok tt, c') /\
      sync_status (this c') = synced /\
      status (this c') = done /\
      server_status (this c') = val done /\
      conflict_resolution (this c') = val client_wins /\
      Forall (fun row => sync_status row = synced /\ server_status row = val done)
             (rows_of (id (this c)) (world c')) /\
      console (world c') = console (world c) /\
      sent (network (world c'))
        = sent (network (world c)) ++ [put_request (this c); put_request (this c)].
Proof.
  intros c known r reply e Hid Hdone Hknown Hne Hput Hok Hjson Hcancelled
    Hpush Hfail.
  unfold answer in Hput, Hpush. rewrite app_nil_r in Hput.
  set (c1 := mkCtx (set_sync_status syncing (this c))
               (stored (id (this c)) TaskAdapter.fields_markAsSyncing (world c))).
  pose proof (@update_answered c1 r reply Hput Hok Hjson) as Hupdate.
  rewrite Hcancelled in Hupdate.
  set (c2 := mkCtx (this c1)
               (set_network (mkNetwork (respond (network (world c1)))
                               (sent (network (world c1)) ++ [put_request (this c1)]))
                  (world c1))) in *.
  assert (Hdetected : SyncManager.conflict_detected cancelled (this c2) = true).
  { unfold SyncManager.conflict_detected. cbn [this c2 c1 status server_status
      set_sync_status]. rewrite Hdone, Hknown.
    destruct known; try reflexivity. congruence. }
  set (d3 := conflict_resolved client_wins done (clock (world c2)) (this c2)).
  set (c3 := mkCtx d3 (stored (id (this c2))
                         (TaskAdapter.fields_resolveConflict client_wins d3)
                         (world c2))).
  assert (Hsame : put_request d3 = put_request (this c)).
  { unfold put_request, SyncManager.body_of. subst d3 c2 c1.
    cbn [this conflict_resolved server_id title description status
           set_updated_at set_sync_status set_status set_conflict_resolution].
    now rewrite Hdone. }
  assert (Hpush3 : respond (network (world c3)) (sent (network (world c3)))
                     (put_request (this c3)) = Rejected e).
  { cbn [this c3]. rewrite Hsame. exact Hpush. }
  pose proof (@update_offline c3 e Hpush3 Hfail) as Hupdate3.
  unfold SyncManager.syncTask, try_catch, SyncManager.syncTask_try.
  rewrite (bind_ok _ (run_markAsSyncing c)). fold c1.
  erewrite bind_ok by reflexivity. cbn [this c1].
  change (server_id (set_sync_status syncing (this c))) with (server_id (this c)).
  unfold serverId_set in Hid. rewrite Hid. cbn [negb].
  rewrite (bind_ok _ Hupdate). fold c2.
  erewrite bind_ok by reflexivity.
  rewrite Hdetected.
  unfold SyncManager.handleConflict.
  erewrite bind_ok by reflexivity.
  replace (status (this c2)) with done by (symmetry; exact Hdone).
  cbn [SyncManager.decide TaskStatus_eqb andb].
  rewrite (bind_ok _ (run_resolveConflict client_wins done c2)). cbv zeta.
  fold d3. fold c3. cbn [ConflictResolution_eqb].
  rewrite (bind_ok _ Hupdate3).
  erewrite bind_ok by reflexivity.
  rewrite run_markAsSynced. cbv zeta.
  eexists. split; [reflexivity |]. cbn [this world].
  assert (Htruthy : truthy truthy_str (server_id (this c3)) = true) by exact Hid.
  unfold marked_synced. rewrite Htruthy. cbn [truthy always_truthy].
  cbn [sync_status status server_status conflict_resolution
         set_server_status set_server_id set_synced_at set_sync_status].
  split; [reflexivity |]. split; [reflexivity |]. split; [reflexivity |].
  split; [reflexivity |]. split; [| split].
  - change (id (this c)) with (id (this c3)). rewrite rows_of_stored.
    apply Forall_forall. intros row Hin.
    apply in_map_iff in Hin. destruct Hin as (r0 & <- & _).
    split; reflexivity.
  - reflexivity.
  - rewrite stored_network. cbn [network set_network sent c3 world].
    rewrite stored_network. cbn [network set_network sent c2 world].
    cbn [c1 world]. rewrite stored_network.
    change (this c3) with d3. rewrite Hsame.
    now rewrite <- app_assoc.
Qed.

Lemma X14_client_wins_is_marked_synced_without_the_push_witness :
  let c := mkCtx done_task (world_with [done_task] None cancelling_then_down) in
  let reply := mkReply (js "srv_1") cancelled in
  let r := mkHttpResponse true (js "OK") (Ok reply) in
  let e := mkError (js "TypeError") (js "Network request failed") in
  status (this c) = done /\
  server_status (this c) = val in_progress /\
  answer (world c) [] (put_request (this c)) = Resolved r /\
  answer (world c) [put_request (this c)] (put_request (this c)) = Rejected e /\
  exists c',
    SyncManager.syncTask real_server c = (Ok tt, c') /\
    sync_status (this c') = synced /\
    server_status (this c') = val done /\
    List.length (sent (network (world c'))) = 2%nat.
Proof.
  cbv zeta. repeat (split; [reflexivity |]).
  assert (Hne : in_progress <> done) by discriminate.
  destruct (@X14_client_wins_is_marked_synced_without_the_push
              (mkCtx done_task (world_with [done_task] None cancelling_then_down))
              in_progress
              (mkHttpResponse true (js "OK") (Ok (mkReply (js "srv_1") cancelled)))
              (mkReply (js "srv_1") cancelled)
              (mkError (js "TypeError") (js "Network request failed"))
              eq_refl eq_refl eq_refl Hne eq_refl eq_refl eq_refl eq_refl
              eq_refl eq_refl)
    as (c' & H1 & H2 & _ & H4 & _ & _ & _ & H8).
  exists c'. split; [exact H1 |]. split; [exact H2 |]. split; [exact H4 |].
  rewrite H8. reflexivity.
Defined.

Section DeleteThenDrain.

Lemma handleDelete_queued c sid :
  server_id (this c) = val sid ->
  truthy_str sid = true ->
  exists w',
    TaskDetail.handleDelete c = (Ok tt, mkCtx (this c) w') /\
    async_storage w'
      = Some (queue_of (world c)
              ++ [mkQueueItem sid act_delete undefined (clock (world c))]) /\
    network w' = network (world c) /\
    manager w' = manager (world c) /\
    console w' = console (world c) /\
    rows (sqlite w')
      = filter (fun row => negb (str_eqb (id row) (id (this c))))
               (rows (sqlite (world c))).
Proof.
  destruct c as [t w]. cbn [this world]. intros Hsid Htruthy.
  unfold TaskDetail.handleDelete, try_catch.
  rewrite (bind_ok _ (run_destroyPermanently _)). cbn [this world].
  erewrite bind_ok by reflexivity. cbn [this].
  rewrite Hsid, Htruthy.
  eexists. split; [reflexivity |]. repeat split.
Qed.

Lemma drain_one_run w item :
  isOnline (manager w) = true ->
  async_storage w = Some [item] ->
  SyncManager.processSyncQueue real_server w =
  match SyncManager.drain_step real_server item [] w with
  | (Ok [], w1) => (Ok tt, set_async_storage None w1)
  | (Ok (x :: q), w1) => (Ok tt, set_async_storage (Some (x :: q)) w1)
  | (Throw e, w1) =>
      console_error (js "Error processing sync queue:") e w1
  end.
Proof.
  intros Hon Hq. unfold SyncManager.processSyncQueue. unfold bind at 1.
  cbn [gets]. rewrite Hon. cbn [negb]. unfold try_catch. unfold bind at 1.
  cbn [gets]. rewrite Hq. cbn [SyncManager.drain_loop]. unfold bind.
  destruct (SyncManager.drain_step real_server item [] w) as [[[| x q] | e] w1];
    reflexivity.
Qed.

Lemma process_delete_run sid d ts w :
  truthy_str sid = true ->
  SyncManager.process_item real_server (mkQueueItem sid act_delete d ts) w =
  (match respond (network w) (sent (network w)) (delete_request sid) with
   | Rejected e => Throw e
   | Resolved r =>
       if ok r then Ok tt
       else Throw (new_Error (js "Failed to delete task: " ++ statusText r))
   end,
   set_network (mkNetwork (respond (network w))
                  (sent (network w) ++ [delete_request sid])) w).
Proof.
  intros Htruthy. unfold SyncManager.process_item.
  cbn [action taskId USE_MOCK_API real_server]. rewrite Htruthy.
  unfold bind. rewrite fetch_run. fold (delete_request sid).
  destruct (respond (network w) (sent (network w)) (delete_request sid))
    as [e | r]; [reflexivity |].
  destruct (ok r); reflexivity.
Qed.

End DeleteThenDrain.

(** X15.  Deleting a task that has a server identifier and then draining
    the queue, online and against the real server, with no other item
    queued: the drain sends exactly one request, DELETE to the path of the
    server identifier (not of the local one).  When the server accepts it
    the queue is removed; when the server answers with an error status the
    item stays queued, and the error is logged unless its message reads
    like a network failure. *)
Theorem X15_a_deleted_task_is_deleted_on_the_server_by_the_next_drain :
  forall (c : Ctx) (sid : jsstring) (r : HttpResponse),
    server_id (this c) = val sid ->
    truthy_str sid = true ->
    async_storage (world c) = None ->
    isOnline (manager (world c)) = true ->
    answer (world c) [] (delete_request sid) = Resolved r ->
    exists c' w'',
      TaskDetail.handleDelete c = (Ok tt, c') /\
      SyncManager.processSyncQueue real_server (world c') = (Ok tt, w'') /\
      sent (network w'') = sent (network (world c)) ++ [delete_request sid] /\
      rows (sqlite w'') = rows (sqlite (world c')) /\
      (ok r = true ->
       async_storage w'' = None /\ console w'' = console (world c)) /\
      (ok r = false ->
       let error := new_Error (js "Failed to delete task: " ++ statusText r) in
       async_storage w''
         = Some [mkQueueItem sid act_delete undefined (clock (world c))] /\
       console w''
         = if SyncManager.network_failure error then console (world c)
           else console (world c) ++ [(js "Error processing queue item:", error)]).
Proof.
  intros c sid r Hsid Htruthy Hempty Hon Hresp.
  unfold answer in Hresp. rewrite app_nil_r in Hresp.
  destruct (handleDelete_queued Hsid Htruthy)
    as (w' & Hrun & Hq & Hn & Hm & Hc & Hrows).
  unfold queue_of in Hq. rewrite Hempty in Hq. cbn [app] in Hq.
  exists (mkCtx (this c) w'). cbn [world].
  assert (Hon' : isOnline (manager w') = true) by now rewrite Hm.
  rewrite (drain_one_run Hon' Hq).
  unfold SyncManager.drain_step, try_catch. unfold bind at 1.
  rewrite (process_delete_run _ _ _ Htruthy). rewrite Hn, Hresp.
  destruct (ok r) eqn:Hok.
  - eexists. split; [eassumption |]. split; [reflexivity |].
    split; [reflexivity |]. split; [reflexivity |].
    split; [intros _ | discriminate]. split; [reflexivity | exact Hc].
  - set (error := new_Error (js "Failed to delete task: " ++ statusText r)).
    assert (Hconn : SyncManager.connectivity_error error
                    = SyncManager.network_failure error).
    { unfold SyncManager.connectivity_error. apply orb_false_r. }
    rewrite Hconn.
    destruct (SyncManager.network_failure error) eqn:Hnf.
    + eexists. split; [eassumption |]. split; [reflexivity |].
      split; [reflexivity |]. split; [reflexivity |].
      split; [discriminate | intros _].
      split; [reflexivity | exact Hc].
    + eexists. split; [eassumption |]. split; [reflexivity |].
      split; [reflexivity |]. split; [reflexivity |].
      split; [discriminate | intros _].
      split; [reflexivity |]. cbn. now rewrite Hc.
Qed.

Lemma X15_a_deleted_task_is_deleted_on_the_server_by_the_next_drain_witness :
  let c := sample_ctx done_server in
  let r := mkHttpResponse true (js "OK") (Ok (mkReply (js "srv_9") done)) in
  server_id (this c) = val (js "srv_1") /\
  async_storage (world c) = None /\
  isOnline (manager (world c)) = true /\
  answer (world c) [] (delete_request (js "srv_1")) = Resolved r /\
  exists c' w'',
    TaskDetail.handleDelete c = (Ok tt, c') /\
    SyncManager.processSyncQueue real_server (world c') = (Ok tt, w'') /\
    sent (network w'') = [delete_request (js "srv_1")] /\
    async_storage w'' = None.
Proof.
  cbv zeta. repeat (split; [reflexivity |]).
  destruct (@X15_a_deleted_task_is_deleted_on_the_server_by_the_next_drain
              (sample_ctx done_server) (js "srv_1")
              (mkHttpResponse true (js "OK") (Ok (mkReply (js "srv_9") done)))
              eq_refl eq_refl eq_refl eq_refl eq_refl)
    as (c' & w'' & H1 & H2 & H3 & _ & H5 & _).
  exists c', w''. split; [exact H1 |]. split; [exact H2 |].
  split; [exact H3 |]. exact (proj1 (H5 eq_refl)).
Defined.

(** ** Sorted arrays *)

Section Sorting.

Context {A : Type}.
Variable compare : A -> A -> Z.

Hypothesis compare_total :
  forall x y, not_after compare x y \/ not_after compare y x.
Hypothesis compare_trans :
  forall x y z,
    not_after compare x y -> not_after compare y z -> not_after compare x z.

Lemma insert_by_perm x l : Permutation (insert_by compare x l) (x :: l).
Proof.
  induction l as [| y l IH]; cbn [insert_by]; [reflexivity |].
  destruct (compare x y <=? 0)%Z; [reflexivity |].
  rewrite IH. apply perm_swap.
Qed.

Lemma sort_by_perm l : Permutation (sort_by compare l) l.
Proof.
  induction l as [| x l IH]; cbn; [reflexivity |].
  fold (sort_by compare l). rewrite insert_by_perm. now constructor.
Qed.

Lemma insert_by_sorted x l :
  StronglySorted (not_after compare) l -> StronglySorted (not_after compare) (insert_by compare x l).
Proof.
  induction 1 as [| y l Hl IH Hy]; cbn [insert_by].
  - repeat constructor.
  - destruct (Z.leb_spec (compare x y) 0) as [Hle | Hgt].
    + constructor; [now constructor |].
      constructor; [exact Hle |].
      eapply Forall_impl; [| exact Hy]. intros z Hz.
      now apply compare_trans with y.
    + constructor; [exact IH |].
      eapply Permutation_Forall; [symmetry; apply insert_by_perm |].
      constructor; [| exact Hy].
      destruct (compare_total x y) as [H | H]; [| exact H].
      unfold not_after in H. lia.
Qed.

Lemma sort_by_sorted l : StronglySorted (not_after compare) (sort_by compare l).
Proof.
  induction l as [| x l IH]; cbn; [constructor |].
  now apply insert_by_sorted.
Qed.

Lemma sort_by_sorted_input l :
  StronglySorted (not_after compare) l -> sort_by compare l = l.
Proof.
  induction 1 as [| x l Hl IH Hx]; [reflexivity |].
  cbn [sort_by fold_right]. fold (sort_by compare l). rewrite IH.
  destruct l as [| y l']; [reflexivity |]. cbn [insert_by].
  inversion Hx as [| ? ? Hxy _]; subst. unfold not_after in Hxy.
  destruct (Z.leb_spec (compare x y) 0); [reflexivity | lia].
Qed.

End Sorting.

Lemma StronglySorted_weaken A (P Q : A -> A -> Prop) l :
  (forall a b, P a b -> Q a b) -> StronglySorted P l -> StronglySorted Q l.
Proof.
  intros HPQ. induction 1 as [| x l Hl IH Hx]; constructor; [exact IH |].
  eapply Forall_impl; [| exact Hx]. intros b. apply HPQ.
Qed.

(** ** The task list *)

Section TaskListView.

Lemma by_time_in_order sortOrder a b :
  not_after (TaskList.by_time sortOrder) a b -> in_order sortOrder a b.
Proof.
  unfold not_after, TaskList.by_time, in_order. destruct sortOrder; lia.
Qed.

Lemma filteredTasks_sorted tasks selected sortOrder :
  StronglySorted (in_order sortOrder)
    (TaskList.filteredTasks tasks selected sortOrder).
Proof.
  unfold TaskList.filteredTasks.
  eapply StronglySorted_weaken; [| apply sort_by_sorted].
  - intros a b. apply by_time_in_order.
  - intros x y. unfold not_after, TaskList.by_time. destruct sortOrder; lia.
  - intros x y z. unfold not_after, TaskList.by_time. destruct sortOrder; lia.
Qed.

Lemma status_eqb_eq a b : TaskStatus_eqb a b = true <-> a = b.
Proof. destruct a, b; cbn; split; intros H; try reflexivity; discriminate. Qed.

Lemma mod2_succ s : Nat.eqb (S s mod 2) 0 = negb (Nat.eqb (s mod 2) 0).
Proof.
  pose proof (Nat.div_mod_eq s 2). pose proof (Nat.div_mod_eq (S s) 2).
  pose proof (Nat.mod_upper_bound s 2). pose proof (Nat.mod_upper_bound (S s) 2).
  destruct (Nat.eqb_spec (S s mod 2) 0), (Nat.eqb_spec (s mod 2) 0); cbn; lia.
Qed.

(** The loop that fills the columns, from the index [s] on. *)
Lemma columns_from (l : list TaskData) :
  forall s left right,
    fold_left
      (fun cols it =>
         if Nat.eqb (fst it mod 2) 0
         then (fst cols ++ [snd it], snd cols)
         else (fst cols, snd cols ++ [snd it]))
      (combine (seq s (List.length l)) l) (left, right)
    = if Nat.eqb (s mod 2) 0
      then (left ++ fst (alternate l), right ++ snd (alternate l))
      else (left ++ snd (alternate l), right ++ fst (alternate l)).
Proof.
  induction l as [| x l IH]; intros s left right.
  - cbn [List.length seq combine fold_left alternate fst snd].
    rewrite !app_nil_r. now destruct (Nat.eqb (s mod 2) 0).
  - cbn [List.length seq combine fold_left fst snd alternate].
    destruct (alternate l) as [evens odds] eqn:Halt. cbn [fst snd] in *.
    destruct (Nat.eqb (s mod 2) 0) eqn:Hs; cbn [fst snd];
      rewrite IH, mod2_succ, Hs; cbn [negb]; now rewrite <- !app_assoc.
Qed.

Lemma alternate_nth A (l : list A) :
  forall k,
    nth_error (fst (alternate l)) k = nth_error l (2 * k) /\
    nth_error (snd (alternate l)) k = nth_error l (2 * k + 1).
Proof.
  induction l as [| x l IH]; intros k.
  - cbn [alternate fst snd]. rewrite !nth_error_nil. now split.
  - cbn [alternate]. destruct (alternate l) as [evens odds]. cbn [fst snd] in *.
    split.
    + destruct k as [| k]; [reflexivity |].
      replace (2 * S k)%nat with (S (2 * k + 1)) by lia. cbn [nth_error].
      apply IH.
    + replace (2 * k + 1)%nat with (S (2 * k)) by lia. cbn [nth_error].
      apply IH.
Qed.

Lemma alternate_length A (l : list A) :
  List.length (fst (alternate l)) = ((List.length l + 1) / 2)%nat /\
  List.length (snd (alternate l)) = (List.length l / 2)%nat.
Proof.
  induction l as [| x l IH]; [split; reflexivity |].
  cbn [alternate]. destruct (alternate l) as [evens odds]. cbn [fst snd List.length] in *.
  destruct IH as [He Ho]. rewrite He, Ho.
  pose proof (Nat.div_mod_eq (List.length l) 2).
  pose proof (Nat.div_mod_eq (List.length l + 1) 2).
  pose proof (Nat.div_mod_eq (S (List.length l)) 2).
  pose proof (Nat.div_mod_eq (S (List.length l) + 1) 2).
  pose proof (Nat.mod_upper_bound (List.length l) 2).
  pose proof (Nat.mod_upper_bound (List.length l + 1) 2).
  pose proof (Nat.mod_upper_bound (S (List.length l)) 2).
  pose proof (Nat.mod_upper_bound (S (List.length l) + 1) 2).
  split; lia.
Qed.

End TaskListView.

(** X19.  The tasks the list shows are sorted by their time of update in
    the chosen order.  With the filter 'all' they are all the tasks, each
    exactly once; with a status selected they are exactly the tasks of
    that status.  With the filter 'all' and the order 'desc' the list
    shows the tasks in the order in which the store delivers them. *)
Theorem X19_the_task_list_shows_the_selected_tasks_in_order :
  forall (tasks : list TaskData) (sortOrder : TaskList.SortOrder),
    (forall selected,
        StronglySorted (in_order sortOrder)
          (TaskList.filteredTasks tasks selected sortOrder)) /\
    Permutation (TaskList.filteredTasks tasks TaskList.all_statuses sortOrder)
      tasks /\
    (forall s,
        Permutation (TaskList.filteredTasks tasks (TaskList.only s) sortOrder)
          (filter (fun task => TaskStatus_eqb (status task) s) tasks) /\
        forall task,
          In task (TaskList.filteredTasks tasks (TaskList.only s) sortOrder)
          <-> In task tasks /\ status task = s) /\
    TaskList.filteredTasks (SqliteDb.order_by_updated_at_desc tasks)
      TaskList.all_statuses TaskList.desc
    = SqliteDb.order_by_updated_at_desc tasks.
Proof.
  intros tasks sortOrder. split; [| split; [| split]].
  - intros selected. apply filteredTasks_sorted.
  - apply sort_by_perm.
  - intros s. split; [apply sort_by_perm |].
    intros task. unfold TaskList.filteredTasks. split.
    + intros Hin. eapply Permutation_in in Hin; [| apply sort_by_perm].
      apply filter_In in Hin. now rewrite status_eqb_eq in Hin.
    + intros [Hin Hs]. eapply Permutation_in; [symmetry; apply sort_by_perm |].
      apply filter_In. now rewrite status_eqb_eq.
  - unfold TaskList.filteredTasks. apply sort_by_sorted_input.
    eapply StronglySorted_weaken; [| apply order_by_sorted].
    intros a b. unfold newer_first, not_after, TaskList.by_time. lia.
Qed.

Lemma X19_the_task_list_shows_the_selected_tasks_in_order_witness :
  let tasks := [fresh_task; sample_task; synced_task] in
  In synced_task tasks /\ status synced_task = in_progress /\
  In synced_task
    (TaskList.filteredTasks tasks (TaskList.only in_progress) TaskList.asc).
Proof.
  cbv zeta.
  assert (Hin : In synced_task [fresh_task; sample_task; synced_task]).
  { right. right. left. reflexivity. }
  split; [exact Hin |]. split; [reflexivity |].
  destruct (X19_the_task_list_shows_the_selected_tasks_in_order
              [fresh_task; sample_task; synced_task] TaskList.asc)
    as (_ & _ & H & _).
  destruct (H in_progress) as (_ & Hiff).
  apply Hiff. split; [exact Hin | reflexivity].
Defined.

(** X20.  The two columns of the task list split the shown tasks by
    position: the left column holds the tasks at the even positions and
    the right column those at the odd positions, in their order, so that
    row [k] of the grid shows the tasks [2k] and [2k+1]; the left column
    is as long as the right one or longer by one. *)
Theorem X20_the_columns_alternate :
  forall (filtered : list TaskData),
    let (leftColumn, rightColumn) := TaskList.columns filtered in
    (forall k, nth_error leftColumn k = nth_error filtered (2 * k)) /\
    (forall k, nth_error rightColumn k = nth_error filtered (2 * k + 1)) /\
    List.length leftColumn = ((List.length filtered + 1) / 2)%nat /\
    List.length rightColumn = (List.length filtered / 2)%nat.
Proof.
  intros filtered. unfold TaskList.columns.
  rewrite (columns_from filtered 0 [] []). cbn [Nat.modulo Nat.eqb app].
  change (Nat.eqb (0 mod 2) 0) with true. cbn [app].
  destruct (alternate filtered) as [evens odds] eqn:Halt. cbn [fst snd].
  pose proof (alternate_nth filtered) as Hnth.
  pose proof (alternate_length filtered) as Hlen.
  rewrite Halt in Hnth, Hlen. cbn [fst snd] in Hnth, Hlen.
  split; [intros k; apply Hnth |]. split; [intros k; apply Hnth |]. exact Hlen.
Qed.

(** ** The images of the edit screen *)

Section Images.

Lemma without_out_of_range A (l : list A) :
  forall s index,
    (index < s \/ s + List.length l <= index)%nat ->
    map snd (filter (fun it => negb (Nat.eqb (fst it) index))
                    (combine (seq s (List.length l)) l)) = l.
Proof.
  induction l as [| x l IH]; intros s index Hout; [reflexivity |].
  cbn [List.length seq combine filter fst].
  destruct (Nat.eqb_spec s index) as [-> | Hne]; cbn [negb] in *.
  - cbn [List.length] in Hout. lia.
  - cbn [map snd]. f_equal. apply IH. cbn [List.length] in Hout. lia.
Qed.

Lemma without_from A (l : list A) :
  forall s index,
    map snd (filter (fun it => negb (Nat.eqb (fst it) (s + index)))
                    (combine (seq s (List.length l)) l))
    = firstn index l ++ skipn (S index) l.
Proof.
  induction l as [| x l IH]; intros s index.
  - now destruct index.
  - cbn [List.length seq combine filter fst].
    destruct index as [| index].
    + rewrite Nat.add_0_r, Nat.eqb_refl. cbn [negb firstn skipn app].
      apply without_out_of_range. lia.
    + destruct (Nat.eqb_spec s (s + S index)) as [Heq | _]; [lia |].
      cbn [negb map snd firstn skipn app]. f_equal.
      replace (s + S index)%nat with (S s + index)%nat by lia. apply IH.
Qed.

End Images.

(** X21.  [removeImage] drops the image at the given position and keeps
    the others in their order; a position beyond the end of the list
    leaves the list as it is. *)
Theorem X21_removeImage_drops_one_position :
  forall (index : nat) (prev : list jsstring),
    TaskDetail.removeImage index prev = firstn index prev ++ skipn (S index) prev /\
    (forall k, (k < index)%nat ->
               nth_error (TaskDetail.removeImage index prev) k = nth_error prev k) /\
    (forall k, (index <= k)%nat ->
               nth_error (TaskDetail.removeImage index prev) k
               = nth_error prev (S k)) /\
    ((List.length prev <= index)%nat -> TaskDetail.removeImage index prev = prev).
Proof.
  intros index prev.
  assert (Heq : TaskDetail.removeImage index prev
                = firstn index prev ++ skipn (S index) prev).
  { unfold TaskDetail.removeImage, without_index. apply (without_from prev 0 index). }
  split; [exact Heq |]. split; [| split].
  - intros k Hk. rewrite Heq.
    destruct (Nat.le_gt_cases (List.length prev) k) as [Hlen | Hlen].
    + rewrite (proj2 (nth_error_None prev k)) by exact Hlen.
      apply nth_error_None. rewrite length_app, length_firstn, length_skipn. lia.
    + rewrite nth_error_app1 by (rewrite length_firstn; lia).
      rewrite nth_error_firstn.
      destruct (Nat.ltb_spec k index); [reflexivity | lia].
  - intros k Hk. rewrite Heq.
    destruct (Nat.le_gt_cases (List.length prev) index) as [Hlen | Hlen].
    + rewrite firstn_all2 by exact Hlen. rewrite skipn_all2 by lia.
      rewrite app_nil_r.
      rewrite (proj2 (nth_error_None prev k)) by lia.
      symmetry. apply nth_error_None. lia.
    + rewrite nth_error_app2 by (rewrite length_firstn; lia).
      rewrite length_firstn, nth_error_skipn.
      f_equal. lia.
  - intros Hlen. rewrite Heq. rewrite firstn_all2 by exact Hlen.
    rewrite skipn_all2 by lia. apply app_nil_r.
Qed.

Lemma X21_removeImage_drops_one_position_witness :
  let prev := [js "a.jpg"; js "b.jpg"; js "c.jpg"] in
  (1 <= 1)%nat /\ (List.length prev <= 7)%nat /\
  nth_error (TaskDetail.removeImage 1 prev) 1 = Some (js "c.jpg") /\
  TaskDetail.removeImage 7 prev = prev.
Proof.
  cbv zeta.
  destruct (X21_removeImage_drops_one_position 1 [js "a.jpg"; js "b.jpg"; js "c.jpg"])
    as (_ & _ & H3 & _).
  destruct (X21_removeImage_drops_one_position 7 [js "a.jpg"; js "b.jpg"; js "c.jpg"])
    as (_ & _ & _ & H4).
  assert (H11 : (1 <= 1)%nat) by apply le_n.
  assert (Hlen : (List.length [js "a.jpg"; js "b.jpg"; js "c.jpg"] <= 7)%nat).
  { cbn. repeat constructor. }
  split; [exact H11 |]. split; [exact Hlen |].
  split; [rewrite (H3 1%nat H11); reflexivity | exact (H4 Hlen)].
Defined.

Section DefaultSort.

Lemma str_compare_total x : forall y,
  not_after str_compare x y \/ not_after str_compare y x.
Proof.
  unfold not_after.
  induction x as [| a x IH]; intros [| b y]; cbn [str_compare]; try lia.
  destruct (N.ltb_spec a b), (N.ltb_spec b a); try lia. apply IH.
Qed.

Lemma str_compare_trans x : forall y z,
  not_after str_compare x y -> not_after str_compare y z ->
  not_after str_compare x z.
Proof.
  unfold not_after.
  induction x as [| a x IH]; intros [| b y] [| c z]; cbn [str_compare]; try lia.
  destruct (N.ltb_spec a b), (N.ltb_spec b a), (N.ltb_spec b c),
    (N.ltb_spec c b), (N.ltb_spec a c), (N.ltb_spec c a); try lia.
  apply IH.
Qed.

Lemma str_compare_antisym x : forall y,
  not_after str_compare x y -> not_after str_compare y x -> x = y.
Proof.
  unfold not_after.
  induction x as [| a x IH]; intros [| b y]; cbn [str_compare]; try lia.
  - reflexivity.
  - destruct (N.ltb_spec a b), (N.ltb_spec b a); try lia.
    intros H1 H2. f_equal; [lia | now apply IH].
Qed.

(** Two sorted lists with the same elements are the same list. *)
Lemma sorted_perm_unique A (R : A -> A -> Prop) :
  (forall a b, R a b -> R b a -> a = b) ->
  forall l1 l2,
    StronglySorted R l1 -> StronglySorted R l2 -> Permutation l1 l2 -> l1 = l2.
Proof.
  intros Hanti. induction l1 as [| a l1 IH]; intros l2 H1 H2 Hperm.
  - apply Permutation_nil in Hperm. now subst.
  - destruct l2 as [| b l2].
    { apply Permutation_sym, Permutation_nil in Hperm. discriminate. }
    apply StronglySorted_inv in H1. destruct H1 as [H1 Ha].
    apply StronglySorted_inv in H2. destruct H2 as [H2 Hb].
    assert (Hab : a = b).
    { assert (Hin_a : In a (b :: l2)).
      { eapply Permutation_in; [exact Hperm | now left]. }
      assert (Hin_b : In b (a :: l1)).
      { eapply Permutation_in; [symmetry; exact Hperm | now left]. }
      destruct Hin_a as [-> | Hin_a]; [reflexivity |].
      destruct Hin_b as [-> | Hin_b]; [reflexivity |].
      rewrite Forall_forall in Ha, Hb. apply Hanti; auto. }
    subst b. f_equal. apply IH; try assumption.
    now apply Permutation_cons_inv in Hperm.
Qed.

Lemma default_sort_canonical l l' :
  default_sort l = default_sort l' <-> Permutation l l'.
Proof.
  unfold default_sort. split; intros H.
  - rewrite <- (sort_by_perm str_compare l), H. apply sort_by_perm.
  - apply (sorted_perm_unique str_compare_antisym).
    + apply sort_by_sorted; [apply str_compare_total | apply str_compare_trans].
    + apply sort_by_sorted; [apply str_compare_total | apply str_compare_trans].
    + rewrite !sort_by_perm. exact H.
Qed.

Lemma stringify_strings_inj l l' :
  stringify (JArray (map JString l)) = stringify (JArray (map JString l')) ->
  l = l'.
Proof.
  intros H.
  pose proof (parse_stringify_strings l) as P1. rewrite H in P1.
  rewrite parse_stringify_strings in P1. inversion P1 as [P2].
  clear - P2. revert l' P2.
  induction l as [| x l IH]; intros [| y l'] P2; try discriminate; [reflexivity |].
  cbn in P2. inversion P2. f_equal. now apply IH.
Qed.

End DefaultSort.

(** X22.  The comparison of the images in [hasUnsavedChanges] sorts both
    image lists in place, by code units, and then compares them: the
    images count as changed exactly when the two lists do not hold the
    same references the same number of times.  Reordering the images is
    therefore not an unsaved change, and after the comparison the list of
    the form is in sorted order whatever order the user had chosen. *)
Theorem X22_reordering_the_images_is_not_a_change :
  forall (imageUris originalImageUris : list jsstring),
    exists changed,
      TaskDetail.imagesChanged (imageUris, originalImageUris)
        = (Ok changed, (default_sort imageUris, default_sort originalImageUris)) /\
      (changed = false <-> Permutation imageUris originalImageUris) /\
      Permutation (default_sort imageUris) imageUris /\
      StronglySorted (not_after str_compare) (default_sort imageUris).
Proof.
  intros a b.
  exists (negb (str_eqb (stringify (JArray (map JString (default_sort a))))
                        (stringify (JArray (map JString (default_sort b)))))).
  split; [reflexivity |]. split; [| split].
  - rewrite negb_false_iff, str_eqb_eq. split.
    + intros H. apply default_sort_canonical. now apply stringify_strings_inj.
    + intros H. apply default_sort_canonical in H. now rewrite H.
  - apply sort_by_perm.
  - apply sort_by_sorted; [apply str_compare_total | apply str_compare_trans].
Qed.

Lemma X22_reordering_the_images_is_not_a_change_witness :
  let shown := [js "b.jpg"; js "a.jpg"] in
  let original := [js "a.jpg"; js "b.jpg"] in
  Permutation shown original /\
  TaskDetail.imagesChanged (shown, original) = (Ok false, (original, original)).
Proof.
  cbv zeta.
  assert (Hperm : Permutation [js "b.jpg"; js "a.jpg"] [js "a.jpg"; js "b.jpg"])
    by apply perm_swap.
  split; [exact Hperm |].
  destruct (X22_reordering_the_images_is_not_a_change
              [js "b.jpg"; js "a.jpg"] [js "a.jpg"; js "b.jpg"])
    as (changed & H1 & H2 & _).
  rewrite H1. rewrite (proj2 H2 Hperm). reflexivity.
Defined.

(** ** Identifiers of tasks *)

Section Uuid.

Lemma nibble_range x :
  unit_interval x -> (0 <= SqliteDb.ToInt32 (x * 16) < 16)%Z.
Proof.
  intros [H0 H1]. unfold SqliteDb.ToInt32.
  destruct x as [n d]. unfold Qle, Qlt in *. cbn in *.
  assert (Hn : (0 <= n)%Z) by lia.
  assert (Hd : (n < Z.pos d)%Z) by lia.
  rewrite Pos.mul_1_r.
  rewrite Z.quot_div_nonneg by lia.
  assert (Hq : (0 <= n * 16 / Z.pos d < 16)%Z).
  { split; [apply Z.div_pos; lia |].
    apply Z.div_lt_upper_bound; lia. }
  rewrite Z.mod_small by lia. lia.
Qed.

Lemma digit_of_x r :
  (0 <= r < 16)%Z ->
  exists ch, SqliteDb.toString16 r = [ch] /\ is_hex_digit ch = true.
Proof.
  intros Hr.
  assert (H : (r = 0 \/ r = 1 \/ r = 2 \/ r = 3 \/ r = 4 \/ r = 5 \/ r = 6 \/
               r = 7 \/ r = 8 \/ r = 9 \/ r = 10 \/ r = 11 \/ r = 12 \/
               r = 13 \/ r = 14 \/ r = 15)%Z) by lia.
  repeat (destruct H as [-> | H]; [eexists; split; reflexivity |]).
  subst r. eexists; split; reflexivity.
Qed.

Lemma digit_of_y r :
  (0 <= r < 16)%Z ->
  exists ch,
    SqliteDb.toString16 (Z.lor (Z.land r 3) 8) = [ch] /\
    is_variant_digit ch = true.
Proof.
  intros Hr.
  assert (H : (r = 0 \/ r = 1 \/ r = 2 \/ r = 3 \/ r = 4 \/ r = 5 \/ r = 6 \/
               r = 7 \/ r = 8 \/ r = 9 \/ r = 10 \/ r = 11 \/ r = 12 \/
               r = 13 \/ r = 14 \/ r = 15)%Z) by lia.
  repeat (destruct H as [-> | H]; [eexists; split; reflexivity |]).
  subst r. eexists; split; reflexivity.
Qed.

Lemma uuid_digits_x x0 :
  unit_interval x0 ->
  exists ch, SqliteDb.uuid_digits 120 x0 = [ch] /\ is_hex_digit ch = true.
Proof. intros H. apply digit_of_x. now apply nibble_range. Qed.

Lemma uuid_digits_y x0 :
  unit_interval x0 ->
  exists ch, SqliteDb.uuid_digits 121 x0 = [ch] /\ is_variant_digit ch = true.
Proof. intros H. apply digit_of_y. now apply nibble_range. Qed.

Lemma replace_xy_is_uuid random k :
  (forall i, unit_interval (random i)) ->
  is_uuid_v4 (SqliteDb.replace_xy SqliteDb.uuid_template random k) = true.
Proof.
  intros Hrandom.
  let t := eval vm_compute in SqliteDb.uuid_template in
    change SqliteDb.uuid_template with t.
  cbn [SqliteDb.replace_xy N.eqb Pos.eqb orb].
  repeat match goal with
  | |- context [SqliteDb.uuid_digits 120 (random ?i)] =>
      let ch := fresh "ch" in let E := fresh "E" in let H := fresh "H" in
      destruct (uuid_digits_x (Hrandom i)) as (ch & E & H); rewrite E; clear E
  | |- context [SqliteDb.uuid_digits 121 (random ?i)] =>
      let ch := fresh "ch" in let E := fresh "E" in let H := fresh "H" in
      destruct (uuid_digits_y (Hrandom i)) as (ch & E & H); rewrite E; clear E
  end.
  cbn [app].
  unfold is_uuid_v4.
  let t := eval vm_compute in (js "hhhhhhhh-hhhh-4hhh-vhhh-hhhhhhhhhhhh") in
    change (js "hhhhhhhh-hhhh-4hhh-vhhh-hhhhhhhhhhhh") with t.
  cbn [has_shape N.eqb Pos.eqb].
  repeat match goal with H : _ = true |- _ => rewrite H; clear H end.
  reflexivity.
Qed.

Lemma has_shape_length shape :
  forall s, has_shape shape s = true -> List.length s = List.length shape.
Proof.
  induction shape as [| p shape IH]; intros [| c s] H; try discriminate.
  - reflexivity.
  - cbn [has_shape] in H. apply andb_true_iff in H. destruct H as [_ H].
    cbn [List.length]. f_equal. now apply IH.
Qed.

Lemma is_uuid_v4_length s : is_uuid_v4 s = true -> List.length s = 36%nat.
Proof.
  intros H. unfold is_uuid_v4 in H. apply has_shape_length in H.
  rewrite H. reflexivity.
Qed.

Lemma uuids_of_is_uuid random n :
  (forall i, unit_interval (random i)) ->
  is_uuid_v4 (SqliteDb.uuids_of random n) = true.
Proof.
  intros Hrandom. unfold SqliteDb.uuids_of. now apply replace_xy_is_uuid.
Qed.

End Uuid.

(** X23.  Whatever values [Math.random] returns, the identifier made by
    [generateUUID] has the shape of a version-4 UUID: thirty-six
    characters, hyphens after the eighth, twelfth, sixteenth and twentieth
    digit, the digit 4 at the head of the third group, one of 8, 9, a, b at
    the head of the fourth, and lower-case hexadecimal digits elsewhere.
    A store whose identifiers are made this way names the next task
    'task_' followed by such an identifier. *)
Theorem X23_task_identifiers_are_version_4_uuids :
  forall (random : nat -> Q),
    (forall i, unit_interval (random i)) ->
    (forall n,
        is_uuid_v4 (SqliteDb.uuids_of random n) = true /\
        List.length (SqliteDb.uuids_of random n) = 36%nat) /\
    (forall w,
        uuid_source (sqlite w) = SqliteDb.uuids_of random ->
        exists uuid,
          next_task_id w = js "task_" ++ uuid /\ is_uuid_v4 uuid = true).
Proof.
  intros random Hrandom. split.
  - intros n. split; [now apply uuids_of_is_uuid |].
    apply is_uuid_v4_length. now apply uuids_of_is_uuid.
  - intros w Hsource.
    exists (uuid_source (sqlite w) (uuids_drawn (sqlite w))).
    split; [reflexivity |].
    rewrite Hsource. now apply uuids_of_is_uuid.
Qed.

Lemma X23_task_identifiers_are_version_4_uuids_witness :
  let random := fun k : nat => (Z.of_nat (k mod 16) # 16)%Q in
  (forall i, unit_interval (random i)) /\
  is_uuid_v4 (SqliteDb.uuids_of random 0) = true /\
  SqliteDb.uuids_of random 0 = js "01234567-89ab-4cde-b012-3456789abcde".
Proof.
  cbv zeta.
  assert (Hrandom : forall i, unit_interval (Z.of_nat (i mod 16) # 16)).
  { intros i.
    assert (Hi : (i mod 16 < 16)%nat) by (apply Nat.mod_upper_bound; discriminate).
    unfold unit_interval, Qle, Qlt. cbn [Qnum Qden]. lia. }
  split; [exact Hrandom |].
  destruct (@X23_task_identifiers_are_version_4_uuids
              (fun k : nat => (Z.of_nat (k mod 16) # 16)%Q) Hrandom) as (H & _).
  split; [exact (proj1 (H 0%nat)) | reflexivity].
Defined.

(** X24.  The images chosen in the detail screen come back from the
    update: after the update of a stored task, the list that the reload
    passes to the form holds the references of the form, in their order.
    This includes the empty list, which clears the images of the task. *)
Theorem X24_the_edit_screen_reloads_the_images_it_saved :
  forall (form : TaskDetail.EditForm) (c : Ctx) (row0 : TaskData),
    truthy_str (trim (TaskDetail.f_title form)) = true ->
    fst (SqliteDb.getTask (id (this c)) (world c)) = Ok (Some row0) ->
    exists c',
      TaskDetail.handleUpdate form c = (Ok true, c') /\
      TaskDetail.loaded_imageUris (this c')
        = map JString (TaskDetail.f_imageUris form).
Proof.
  intros form c row0 Htitle Hget.
  assert (Hfind : find (fun row => str_eqb (id row) (id (this c)))
                    (rows (sqlite (world c))) = Some row0).
  { unfold SqliteDb.getTask, gets in Hget. cbn in Hget. now inversion Hget. }
  destruct (edit_updater_fields form c)
    as (t' & Hupd & Hid & _ & _ & _ & Hi & _).
  eexists. split; [exact (handleUpdate_run Htitle Hfind Hupd Hid) |].
  cbn [this]. unfold TaskDetail.loaded_imageUris.
  destruct (TaskDetail.f_imageUris form) as [| uri uris] eqn:Huris.
  - unfold TaskAdapter.imageUrl.
    cbn [SqliteDb.apply_updates TaskAdapter.all_fields image_url u_image_url].
    rewrite Hi. reflexivity.
  - rewrite (@imageUrl_of_text _ (uri :: uris)); [reflexivity |].
    cbn [SqliteDb.apply_updates TaskAdapter.all_fields image_url u_image_url].
    rewrite Hi. reflexivity.
Qed.

Lemma X24_the_edit_screen_reloads_the_images_it_saved_witness :
  let c := mkCtx synced_task (world_with [synced_task] None offline_network) in
  truthy_str (trim (TaskDetail.f_title equator_form)) = true /\
  fst (SqliteDb.getTask (id (this c)) (world c)) = Ok (Some synced_task) /\
  TaskDetail.f_imageUris equator_form = [] /\
  exists c',
    TaskDetail.handleUpdate equator_form c = (Ok true, c') /\
    TaskDetail.loaded_imageUris (this c') = [].
Proof.
  cbv zeta. split; [reflexivity |]. split; [reflexivity |]. split; [reflexivity |].
  destruct (@X24_the_edit_screen_reloads_the_images_it_saved equator_form
              (mkCtx synced_task (world_with [synced_task] None offline_network))
              synced_task eq_refl eq_refl) as (c' & H1 & H2).
  exists c'. split; [exact H1 | exact H2].
Defined.
